(** * Partition-layout suggestions of archinstall

    A shallow embedding of [archinstall/lib/user_interaction/disk_conf.py]:
    the boot-partition policy [_boot_partition], the filesystem prompt
    [ask_for_main_filesystem_format] and the two planners
    [suggest_single_disk_layout] and [suggest_multi_disk_layout], followed
    by the properties of the layouts they return.

    The value types of the [disk] package (sizes, devices, partitions) and
    the [Menu] of the prompting collaborator are imported by that file; they
    are modelled here in the modules [disk] and [py] and in the section's
    variables, as far as the planners use them. *)

From Stdlib Require Import ZArith List String Bool Lia.
From stdpp Require Import base list.
Import ListNotations.

Set Warnings "-register-all".

Local Open Scope string_scope.
Local Open Scope list_scope.

(** ** Objects and references

    The planners compare devices with [is] and assign to a field of a
    partition after it was added to a modification, so devices and
    partitions are objects: a reference is the position of the object in its
    store. *)

(** A reference to a [BDevice] object. *)
Definition dref := nat.

(** A reference to a [PartitionModification] object. *)
Definition pref := nat.

(** ** The [disk] package: value types *)

Module disk.

(** Modelled from the spec: the [Unit] enumeration of the [disk] package,
    byte multiples with binary prefixes and the special [Percent] unit. *)
Inductive Unit := B | KiB | MiB | GiB | TiB | Percent.

(** Modelled from the spec: the [Size] dataclass,
    [{ value, unit, total_size: optional }]; [total_size] is the reference
    total a [Percent] size is resolved against. *)
Inductive Size :=
| mkSize (value : Z) (unit : Unit) (total_size : option Size).

(** [disk.Size(v, u)], without a reference total. *)
Definition Size_ (v : Z) (u : Unit) : Size := mkSize v u None.

(** [disk.Size(v, disk.Unit.Percent, total_size=t)]. *)
Definition Size_percent (v : Z) (t : Size) : Size := mkSize v Percent (Some t).

Definition unit_bytes (u : Unit) : Z :=
  match u with
  | B => 1
  | KiB => 2 ^ 10
  | MiB => 2 ^ 20
  | GiB => 2 ^ 30
  | TiB => 2 ^ 40
  | Percent => 1
  end.

(** Modelled from the spec: the byte count of a size; a [Percent] size is
    [reference_total * percent / 100].  A [Percent] size without a
    reference total cannot be constructed in the source; the model gives
    it no bytes. *)
Fixpoint normalize (s : Size) : Z :=
  match s with
  | mkSize v Percent (Some t) => normalize t * v / 100
  | mkSize v Percent None => 0
  | mkSize v u _ => v * unit_bytes u
  end.

(** Modelled from the spec: ordering of sizes ([__lt__], [__le__],
    [__gt__], [__ge__]) is the ordering of their byte counts. *)
Definition lt (a b : Size) : bool := (normalize a <? normalize b)%Z.
Definition le (a b : Size) : bool := (normalize a <=? normalize b)%Z.
Definition gt (a b : Size) : bool := (normalize a >? normalize b)%Z.
Definition ge (a b : Size) : bool := (normalize a >=? normalize b)%Z.

(** Modelled from the spec: subtraction of sizes ([__sub__]) is the signed
    difference of the byte counts, a size in bytes that may be negative. *)
Definition sub (a b : Size) : Size :=
  Size_ (normalize a - normalize b) B.

Inductive FilesystemType := Btrfs | Ext4 | F2fs | Fat32 | Ntfs | Xfs.

Definition FilesystemType_eqb (a b : FilesystemType) : bool :=
  match a, b with
  | Btrfs, Btrfs | Ext4, Ext4 | F2fs, F2fs
  | Fat32, Fat32 | Ntfs, Ntfs | Xfs, Xfs => true
  | _, _ => false
  end.

Inductive ModificationStatus := Create.
Inductive PartitionType := Primary.
Inductive PartitionFlag := Boot.

(** [pathlib.Path] values are kept as their strings. *)
Definition Path := string.

(** Modelled from the spec: [SubvolumeModification], a name and a
    mountpoint. *)
Record SubvolumeModification := mkSubvolumeModification {
  subvol_name : Path;
  subvol_mountpoint : Path
}.

(** Modelled from the spec: [PartitionModification]; mount options, flags
    and subvolumes are empty unless given. *)
Record PartitionModification := mkPartitionModification {
  status : ModificationStatus;
  type : PartitionType;
  start : Size;
  length : Size;
  mountpoint : option Path;
  fs_type : FilesystemType;
  mount_options : list string;
  flags : list PartitionFlag;
  btrfs_subvols : list SubvolumeModification
}.

(** Modelled from the spec: [_DeviceInfo], the path and the total size of
    a device, and [BDevice], which holds it. *)
Record _DeviceInfo := mk_DeviceInfo {
  path : Path;
  total_size : Size
}.

Record BDevice := mkBDevice {
  device_info : _DeviceInfo
}.

(** Modelled from the spec: [DeviceModification], a device reference, the
    wipe flag and the partitions in insertion order. *)
Record DeviceModification := mkDeviceModification {
  device : dref;
  wipe : bool;
  partitions : list pref
}.

(** [disk.DeviceModification(device, wipe=w)]. *)
Definition DeviceModification_ (d : dref) (w : bool) : DeviceModification :=
  mkDeviceModification d w [].

(** Modelled from the spec: [add_partition] appends to the partitions. *)
Definition add_partition (m : DeviceModification) (p : pref)
  : DeviceModification :=
  mkDeviceModification (device m) (wipe m) (partitions m ++ [p]).

End disk.

(** ** Python builtins the planners call *)

Module py.

Section Keyed.
Context {A K : Type}.
Variable key : A -> K.
Variable key_lt key_gt : K -> K -> bool.

(** [max(x :: xs, key=key)]: the running maximum is replaced only by an
    element whose key is greater, so the first of the largest is kept. *)
Definition max_by (x : A) (xs : list A) : A :=
  fold_left (fun best y => if key_gt (key y) (key best) then y else best)
            xs x.

(** [sorted(l, key=key)] is stable: an element is placed before the
    first one whose key is not smaller than its own. *)
Fixpoint insert_sorted (x : A) (l : list A) : list A :=
  match l with
  | [] => [x]
  | y :: l' =>
      if key_lt (key y) (key x) then y :: insert_sorted x l'
      else x :: l
  end.

Definition sorted (l : list A) : list A :=
  fold_right insert_sorted [] l.
End Keyed.

Arguments max_by {A K} key key_gt x xs.
Arguments insert_sorted {A K} key key_lt x l.
Arguments sorted {A K} key key_lt l.

(** [min(a, b)] on sizes: [b] only when it is smaller than [a]. *)
Definition min (a b : disk.Size) : disk.Size :=
  if disk.lt b a then b else a.

(** A [dict] keyed by device objects: an association list in insertion
    order; assigning to a key that is present replaces its value in
    place. *)
Fixpoint dict_set {V : Type} (d : list (dref * V)) (k : dref) (v : V)
  : list (dref * V) :=
  match d with
  | [] => [(k, v)]
  | (k', v') :: d' =>
      if Nat.eqb k' k then (k', v) :: d' else (k', v') :: dict_set d' k v
  end.

(** [d[k]] on a [dict] with string keys; [None] stands for [KeyError]. *)
Fixpoint dict_get {V : Type} (d : list (string * V)) (k : string) : option V :=
  match d with
  | [] => None
  | (k', v) :: d' => if String.eqb k' k then Some v else dict_get d' k
  end.

(** [', '.join(l)]. *)
Fixpoint join (sep : string) (l : list string) : string :=
  match l with
  | [] => ""
  | [s] => s
  | s :: l' => s ++ sep ++ join sep l'
  end.

End py.

(** ** Effects: prompts, logging, partition objects *)

(** The menus the planners run, by their prompt. *)
Inductive Prompt :=
| SelectFilesystem
  (* 'Select which filesystem your main partition should use' *)
| UseSubvolumes
  (* 'Would you like to use BTRFS subvolumes with a default structure?' *)
| UseCompression
  (* 'Would you like to use BTRFS compression?' *)
| SeparateHome
  (* 'Would you like to create a separate partition for /home?' *)
| CapacityAdvisory (min_home min_root : disk.Size)
  (* 'The selected drives do not have the minimum capacity required for an
     automatic suggestion', with the two minimum capacities *).

Inductive Event :=
| MenuRun (prompt : Prompt) (options : list string)
| Log (msg : string).

(** [Unallocated] is no Python exception: it is the read of a reference
    that no partition object was created for, which no planner does. *)
Inductive Exn := IndexError | KeyError | Unallocated.

Record World := mkWorld {
  events : list Event;
  store : list disk.PartitionModification
}.

Inductive outcome (A : Type) :=
| Return (a : A)
| Raise (e : Exn).

Arguments Return {A} a.
Arguments Raise {A} e.

Definition M (A : Type) : Type := World -> outcome A * World.

Definition ret {A : Type} (a : A) : M A := fun w => (Return a, w).

Definition bind {A B : Type} (m : M A) (k : A -> M B) : M B :=
  fun w =>
    match m w with
    | (Return a, w') => k a w'
    | (Raise e, w') => (Raise e, w')
    end.

Definition raise {A : Type} (e : Exn) : M A := fun w => (Raise e, w).

Notation "'let*' x := m 'in' k" := (bind m (fun x => k))
  (at level 10, x pattern, m at level 100, k at level 200).

Definition emit (e : Event) : M unit :=
  fun w => (Return tt, mkWorld (events w ++ [e]) (store w)).

(** [disk.PartitionModification(...)]: a new object. *)
Definition new_partition (p : disk.PartitionModification) : M pref :=
  fun w => (Return (length (store w)), mkWorld (events w) (store w ++ [p])).

(** Reading the object behind a reference. *)
Definition load (r : pref) : M disk.PartitionModification :=
  fun w =>
    match store w !! r with
    | Some p => (Return p, w)
    | None => (Raise Unallocated, w)
    end.

Definition with_btrfs_subvols (subvols : list disk.SubvolumeModification)
  (p : disk.PartitionModification) : disk.PartitionModification :=
  disk.mkPartitionModification
    (disk.status p) (disk.type p) (disk.start p) (disk.length p)
    (disk.mountpoint p) (disk.fs_type p) (disk.mount_options p)
    (disk.flags p) subvols.

(** [r.btrfs_subvols = subvols]: the object is changed in place, whoever
    holds the reference sees it. *)
Definition set_btrfs_subvols (r : pref)
  (subvols : list disk.SubvolumeModification) : M unit :=
  fun w =>
    (Return tt,
     mkWorld (events w) (alter (with_btrfs_subvols subvols) r (store w))).

(** A call starts with no event and none of its partition objects. *)
Definition run {A : Type} (m : M A) : outcome A * World := m (mkWorld [] []).

(** The partition objects a modification refers to, in its order. *)
Definition planned (w : World) (m : disk.DeviceModification)
  : list disk.PartitionModification :=
  omap (fun r => store w !! r) (disk.partitions m).

(** ** The first smallest element of a list

    What [sorted(l, key=key)[0]] is, without sorting: the statements about
    the root device are written with it. *)

Section FirstSmallest.

Context {A : Type}.
Variable key : A -> disk.Size.

(** The first of the elements with the smallest key, from the right. *)
Fixpoint first_smallest (l : list A) : option A :=
  match l with
  | [] => None
  | x :: l' =>
      match first_smallest l' with
      | Some y => if disk.lt (key y) (key x) then Some y else Some x
      | None => Some x
      end
  end.

End FirstSmallest.

(** ** The planners *)

Section Planner.

(** [has_uefi()] of the hardware module: the firmware mode of the machine. *)
Variable has_uefi : bool.

(** The prompting collaborator: the position of the entry the user selects
    in the menu shown for a prompt.  A menu that cannot be skipped returns
    one of its options, so a position past the end selects the last one. *)
Variable cursor : Prompt -> nat.

(** The device objects, behind their references. *)
Variable bdevice : dref -> disk.BDevice.

(** [Menu(prompt, options, skip=False).run()], the selected option. *)
Definition Menu_run (prompt : Prompt) (options : list string) : M string :=
  let* _ := emit (MenuRun prompt options) in
  ret (nth (Nat.min (length options - 1) (cursor prompt)) options "").

Definition Menu_yes : string := "yes".
Definition Menu_no : string := "no".
Definition Menu_yes_no : list string := [Menu_yes; Menu_no].

Definition _boot_partition : M pref :=
  let '(start, size) :=
    if has_uefi
    then (disk.Size_ 1 disk.MiB, disk.Size_ 512 disk.MiB)
    else (disk.Size_ 3 disk.MiB, disk.Size_ 203 disk.MiB) in
  (* boot partition *)
  new_partition
    (disk.mkPartitionModification
       disk.Create
       disk.Primary
       start
       size
       (Some "/boot")
       disk.Fat32
       []
       [disk.Boot]
       []).

Definition ask_for_main_filesystem_format (advanced_options : bool)
  : M disk.FilesystemType :=
  let options :=
    [("btrfs", disk.Btrfs); ("ext4", disk.Ext4);
     ("xfs", disk.Xfs); ("f2fs", disk.F2fs)] in
  let options :=
    if advanced_options then options ++ [("ntfs", disk.Ntfs)] else options in
  let* choice := Menu_run SelectFilesystem (map fst options) in
  match py.dict_get options choice with
  | Some fs => ret fs
  | None => raise KeyError
  end.

Definition suggest_single_disk_layout
  (device : dref)
  (filesystem_type : option disk.FilesystemType)
  (advanced_options : bool)
  (separate_home : option bool)
  : M disk.DeviceModification :=
  let* filesystem_type :=
    match filesystem_type with
    | Some fs => ret fs
    | None => ask_for_main_filesystem_format advanced_options
    end in
  let min_size_to_allow_home_part := disk.Size_ 40 disk.GiB in
  let root_partition_size := disk.Size_ 20 disk.GiB in
  let device_size_gib :=
    disk.total_size (disk.device_info (bdevice device)) in
  let* (using_subvolumes, compression) :=
    if disk.FilesystemType_eqb filesystem_type disk.Btrfs then
      let* choice := Menu_run UseSubvolumes Menu_yes_no in
      let using_subvolumes := String.eqb choice Menu_yes in
      let* choice := Menu_run UseCompression Menu_yes_no in
      ret (using_subvolumes, String.eqb choice Menu_yes)
    else ret (false, false) in
  let device_modification := disk.DeviceModification_ device true in
  let* boot_partition := _boot_partition in
  let device_modification :=
    disk.add_partition device_modification boot_partition in
  let* using_home_partition :=
    if negb using_subvolumes then
      if disk.ge device_size_gib min_size_to_allow_home_part then
        match separate_home with
        | None =>
            let* choice := Menu_run SeparateHome Menu_yes_no in
            ret (String.eqb choice Menu_yes)
        | Some true => ret true
        | Some false => ret false
        end
      else ret false
    else ret false in
  (* root partition *)
  let start :=
    if has_uefi then disk.Size_ 513 disk.MiB else disk.Size_ 206 disk.MiB in
  (* Set a size for / (/root) *)
  let length :=
    if using_subvolumes
       || disk.lt device_size_gib min_size_to_allow_home_part
       || negb using_home_partition
    then
      disk.Size_percent 100
        (disk.total_size (disk.device_info (bdevice device)))
    else
      py.min (disk.total_size (disk.device_info (bdevice device)))
             root_partition_size in
  let* root_partition :=
    new_partition
      (disk.mkPartitionModification
         disk.Create
         disk.Primary
         start
         length
         (if negb using_subvolumes then Some "/" else None)
         filesystem_type
         (if compression then ["compress=zstd"] else [])
         []
         []) in
  let device_modification :=
    disk.add_partition device_modification root_partition in
  if using_subvolumes then
    let subvolumes :=
      [disk.mkSubvolumeModification "@" "/";
       disk.mkSubvolumeModification "@home" "/home";
       disk.mkSubvolumeModification "@log" "/var/log";
       disk.mkSubvolumeModification "@pkg" "/var/cache/pacman/pkg";
       disk.mkSubvolumeModification "@.snapshots" "/.snapshots"] in
    let* _ := set_btrfs_subvols root_partition subvolumes in
    ret device_modification
  else if using_home_partition then
    (* a second partition for /home *)
    let* root_object := load root_partition in
    let* home_partition :=
      new_partition
        (disk.mkPartitionModification
           disk.Create
           disk.Primary
           (disk.length root_object)
           (disk.Size_percent 100
              (disk.total_size (disk.device_info (bdevice device))))
           (Some "/home")
           filesystem_type
           (if compression then ["compress=zstd"] else [])
           []
           []) in
    ret (disk.add_partition device_modification home_partition)
  else ret device_modification.

(** [device.device_info.total_size]. *)
Definition total_size_of (device : dref) : disk.Size :=
  disk.total_size (disk.device_info (bdevice device)).

(** [device is not home_device], on object identity. *)
Definition is_not (device : dref) (home_device : option dref) : bool :=
  match home_device with
  | Some h => negb (Nat.eqb device h)
  | None => true
  end.

(** The local variables of [suggest_multi_disk_layout] that choose the two
    devices, in the order the function computes them. *)

(* find proper disk for /home *)
Definition possible_devices (devices : list dref) : list dref :=
  List.filter
    (fun x => disk.ge (total_size_of x) (disk.Size_ 40 disk.GiB)) devices.

Definition home_device (devices : list dref) : option dref :=
  match possible_devices devices with
  | d :: ds => Some (py.max_by total_size_of disk.gt d ds)
  | [] => None
  end.

(* find proper device for /root *)
Definition devices_delta (devices : list dref) (home_device : option dref)
  : list (dref * disk.Size) :=
  fold_left
    (fun devices_delta device =>
       if is_not device home_device then
         let delta :=
           disk.sub (total_size_of device) (disk.Size_ 20 disk.GiB) in
         py.dict_set devices_delta device delta
       else devices_delta)
    devices [].

Definition sorted_delta (devices : list dref) (home_device : option dref)
  : list (dref * disk.Size) :=
  py.sorted snd disk.lt (devices_delta devices home_device).

(** [sorted_delta[0][0]]; the index is out of range on an empty list. *)
Definition root_device (devices : list dref) (home_device : option dref)
  : M (option dref) :=
  match sorted_delta devices home_device with
  | (d, _) :: _ => ret (Some d)
  | [] => raise IndexError
  end.

Definition suggest_multi_disk_layout
  (devices : list dref)
  (filesystem_type : option disk.FilesystemType)
  (advanced_options : bool)
  : M (list disk.DeviceModification) :=
  match devices with
  | [] => ret []
  | _ :: _ =>
  let min_home_partition_size := disk.Size_ 40 disk.GiB in
  let desired_root_partition_size := disk.Size_ 20 disk.GiB in
  let* filesystem_type :=
    match filesystem_type with
    | Some fs => ret fs
    | None => ask_for_main_filesystem_format advanced_options
    end in
  let home_device := home_device devices in
  let* root_device := root_device devices home_device in
  match home_device, root_device with
  | Some home_device, Some root_device =>
      let* compression :=
        if disk.FilesystemType_eqb filesystem_type disk.Btrfs then
          let* choice := Menu_run UseCompression Menu_yes_no in
          ret (String.eqb choice Menu_yes)
        else ret false in
      let device_paths :=
        py.join ", "
          (map (fun d => disk.path (disk.device_info (bdevice d))) devices) in
      let* _ :=
        emit (Log ("Suggesting multi-disk-layout for devices: "
                   ++ device_paths)) in
      let* _ :=
        emit (Log ("/root: "
                   ++ disk.path (disk.device_info (bdevice root_device)))) in
      let* _ :=
        emit (Log ("/home: "
                   ++ disk.path (disk.device_info (bdevice home_device)))) in
      let root_device_modification :=
        disk.DeviceModification_ root_device true in
      let home_device_modification :=
        disk.DeviceModification_ home_device true in
      (* add boot partition to the root device *)
      let* boot_partition := _boot_partition in
      let root_device_modification :=
        disk.add_partition root_device_modification boot_partition in
      (* add root partition to the root device *)
      let* root_partition :=
        new_partition
          (disk.mkPartitionModification
             disk.Create
             disk.Primary
             (if has_uefi
              then disk.Size_ 513 disk.MiB else disk.Size_ 206 disk.MiB)
             (disk.Size_percent 100 (total_size_of root_device))
             (Some "/")
             filesystem_type
             (if compression then ["compress=zstd"] else [])
             []
             []) in
      let root_device_modification :=
        disk.add_partition root_device_modification root_partition in
      (* add home partition to home device *)
      let* home_partition :=
        new_partition
          (disk.mkPartitionModification
             disk.Create
             disk.Primary
             (disk.Size_ 1 disk.MiB)
             (disk.Size_percent 100 (total_size_of home_device))
             (Some "/home")
             filesystem_type
             (if compression then ["compress=zstd"] else [])
             []
             []) in
      let home_device_modification :=
        disk.add_partition home_device_modification home_partition in
      ret [root_device_modification; home_device_modification]
  | _, _ =>
      let* _ :=
        Menu_run
          (CapacityAdvisory min_home_partition_size
             desired_root_partition_size)
          ["Continue"] in
      ret []
  end
  end.

(** [get_default_partition_layout]: one device goes to the single-disk
    planner, any other number of devices to the multi-disk planner. *)
Definition get_default_partition_layout
  (devices : list dref)
  (filesystem_type : option disk.FilesystemType)
  (advanced_option : bool)
  : M (list disk.DeviceModification) :=
  match devices with
  | [device] =>
      let* device_modification :=
        suggest_single_disk_layout device filesystem_type advanced_option
          None in
      ret [device_modification]
  | _ => suggest_multi_disk_layout devices filesystem_type advanced_option
  end.

(** ** What the collaborator answered

    The values the planners draw from the menus, as functions of the
    cursor: they name the local variables of the planners in the
    statements below. *)

(** [choice.value == Menu.yes()] for the menu of a yes/no prompt. *)
Definition answer (p : Prompt) : bool :=
  String.eqb (nth (Nat.min 1 (cursor p)) Menu_yes_no "") Menu_yes.

(** The entries of the filesystem menu. *)
Definition filesystem_options (advanced_options : bool) : list string :=
  ["btrfs"; "ext4"; "xfs"; "f2fs"]
  ++ (if advanced_options then ["ntfs"] else []).

(** The filesystem type the planners go on with: the one passed in, or the
    one selected in the filesystem menu. *)
Definition filesystem_of (filesystem_type : option disk.FilesystemType)
  (advanced_options : bool) : disk.FilesystemType :=
  match filesystem_type with
  | Some fs => fs
  | None =>
      nth (Nat.min (if advanced_options then 4 else 3)
                   (cursor SelectFilesystem))
          ([disk.Btrfs; disk.Ext4; disk.Xfs; disk.F2fs]
           ++ (if advanced_options then [disk.Ntfs] else []))
          disk.Btrfs
  end.

(** The events of resolving the filesystem type. *)
Definition filesystem_events (filesystem_type : option disk.FilesystemType)
  (advanced_options : bool) : list Event :=
  match filesystem_type with
  | Some _ => []
  | None => [MenuRun SelectFilesystem (filesystem_options advanced_options)]
  end.

Definition is_btrfs (fs : disk.FilesystemType) : bool :=
  disk.FilesystemType_eqb fs disk.Btrfs.

(** The local variables [using_subvolumes], [compression] and
    [using_home_partition] of the single-disk planner, as it leaves them. *)
Definition using_subvolumes (fs : disk.FilesystemType) : bool :=
  is_btrfs fs && answer UseSubvolumes.

Definition compression (fs : disk.FilesystemType) : bool :=
  is_btrfs fs && answer UseCompression.

Definition using_home_partition (fs : disk.FilesystemType) (device : dref)
  (separate_home : option bool) : bool :=
  negb (using_subvolumes fs)
  && disk.ge (total_size_of device) (disk.Size_ 40 disk.GiB)
  && match separate_home with
     | None => answer SeparateHome
     | Some b => b
     end.

(** The menus the single-disk planner runs, in order. *)
Definition single_disk_events (device : dref)
  (filesystem_type : option disk.FilesystemType) (advanced_options : bool)
  (separate_home : option bool) : list Event :=
  let fs := filesystem_of filesystem_type advanced_options in
  filesystem_events filesystem_type advanced_options
  ++ (if is_btrfs fs
      then [MenuRun UseSubvolumes Menu_yes_no;
            MenuRun UseCompression Menu_yes_no]
      else [])
  ++ (if negb (using_subvolumes fs)
         && disk.ge (total_size_of device) (disk.Size_ 40 disk.GiB)
      then match separate_home with
           | None => [MenuRun SeparateHome Menu_yes_no]
           | Some _ => []
           end
      else []).

(** ** The choice of the multi-disk planner, in bytes *)

(** [device.device_info.total_size - desired_root_partition_size]. *)
Definition delta_size (device : dref) : disk.Size :=
  disk.sub (total_size_of device) (disk.Size_ 20 disk.GiB).

(** The signed distance of a device from the 20 GiB target, in bytes. *)
Definition delta (device : dref) : Z :=
  (disk.normalize (total_size_of device) - 20 * 2 ^ 30)%Z.

(** What the dictionary holds after the loop went through [seen]: a delta
    for each kept device, and the same first smallest entry. *)
Definition agrees (home : option dref) (seen : list dref)
  (dd : list (dref * disk.Size)) : Prop :=
  (forall k v, In (k, v) dd -> v = delta_size k)
  /\ (forall k,
        In k (map fst dd)
        <-> In k (List.filter (fun d => is_not d home) seen))
  /\ option_map fst (first_smallest snd dd)
     = first_smallest delta_size
         (List.filter (fun d => is_not d home) seen).

(** At least two different device objects are in the list. *)
Definition two_or_more (devices : list dref) : Prop :=
  exists d1 d2, In d1 devices /\ In d2 devices /\ d1 <> d2.

(** The advisory of the multi-disk planner among the events. *)
Definition is_capacity_advisory (e : Event) : bool :=
  match e with
  | MenuRun (CapacityAdvisory _ _) _ => true
  | _ => false
  end.

End Planner.

(** ** Example machines *)

Definition example_device (p : string) (gib : Z) : disk.BDevice :=
  disk.mkBDevice (disk.mk_DeviceInfo p (disk.Size_ gib disk.GiB)).

(** Three disks of 10, 45 and 60 GiB, and a fourth of 30 GiB. *)
Definition example_bdevice (r : dref) : disk.BDevice :=
  nth r
    [example_device "/dev/sda" 10;
     example_device "/dev/sdb" 45;
     example_device "/dev/sdc" 60]
    (example_device "/dev/sdd" 30).

(** A user who takes the first entry of every menu (btrfs, yes), and one
    who takes the second (ext4, no). *)
Definition first_entry (p : Prompt) : nat := 0.
Definition second_entry (p : Prompt) : nat := 1.

(** ** [archinstall/lib/plugins.py]: [find_nth] *)

Module plugins.

(** [l[i]] on a Python list: a negative index counts from the end; [None]
    stands for [IndexError]. *)
Definition getitem {A : Type} (l : list A) (i : Z) : option A :=
  let n := Z.of_nat (length l) in
  if ((0 <=? i) && (i <? n))%Z then nth_error l (Z.to_nat i)
  else if ((- n <=? i) && (i <? 0))%Z then nth_error l (Z.to_nat (n + i))
  else None.

(** [enumerate(l)]. *)
Definition enumerate {A : Type} (l : list A) : list (nat * A) :=
  combine (seq 0 (length l)) l.

(** [l[:stop]] for the value [find_nth] returns: [None] takes everything. *)
Definition slice_to {A : Type} (l : list A) (stop : option nat) : list A :=
  match stop with
  | Some k => firstn k l
  | None => l
  end.

(** A [str] is iterated as its characters, one-character strings. *)
Definition find_nth (haystack : list string) (needle : string) (n : Z)
  : outcome (option nat) :=
  let indices :=
    map fst
      (List.filter (fun '(idx, elem) => String.eqb elem needle)
         (enumerate haystack)) in
  if (n <=? Z.of_nat (length indices))%Z then
    match getitem indices (n - 1) with
    | Some idx => Return (Some idx)
    | None => Raise IndexError
    end
  else Return None.

(** [storage['__version__'][:find_nth(storage['__version__'], '.', 2)]] of
    [load_plugin]: the text it converts to the major-and-minor version. *)
Definition major_and_minor_version (version : list string)
  : outcome (list string) :=
  match find_nth version "." 2 with
  | Return stop => Return (slice_to version stop)
  | Raise e => Raise e
  end.

End plugins.

(** ** [archinstall/lib/networking.py] *)

Module networking.

Import Ascii.

(** The exceptions of the module: [OSError] of the socket calls,
    [KeyError] of a dict lookup, the two the module raises itself, and
    [SysCallError] of a failed command. *)
Inductive exn :=
| OSError
| KeyError
| HardwareIncompatibilityError
| SystemError
| SysCallError.

Inductive result (A : Type) :=
| Ok (a : A)
| Error (e : exn).

Arguments Ok {A} a.
Arguments Error {A} e.

(** ['%x'] for one hexadecimal digit. *)
Definition hex_digit (n : nat) : Ascii.ascii :=
  nth n
    ["0"; "1"; "2"; "3"; "4"; "5"; "6"; "7";
     "8"; "9"; "a"; "b"; "c"; "d"; "e"; "f"]%char
    "0"%char.

(** ['%02x' % b] for a byte. *)
Definition format_02x (b : Byte.byte) : string :=
  let n := Byte.to_nat b in
  String (hex_digit (n / 16)) (String (hex_digit (n mod 16)) EmptyString).

(** [struct.pack('256s', data)]: cut or padded with NUL bytes to 256. *)
Definition pack_256s (data : list Byte.byte) : list Byte.byte :=
  firstn 256 data ++ repeat Byte.x00 (256 - length data).

(** [s.replace(old, new)] for one-character [old] and [new]. *)
Fixpoint replace (old new : Ascii.ascii) (s : string) : string :=
  match s with
  | EmptyString => EmptyString
  | String c s' =>
      String (if Ascii.eqb c old then new else c) (replace old new s')
  end.

(** [s.lower()] on ASCII text. *)
Definition lower_char (c : Ascii.ascii) : Ascii.ascii :=
  let n := Ascii.nat_of_ascii c in
  if (65 <=? n)%nat && (n <=? 90)%nat then Ascii.ascii_of_nat (n + 32)
  else c.

Fixpoint lower (s : string) : string :=
  match s with
  | EmptyString => EmptyString
  | String c s' => String (lower_char c) (lower s')
  end.

(** [d[k] = v] on a [dict] with string keys, in insertion order. *)
Fixpoint dict_set {V : Type} (d : list (string * V)) (k : string) (v : V)
  : list (string * V) :=
  match d with
  | [] => [(k, v)]
  | (k', v') :: d' =>
      if String.eqb k' k then (k', v) :: d' else (k', v') :: dict_set d' k v
  end.

(** The values a scan keeps in [storage['_WIFI'][interface]]. *)
Inductive pyval :=
| PyTrue
| PyFalse
| PyOther (repr : string).

(** What the wireless functions read and change: the ['_WIFI'] entry of the
    global [storage] ([None] when the key is absent), the commands run, the
    lines printed and the seconds slept. *)
Record Net := mkNet {
  wifi : option (list (string * list (string * pyval)));
  commands : list string;
  printed : list string;
  slept : list nat
}.

Definition N (A : Type) : Type := Net -> result A * Net.

Definition nret {A : Type} (a : A) : N A := fun s => (Ok a, s).

Definition nraise {A : Type} (e : exn) : N A := fun s => (Error e, s).

Definition nbind {A B : Type} (m : N A) (k : A -> N B) : N B :=
  fun s =>
    match m s with
    | (Ok a, s') => k a s'
    | (Error e, s') => (Error e, s')
    end.

Section Network.

(** [fcntl.ioctl(s.fileno(), 0x8927, request)] on a new datagram socket:
    the answer of the kernel, or [OSError]. *)
Variable ioctl : list Byte.byte -> result (list Byte.byte).

(** [socket.if_nameindex()]. *)
Variable if_nameindex : list (nat * string).

(** [os.path.isdir] and [os.path.isfile]. *)
Variable isdir isfile : string -> bool.

(** [SysCommand(cmd)] after the commands run so far: its output lines, or
    [None] for [SysCallError]. *)
Variable SysCommand : list string -> string -> option (list string).

Definition get_hw_addr (ifname : string) : result string :=
  match ioctl (pack_256s (firstn 15 (list_byte_of_string ifname))) with
  | Ok info =>
      Ok (py.join ":" (map format_02x (firstn (24 - 18) (skipn 18 info))))
  | Error e => Error e
  end.

Fixpoint list_interfaces_loop (skip_loopback : bool)
  (names : list (nat * string)) (interfaces : list (string * string))
  : result (list (string * string)) :=
  match names with
  | [] => Ok interfaces
  | (index, iface) :: names' =>
      if skip_loopback && String.eqb iface "lo" then
        list_interfaces_loop skip_loopback names' interfaces
      else
        match get_hw_addr iface with
        | Ok addr =>
            let mac := lower (replace ":" "-" addr) in
            list_interfaces_loop skip_loopback names'
              (dict_set interfaces mac iface)
        | Error e => Error e
        end
  end.

Definition list_interfaces (skip_loopback : bool)
  : result (list (string * string)) :=
  list_interfaces_loop skip_loopback if_nameindex [].

Definition enrich_iface_types (interfaces : list string)
  : list (string * string) :=
  fold_left
    (fun result iface =>
       if isdir ("/sys/class/net/" ++ iface ++ "/bridge/") then
         dict_set result iface "BRIDGE"
       else if isfile ("/sys/class/net/" ++ iface ++ "/tun_flags") then
         dict_set result iface "TUN/TAP"
       else if isdir ("/sys/class/net/" ++ iface ++ "/device") then
         if isdir ("/sys/class/net/" ++ iface ++ "/wireless/") then
           dict_set result iface "WIRELESS"
         else
           dict_set result iface "PHYSICAL"
       else
         dict_set result iface "UNKNOWN")
    interfaces [].

(** Running a command: it is recorded, and a failure is [SysCallError]. *)
Definition run_command (cmd : string) : N (list string) :=
  fun s =>
    let s' :=
      mkNet (wifi s) (commands s ++ [cmd]) (printed s) (slept s) in
    match SysCommand (commands s) cmd with
    | Some lines => (Ok lines, s')
    | None => (Error SysCallError, s')
    end.

Definition set_wifi
  (w : option (list (string * list (string * pyval)))) : N unit :=
  fun s => (Ok tt, mkNet w (commands s) (printed s) (slept s)).

Definition wireless_scan (interface : string) : N unit :=
  fun s =>
    match list_interfaces true with
    | Error e => (Error e, s)
    | Ok listed =>
        let interfaces := enrich_iface_types (map snd listed) in
        match py.dict_get interfaces interface with
        | None => (Error KeyError, s)
        | Some type =>
            if negb (String.eqb type "WIRELESS") then
              (Error HardwareIncompatibilityError, s)
            else
              match run_command ("iwctl station " ++ interface ++ " scan") s
              with
              | (Error _, s1) => (Error SystemError, s1)
              | (Ok _, s1) =>
                  let wifi1 :=
                    match wifi s1 with
                    | None => []
                    | Some d => d
                    end in
                  let wifi2 :=
                    match py.dict_get wifi1 interface with
                    | None => dict_set wifi1 interface []
                    | Some _ => wifi1
                    end in
                  let entry :=
                    match py.dict_get wifi2 interface with
                    | Some e => e
                    | None => []
                    end in
                  set_wifi
                    (Some
                       (dict_set wifi2 interface
                          (dict_set entry "scanning" PyTrue)))
                    s1
              end
        end
    end.

(** ['_WIFI' not in storage or interface not in storage['_WIFI'] or
    storage['_WIFI'][interface].get('scanning', False) is False]. *)
Definition not_scanning (s : Net) (interface : string) : bool :=
  match wifi s with
  | None => true
  | Some d =>
      match py.dict_get d interface with
      | None => true
      | Some entry =>
          match py.dict_get entry "scanning" with
          | None => true
          | Some PyFalse => true
          | Some _ => false
          end
      end
  end.

Definition sleep (seconds : nat) : N unit :=
  fun s =>
    (Ok tt, mkNet (wifi s) (commands s) (printed s) (slept s ++ [seconds])).

Definition print_lines (lines : list string) : N unit :=
  fun s =>
    (Ok tt, mkNet (wifi s) (commands s) (printed s ++ lines) (slept s)).

Definition get_wireless_networks (interface : string) : N unit :=
  nbind
    (fun s =>
       if not_scanning s interface then
         nbind (wireless_scan interface) (fun _ => sleep 5) s
       else nret tt s)
    (fun _ =>
       nbind
         (run_command ("iwctl station " ++ interface ++ " get-networks"))
         print_lines).

(** The key [list_interfaces] computes for an interface:
    [get_hw_addr(iface).replace(':', '-').lower()]. *)
Definition mac_of (iface : string) : result string :=
  match get_hw_addr iface with
  | Ok addr => Ok (lower (replace ":" "-" addr))
  | Error e => Error e
  end.

(** The interfaces the loop of [list_interfaces] does not skip. *)
Definition kept (skip_loopback : bool) (iface : string) : bool :=
  negb (skip_loopback && String.eqb iface "lo").

(** The last kept interface of a list with a given key. *)
Fixpoint last_kept (skip_loopback : bool) (mac : string)
  (names : list (nat * string)) : option string :=
  match names with
  | [] => None
  | (index, iface) :: names' =>
      match last_kept skip_loopback mac names' with
      | Some other => Some other
      | None =>
          match mac_of iface with
          | Ok m =>
              if kept skip_loopback iface && String.eqb m mac
              then Some iface else None
          | Error _ => None
          end
      end
  end.

(** The type the loop body of [enrich_iface_types] gives an interface. *)
Definition iface_type (iface : string) : string :=
  if isdir ("/sys/class/net/" ++ iface ++ "/bridge/") then "BRIDGE"
  else if isfile ("/sys/class/net/" ++ iface ++ "/tun_flags") then "TUN/TAP"
  else if isdir ("/sys/class/net/" ++ iface ++ "/device") then
    if isdir ("/sys/class/net/" ++ iface ++ "/wireless/") then "WIRELESS"
    else "PHYSICAL"
  else "UNKNOWN".

End Network.

End networking.

(** ** [disk_conf.py]: the dialogs around the planners *)

(** A reference to a [DeviceModification] object: [_manual_partitioning]
    assigns to the partitions of the modifications of its preset. *)
Definition mref := nat.

Module menu.

(** Modelled from the spec: the three outcomes of a menu, a value chosen,
    the prior value kept, or the prior value discarded. *)
Inductive MenuSelectionType := Selection | Skip | Reset.

Record MenuSelection (V : Type) := mkMenuSelection {
  type_ : MenuSelectionType;
  value : V
}.

Arguments mkMenuSelection {V} type_ value.
Arguments type_ {V} m.
Arguments value {V} m.

End menu.

Module layout.

(** Modelled from the spec: the configuration kinds and the top-level
    result, a kind, the modifications and, for a pre-mounted layout, the
    mountpoint. *)
Inductive DiskLayoutType := Default | Manual | Pre_mount.

Record DiskLayoutConfiguration := mkDiskLayoutConfiguration {
  config_type : DiskLayoutType;
  device_modifications : list mref;
  relative_mountpoint : option disk.Path
}.

End layout.

(** The dialogs of [select_devices], [select_disk_config] and
    [_manual_partitioning], in the order they are shown. *)
Inductive Dialog :=
| DeviceMenu (options preset_value : list disk._DeviceInfo)
| LayoutMenu (options : list string) (preset_value : option string)
| PromptDir
| ManualPartitioning (device : dref) (preset : list pref).

(** The world of the planners, the [DeviceModification] objects and the
    dialogs shown. *)
Record Session := mkSession {
  world : World;
  modifications : list disk.DeviceModification;
  dialogs : list Dialog
}.

Definition Sess (A : Type) : Type := Session -> outcome A * Session.

Definition sret {A : Type} (a : A) : Sess A := fun s => (Return a, s).

Definition sbind {A B : Type} (m : Sess A) (k : A -> Sess B) : Sess B :=
  fun s =>
    match m s with
    | (Return a, s') => k a s'
    | (Raise e, s') => (Raise e, s')
    end.

Notation "'let+' x := m 'in' k" := (sbind m (fun x => k))
  (at level 10, x pattern, m at level 100, k at level 200).

(** A planner call inside a session. *)
Definition lift {A : Type} (m : M A) : Sess A :=
  fun s =>
    let (o, w) := m (world s) in
    (o, mkSession w (modifications s) (dialogs s)).

Definition show (d : Dialog) : Sess unit :=
  fun s =>
    (Return tt, mkSession (world s) (modifications s) (dialogs s ++ [d])).

(** [disk.DeviceModification(...)]: a new object. *)
Definition new_modification (m : disk.DeviceModification) : Sess mref :=
  fun s =>
    (Return (length (modifications s)),
     mkSession (world s) (modifications s ++ [m]) (dialogs s)).

Definition load_modification (r : mref) : Sess disk.DeviceModification :=
  fun s =>
    match modifications s !! r with
    | Some m => (Return m, s)
    | None => (Raise Unallocated, s)
    end.

(** [mod.partitions = partitions]. *)
Definition set_partitions (r : mref) (partitions : list pref) : Sess unit :=
  fun s =>
    (Return tt,
     mkSession (world s)
       (alter
          (fun m =>
             disk.mkDeviceModification (disk.device m) (disk.wipe m)
               partitions)
          r (modifications s))
       (dialogs s)).

Fixpoint new_modifications (ms : list disk.DeviceModification)
  : Sess (list mref) :=
  match ms with
  | [] => sret []
  | m :: ms' =>
      let+ r := new_modification m in
      let+ rs := new_modifications ms' in
      sret (r :: rs)
  end.

Fixpoint load_modifications (rs : list mref)
  : Sess (list disk.DeviceModification) :=
  match rs with
  | [] => sret []
  | r :: rs' =>
      let+ m := load_modification r in
      let+ ms := load_modifications rs' in
      sret (m :: ms)
  end.

Section Dialogs.

Variable has_uefi : bool.
Variable cursor : Prompt -> nat.
Variable bdevice : dref -> disk.BDevice.

(** [disk.device_handler.devices]. *)
Variable handler_devices : list dref.

(** The [__eq__] of [_DeviceInfo], which [in] tests. *)
Variable DeviceInfo_eq : disk._DeviceInfo -> disk._DeviceInfo -> bool.

(** The [TableMenu] of [select_devices], given its options and preset. *)
Variable device_menu :
  list disk._DeviceInfo -> list disk._DeviceInfo ->
  menu.MenuSelection (list disk._DeviceInfo).

(** [display_msg()] of the three layout types. *)
Variable default_layout manual_mode pre_mount_mode : string.

(** The [Menu] of [select_disk_config], given its options and preset. *)
Variable layout_menu :
  list string -> option string -> menu.MenuSelection string.

(** [prompt_dir(...)]: the directory the user enters. *)
Variable prompt_dir : disk.Path.

(** [disk.device_handler.detect_pre_mounted_mods(path)] and
    [disk.manual_partitioning(device, preset=...)]: they may create
    partition objects. *)
Variable detect_pre_mounted_mods :
  disk.Path -> M (list disk.DeviceModification).
Variable manual_partitioning : dref -> list pref -> M (list pref).

Definition display_msg (t : layout.DiskLayoutType) : string :=
  match t with
  | layout.Default => default_layout
  | layout.Manual => manual_mode
  | layout.Pre_mount => pre_mount_mode
  end.

Definition select_devices (preset : option (list dref)) : Sess (list dref) :=
  let preset := match preset with Some p => p | None => [] end in
  let devices := handler_devices in
  let options := map (fun d => disk.device_info (bdevice d)) devices in
  let preset_value := map (fun p => disk.device_info (bdevice p)) preset in
  let+ _ := show (DeviceMenu options preset_value) in
  let choice := device_menu options preset_value in
  match menu.type_ choice with
  | menu.Reset => sret []
  | menu.Skip => sret preset
  | menu.Selection =>
      let selected_device_info := menu.value choice in
      sret
        (List.filter
           (fun device =>
              existsb (DeviceInfo_eq (disk.device_info (bdevice device)))
                selected_device_info)
           devices)
  end.

(** [next(filter(lambda x: x.device == device, preset), None)]. *)
Fixpoint find_modification (device : dref) (preset : list mref)
  : Sess (option mref) :=
  match preset with
  | [] => sret None
  | x :: preset' =>
      let+ m := load_modification x in
      if Nat.eqb (disk.device m) device then sret (Some x)
      else find_modification device preset'
  end.

Fixpoint _manual_partitioning_loop (preset : list mref)
  (devices : list dref) (modifications : list mref) : Sess (list mref) :=
  match devices with
  | [] => sret modifications
  | device :: devices' =>
      let+ found := find_modification device preset in
      let+ mod_ :=
        match found with
        | Some mod_ => sret mod_
        | None => new_modification (disk.DeviceModification_ device false)
        end in
      let+ object := load_modification mod_ in
      let+ _ := show (ManualPartitioning device (disk.partitions object)) in
      let+ partitions :=
        lift (manual_partitioning device (disk.partitions object)) in
      match partitions with
      | _ :: _ =>
          let+ _ := set_partitions mod_ partitions in
          _manual_partitioning_loop preset devices' (modifications ++ [mod_])
      | [] => _manual_partitioning_loop preset devices' modifications
      end
  end.

Definition _manual_partitioning (preset : list mref) (devices : list dref)
  : Sess (list mref) :=
  _manual_partitioning_loop preset devices [].

Definition select_disk_config
  (preset : option layout.DiskLayoutConfiguration) (advanced_option : bool)
  : Sess (option layout.DiskLayoutConfiguration) :=
  let options := [default_layout; manual_mode; pre_mount_mode] in
  let preset_value :=
    match preset with
    | Some p => Some (display_msg (layout.config_type p))
    | None => None
    end in
  let+ _ := show (LayoutMenu options preset_value) in
  let choice := layout_menu options preset_value in
  match menu.type_ choice with
  | menu.Skip => sret preset
  | menu.Reset => sret None
  | menu.Selection =>
      if String.eqb (menu.value choice) pre_mount_mode then
        let+ _ := show PromptDir in
        let path := prompt_dir in
        let+ mods := lift (detect_pre_mounted_mods path) in
        let+ mods := new_modifications mods in
        sret
          (Some
             (layout.mkDiskLayoutConfiguration layout.Pre_mount mods
                (Some path)))
      else
        let+ preset_devices :=
          match preset with
          | Some p =>
              let+ mods :=
                load_modifications (layout.device_modifications p) in
              sret (map disk.device mods)
          | None => sret []
          end in
        let+ devices := select_devices (Some preset_devices) in
        match devices with
        | [] => sret None
        | _ :: _ =>
            if String.eqb (menu.value choice) default_layout then
              let+ modifications :=
                lift
                  (get_default_partition_layout has_uefi cursor bdevice
                     devices None advanced_option) in
              match modifications with
              | _ :: _ =>
                  let+ modifications := new_modifications modifications in
                  sret
                    (Some
                       (layout.mkDiskLayoutConfiguration layout.Default
                          modifications None))
              | [] => sret None
              end
            else if String.eqb (menu.value choice) manual_mode then
              let preset_mods :=
                match preset with
                | Some p => layout.device_modifications p
                | None => []
                end in
              let+ modifications :=
                _manual_partitioning preset_mods devices in
              match modifications with
              | _ :: _ =>
                  sret
                    (Some
                       (layout.mkDiskLayoutConfiguration layout.Manual
                          modifications None))
              | [] => sret None
              end
            else sret None
        end
  end.

End Dialogs.

(** ** Example interfaces, menus and sessions *)

(** A kernel that answers with the first byte of the interface name,
    six times, as the hardware address. *)
Definition example_ioctl (request : list Byte.byte)
  : networking.result (list Byte.byte) :=
  networking.Ok (repeat Byte.x00 18 ++ repeat (hd Byte.x00 request) 6).

Definition example_if_nameindex : list (nat * string) :=
  [(1, "lo"); (2, "eth0"); (3, "enp3s0"); (4, "wlan0")].

(** [wlan0] is a wireless device, [eth0] a wired one. *)
Definition example_isdir (path : string) : bool :=
  String.eqb path "/sys/class/net/wlan0/device"
  || String.eqb path "/sys/class/net/wlan0/wireless/"
  || String.eqb path "/sys/class/net/eth0/device".

Definition example_isfile (path : string) : bool := false.

(** Every command succeeds and prints one line. *)
Definition example_SysCommand (ran : list string) (cmd : string)
  : option (list string) :=
  Some ["ok"].

Definition example_net : networking.Net := networking.mkNet None [] [] [].

(** The state [get_wireless_networks "wlan0"] leaves [example_net] in. *)
Definition example_net_scanned : networking.Net :=
  networking.mkNet
    (Some [("wlan0", [("scanning", networking.PyTrue)])])
    ["iwctl station wlan0 scan"; "iwctl station wlan0 get-networks"]
    ["ok"] [5].

(** A user who gives device 0 no partition and every other device one new
    partition after those it had. *)
Definition example_manual_partitioning (device : dref) (preset : list pref)
  : M (list pref) :=
  if Nat.eqb device 0 then ret []
  else
    let* p := _boot_partition true in
    ret (preset ++ [p]).

(** A session in which nothing has happened, and one that holds a
    modification of device 1 that wipes it. *)
Definition example_session : Session := mkSession (mkWorld [] []) [] [].

Definition example_session_with_preset : Session :=
  mkSession (mkWorld [] []) [disk.mkDeviceModification 1 true []] [].

Definition example_DeviceInfo_eq (a b : disk._DeviceInfo) : bool :=
  String.eqb (disk.path a) (disk.path b).

(** A user who selects every device offered, and one who selects the
    default layout. *)
Definition example_device_menu (options preset : list disk._DeviceInfo)
  : menu.MenuSelection (list disk._DeviceInfo) :=
  menu.mkMenuSelection menu.Selection options.

Definition example_layout_menu (options : list string)
  (preset : option string) : menu.MenuSelection string :=
  menu.mkMenuSelection menu.Selection
    (match options with o :: _ => o | [] => EmptyString end).

Definition example_detect_pre_mounted_mods (path : disk.Path)
  : M (list disk.DeviceModification) :=
  ret [].

(** Two disks of 50 GiB each. *)
Definition twin_bdevice (r : dref) : disk.BDevice :=
  nth r [example_device "/dev/sda" 50] (example_device "/dev/sdb" 50).

(** A storage whose entry for [wlan0] says that it is not scanning. *)
Definition example_net_not_scanning : networking.Net :=
  networking.mkNet
    (Some [("wlan0", [("scanning", networking.PyFalse)])]) [] [] [].

(** The rounds of a manual partitioning: for each device in turn, the
    partitions shown as its preset and the partitions
    [disk.manual_partitioning] returned, from one world to the next. *)
Inductive manual_rounds
  (manual_partitioning : dref -> list pref -> M (list pref))
  : World -> list dref -> list (dref * list pref * list pref) -> World
    -> Prop :=
| manual_rounds_nil (w : World) :
    manual_rounds manual_partitioning w [] [] w
| manual_rounds_cons (w w1 w2 : World) (device : dref)
    (devices : list dref) (shown partitions : list pref)
    (rest : list (dref * list pref * list pref)) :
    manual_partitioning device shown w = (Return partitions, w1) ->
    manual_rounds manual_partitioning w1 devices rest w2 ->
    manual_rounds manual_partitioning w (device :: devices)
      ((device, shown, partitions) :: rest) w2.

(** The rounds in which at least one partition was returned. *)
Definition with_partitions (a : dref * list pref * list pref) : bool :=
  match snd a with
  | [] => false
  | _ :: _ => true
  end.

(** A session that holds a modification of device 0 with one partition
    and a modification of device 1 without any. *)
Definition example_session_partitioned : Session :=
  mkSession
    (mkWorld []
       [disk.mkPartitionModification disk.Create disk.Primary
          (disk.Size_ 1 disk.MiB) (disk.Size_ 512 disk.MiB)
          (Some "/boot") disk.Fat32 [] [disk.Boot] []])
    [disk.mkDeviceModification 0 true [0];
     disk.mkDeviceModification 1 true []]
    [].

(** ** Evaluation lemmas *)

Section Evaluation.

Variable has_uefi : bool.
Variable cursor : Prompt -> nat.
Variable bdevice : dref -> disk.BDevice.

Lemma ask_for_main_filesystem_format_run (advanced_options : bool) (w : World) :
  ask_for_main_filesystem_format cursor advanced_options w =
  (Return (filesystem_of cursor None advanced_options),
   mkWorld
     (events w ++ filesystem_events None advanced_options)
     (store w)).
Proof.
  unfold ask_for_main_filesystem_format, filesystem_of, filesystem_events,
    Menu_run, bind, emit, ret.
  destruct advanced_options; cbn;
    destruct (cursor SelectFilesystem) as [|[|[|[|[|n]]]]]; reflexivity.
Qed.


Lemma lt_not_ge (a b : disk.Size) : disk.lt a b = negb (disk.ge a b).
Proof.
  unfold disk.lt, disk.ge. rewrite Z.geb_leb. apply Z.ltb_antisym.
Qed.

Lemma resolve_filesystem_run
  (ft : option disk.FilesystemType) (adv : bool) (w : World) :
  match ft with
  | Some fs => ret fs
  | None => ask_for_main_filesystem_format cursor adv
  end w =
  (Return (filesystem_of cursor ft adv),
   mkWorld (events w ++ filesystem_events ft adv) (store w)).
Proof.
  destruct ft as [fs|].
  - destruct w; cbn. now rewrite app_nil_r.
  - apply ask_for_main_filesystem_format_run.
Qed.

Lemma suggest_single_disk_layout_run device ft adv sh :
  let fs := filesystem_of cursor ft adv in
  let total := total_size_of bdevice device in
  let home := using_home_partition cursor bdevice fs device sh in
  let options := if compression cursor fs then ["compress=zstd"] else [] in
  let root_length :=
    if home then py.min total (disk.Size_ 20 disk.GiB)
    else disk.Size_percent 100 total in
  run (suggest_single_disk_layout has_uefi cursor bdevice device ft adv sh) =
  (Return
     (disk.mkDeviceModification device true
        (if home then [0; 1; 2] else [0; 1])),
   mkWorld
     (single_disk_events cursor bdevice device ft adv sh)
     ([disk.mkPartitionModification disk.Create disk.Primary
         (disk.Size_ (if has_uefi then 1 else 3) disk.MiB)
         (disk.Size_ (if has_uefi then 512 else 203) disk.MiB)
         (Some "/boot") disk.Fat32 [] [disk.Boot] [];
       disk.mkPartitionModification disk.Create disk.Primary
         (disk.Size_ (if has_uefi then 513 else 206) disk.MiB)
         root_length
         (if using_subvolumes cursor fs then None else Some "/")
         fs options []
         (if using_subvolumes cursor fs
          then [disk.mkSubvolumeModification "@" "/";
                disk.mkSubvolumeModification "@home" "/home";
                disk.mkSubvolumeModification "@log" "/var/log";
                disk.mkSubvolumeModification "@pkg" "/var/cache/pacman/pkg";
                disk.mkSubvolumeModification "@.snapshots" "/.snapshots"]
          else [])]
      ++ (if home
          then [disk.mkPartitionModification disk.Create disk.Primary
                  root_length
                  (disk.Size_percent 100 total)
                  (Some "/home") fs options [] []]
          else []))).
Proof.
  unfold run, suggest_single_disk_layout.
  unfold bind at 1. rewrite resolve_filesystem_run.
  unfold single_disk_events, using_home_partition, using_subvolumes,
    compression, is_btrfs, answer, total_size_of.
  rewrite lt_not_ge.
  generalize (filesystem_of cursor ft adv) (filesystem_events ft adv).
  intros fs fs_events.
  unfold bind, ret, Menu_run, emit, _boot_partition, new_partition, load,
    set_btrfs_subvols.
  cbn.
  destruct (disk.FilesystemType_eqb fs disk.Btrfs),
    (cursor UseSubvolumes), (cursor UseCompression),
    (disk.ge (disk.total_size (disk.device_info (bdevice device)))
       (disk.Size_ 40 disk.GiB)),
    sh as [[]|], (cursor SeparateHome), has_uefi;
    cbn; rewrite <- ?app_assoc, ?app_nil_r; reflexivity.
Qed.
End Evaluation.

(** ** Choosing by key: the first largest and the first smallest *)

Section Choose.

Context {A : Type}.
Variable key : A -> disk.Size.

Local Abbreviation bytes a := (disk.normalize (key a)).

Lemma max_by_cons (x y : A) (ys : list A) :
  py.max_by key disk.gt x (y :: ys) =
  py.max_by key disk.gt (if disk.gt (key y) (key x) then y else x) ys.
Proof. reflexivity. Qed.

(** [py.max_by] returns the first of the elements with the largest key. *)
Lemma max_by_first_largest (x : A) (xs : list A) :
  exists l1 l2,
    x :: xs = l1 ++ py.max_by key disk.gt x xs :: l2
    /\ Forall (fun a => (bytes a < bytes (py.max_by key disk.gt x xs))%Z) l1
    /\ Forall (fun a => (bytes a <= bytes (py.max_by key disk.gt x xs))%Z) l2.
Proof.
  revert x. induction xs as [|y ys IH]; intros x.
  - exists [], []. repeat split; constructor.
  - rewrite max_by_cons.
    assert (E := Z.gtb_spec (bytes y) (bytes x)).
    change (bytes y >? bytes x)%Z with (disk.gt (key y) (key x)) in E.
    destruct E as [Hgt|Hle].
    + destruct (IH y) as (l1 & l2 & Heq & H1 & H2).
      remember (py.max_by key disk.gt y ys) as m eqn:Hm. clear Hm.
      exists (x :: l1), l2. split; [cbn; now rewrite Heq|].
      split; [|exact H2].
      constructor; [|exact H1].
      assert (Hy : (bytes y <= bytes m)%Z).
      { destruct l1 as [|z l1]; cbn in Heq; injection Heq as Hy Hrest;
          subst.
        - lia.
        - apply Forall_cons_iff in H1. lia. }
      lia.
    + destruct (IH x) as (l1 & l2 & Heq & H1 & H2).
      remember (py.max_by key disk.gt x ys) as m eqn:Hm. clear Hm.
      destruct l1 as [|z l1]; cbn in Heq; injection Heq as Hx Hrest.
      * subst m ys. exists [], (y :: l2).
        repeat split; [constructor|].
        constructor; [lia | exact H2].
      * subst z ys. exists (x :: y :: l1), l2.
        apply Forall_cons_iff in H1. destruct H1 as [Hxm H1].
        repeat split; [|exact H2].
        constructor; [exact Hxm|]. constructor; [lia | exact H1].
Qed.


Lemma insert_sorted_head (x : A) (l : list A) :
  head (py.insert_sorted key disk.lt x l) =
  match head l with
  | Some y => if disk.lt (key y) (key x) then Some y else Some x
  | None => Some x
  end.
Proof.
  destruct l as [|y l]; cbn; [reflexivity|].
  now destruct (disk.lt (key y) (key x)).
Qed.

(** [sorted(l, key=key)[0]] is the first smallest element of [l]. *)
Lemma sorted_head (l : list A) :
  head (py.sorted key disk.lt l) = first_smallest key l.
Proof.
  induction l as [|x l IH]; cbn; [reflexivity|].
  fold (py.sorted key disk.lt l).
  now rewrite insert_sorted_head, IH.
Qed.

Lemma first_smallest_spec (l : list A) (m : A) :
  first_smallest key l = Some m ->
  exists l1 l2,
    l = l1 ++ m :: l2
    /\ Forall (fun a => (bytes m < bytes a)%Z) l1
    /\ Forall (fun a => (bytes m <= bytes a)%Z) l2.
Proof.
  revert m. induction l as [|x l IH]; intros m; cbn; [discriminate|].
  destruct (first_smallest key l) as [y|] eqn:Hy.
  - destruct (IH y eq_refl) as (l1 & l2 & -> & H1 & H2).
    unfold disk.lt. destruct (Z.ltb_spec (bytes y) (bytes x)) as [Hlt|Hge];
      intros [= <-].
    + exists (x :: l1), l2. repeat split; [constructor|]; assumption.
    + exists [], (l1 ++ y :: l2). repeat split; [constructor|].
      rewrite Forall_app, Forall_cons_iff. repeat split.
      * eapply Forall_impl; [exact H1|]. cbn. intros a Ha. lia.
      * exact Hge.
      * eapply Forall_impl; [exact H2|]. cbn. intros a Ha. lia.
  - intros [= <-]. destruct l; [|cbn in Hy; destruct (first_smallest key l);
      [destruct (disk.lt _ _)|]; discriminate].
    exists [], []. repeat split; constructor.
Qed.

Lemma first_smallest_le (l : list A) (m a : A) :
  first_smallest key l = Some m -> In a l -> (bytes m <= bytes a)%Z.
Proof.
  intros Hm Ha. destruct (first_smallest_spec l m Hm) as (l1 & l2 & -> & H1 & H2).
  rewrite List.Forall_forall in H1, H2.
  apply in_app_or in Ha. destruct Ha as [Ha|[<-|Ha]].
  - specialize (H1 a Ha). lia.
  - lia.
  - exact (H2 a Ha).
Qed.

Lemma first_smallest_None (l : list A) : first_smallest key l = None -> l = [].
Proof.
  destruct l as [|x l]; [reflexivity|]. cbn.
  destruct (first_smallest key l); [destruct (disk.lt _ _)|]; discriminate.
Qed.

(** Appending an element changes the choice only when its key is smaller. *)
Lemma first_smallest_snoc (l : list A) (e : A) :
  first_smallest key (l ++ [e]) =
  match first_smallest key l with
  | Some b => if disk.lt (key e) (key b) then Some e else Some b
  | None => Some e
  end.
Proof.
  induction l as [|x l IH]; [reflexivity|].
  cbn [app first_smallest]. rewrite IH.
  destruct (first_smallest key l) as [b|] eqn:Hb.
  - unfold disk.lt.
    destruct (Z.ltb_spec (bytes e) (bytes b)), (Z.ltb_spec (bytes b) (bytes x));
      destruct (Z.ltb_spec (bytes e) (bytes x));
      try reflexivity; try lia;
      destruct (Z.ltb_spec (bytes e) (bytes b)); try reflexivity; lia.
  - reflexivity.
Qed.

End Choose.

(** ** The devices the multi-disk planner chooses *)

Section Selection.

Variable bdevice : dref -> disk.BDevice.


Lemma normalize_delta_size (device : dref) :
  disk.normalize (delta_size bdevice device) = delta bdevice device.
Proof. unfold delta_size, delta, disk.sub. cbn. lia. Qed.

Lemma first_smallest_In {A : Type} (key : A -> disk.Size) (l : list A) (m : A) :
  first_smallest key l = Some m -> In m l.
Proof.
  intros H. destruct (first_smallest_spec key l m H) as (l1 & l2 & -> & _).
  apply in_or_app. right. now left.
Qed.

Section Dict.

Variable home : option dref.

Local Abbreviation kept devices :=
  (List.filter (fun d => is_not d home) devices).

Local Abbreviation step :=
  (fun (dd : list (dref * disk.Size)) (device : dref) =>
     if is_not device home
     then py.dict_set dd device (delta_size bdevice device)
     else dd).

Lemma dict_set_same (dd : list (dref * disk.Size)) (k : dref) :
  (forall k' v, In (k', v) dd -> v = delta_size bdevice k') ->
  In k (map fst dd) ->
  py.dict_set dd k (delta_size bdevice k) = dd.
Proof.
  induction dd as [|[k' v'] dd IH]; cbn; intros Hwf Hin; [contradiction|].
  destruct (Nat.eqb_spec k' k) as [->|Hne].
  - now rewrite <- (Hwf k v' (or_introl eq_refl)).
  - f_equal. apply IH.
    + intros k0 v0 H0. apply Hwf. now right.
    + destruct Hin as [Hin|Hin]; [contradiction|exact Hin].
Qed.

Lemma dict_set_fresh {V : Type} (dd : list (dref * V)) (k : dref) (v : V) :
  ~ In k (map fst dd) -> py.dict_set dd k v = dd ++ [(k, v)].
Proof.
  induction dd as [|[k' v'] dd IH]; cbn; intros Hnin; [reflexivity|].
  destruct (Nat.eqb_spec k' k) as [->|Hne].
  - exfalso. apply Hnin. now left.
  - f_equal. apply IH. intros H. apply Hnin. now right.
Qed.


Lemma agrees_step (seen : list dref) (dd : list (dref * disk.Size))
  (device : dref) :
  agrees bdevice home seen dd ->
  agrees bdevice home (seen ++ [device]) (step dd device).
Proof.
  intros (Hwf & Hkeys & Hmin). unfold agrees.
  rewrite List.filter_app. cbn [List.filter].
  destruct (is_not device home) eqn:Hnot.
  2:{ rewrite app_nil_r. exact (conj Hwf (conj Hkeys Hmin)). }
  destruct (in_dec Nat.eq_dec device (map fst dd)) as [Hin|Hnin].
  - rewrite dict_set_same by assumption.
    split; [exact Hwf|]. split.
    + intros k. rewrite Hkeys, in_app_iff. cbn. split; [tauto|].
      intros [H|[<-|[]]]; [exact H|]. now apply Hkeys.
    + rewrite first_smallest_snoc, <- Hmin.
      destruct (first_smallest snd dd) as [[kb vb]|] eqn:Hb; cbn.
      * assert (Hle : (disk.normalize (delta_size bdevice kb)
                       <= disk.normalize (delta_size bdevice device))%Z).
        { symmetry in Hmin. cbn in Hmin.
          apply (first_smallest_le (delta_size bdevice) _ _ _ Hmin).
          now apply Hkeys. }
        unfold disk.lt.
        destruct (Z.ltb_spec (disk.normalize (delta_size bdevice device))
                    (disk.normalize (delta_size bdevice kb))); [lia|reflexivity].
      * apply first_smallest_None in Hb. subst dd. contradiction.
  - rewrite dict_set_fresh by assumption. split; [|split].
    + intros k v Hkv. apply in_app_or in Hkv.
      destruct Hkv as [Hkv|[[= <- <-]|[]]]; [now apply Hwf|reflexivity].
    + intros k. rewrite map_app, !in_app_iff, Hkeys. reflexivity.
    + rewrite !first_smallest_snoc, <- Hmin.
      destruct (first_smallest snd dd) as [[kb vb]|] eqn:Hb; cbn;
        [|reflexivity].
      rewrite (Hwf kb vb (first_smallest_In snd _ _ Hb)).
      now destruct (disk.lt (delta_size bdevice device) (delta_size bdevice kb)).
Qed.

Lemma agrees_fold (l seen : list dref) (dd : list (dref * disk.Size)) :
  agrees bdevice home seen dd ->
  agrees bdevice home (seen ++ l) (fold_left step l dd).
Proof.
  revert seen dd. induction l as [|d l IH]; intros seen dd H; cbn [fold_left].
  - now rewrite app_nil_r.
  - replace (seen ++ d :: l) with ((seen ++ [d]) ++ l)
      by now rewrite <- app_assoc.
    apply IH. now apply agrees_step.
Qed.

Lemma devices_delta_agrees (devices : list dref) :
  agrees bdevice home devices (devices_delta bdevice devices home).
Proof.
  apply (agrees_fold devices [] []).
  repeat split; intros; cbn in *; tauto.
Qed.

(** [sorted_delta[0]] is the first of the kept devices with the smallest
    delta, paired with its delta. *)
Lemma sorted_delta_head (devices : list dref) :
  head (sorted_delta bdevice devices home) =
  option_map (fun d => (d, delta_size bdevice d))
    (first_smallest (delta_size bdevice) (kept devices)).
Proof.
  unfold sorted_delta. rewrite sorted_head.
  destruct (devices_delta_agrees devices) as (Hwf & _ & Hmin).
  rewrite <- Hmin.
  destruct (first_smallest snd _) as [[k v]|] eqn:Hb; cbn; [|reflexivity].
  now rewrite (Hwf k v (first_smallest_In snd _ _ Hb)).
Qed.

Lemma root_device_eq (devices : list dref) :
  root_device bdevice devices home =
  match first_smallest (delta_size bdevice) (kept devices) with
  | Some d => ret (Some d)
  | None => raise IndexError
  end.
Proof.
  unfold root_device. pose proof (sorted_delta_head devices) as H.
  destruct (sorted_delta bdevice devices home) as [|[d v] rest];
    destruct (first_smallest (delta_size bdevice) (kept devices));
    cbn in H; try discriminate; [reflexivity|].
  now injection H as -> _.
Qed.

End Dict.

(** The home device is the first of the largest possible devices. *)
Lemma home_device_spec (devices : list dref) :
  match home_device bdevice devices with
  | Some h =>
      exists l1 l2,
        possible_devices bdevice devices = l1 ++ h :: l2
        /\ Forall (fun d => (disk.normalize (total_size_of bdevice d)
                             < disk.normalize (total_size_of bdevice h))%Z) l1
        /\ Forall (fun d => (disk.normalize (total_size_of bdevice d)
                             <= disk.normalize (total_size_of bdevice h))%Z) l2
  | None => possible_devices bdevice devices = []
  end.
Proof.
  unfold home_device.
  destruct (possible_devices bdevice devices) as [|d ds]; [reflexivity|].
  apply (max_by_first_largest (total_size_of bdevice)).
Qed.


(** With two devices, one is left for the root whatever the home device. *)
Lemma kept_not_empty (devices : list dref) (home : option dref) :
  two_or_more devices ->
  first_smallest (delta_size bdevice)
    (List.filter (fun d => is_not d home) devices) <> None.
Proof.
  intros (d1 & d2 & H1 & H2 & Hne) Hnone.
  apply first_smallest_None in Hnone.
  assert (Hk : forall d, In d devices -> is_not d home = true -> False).
  { intros d Hd Hn.
    assert (Hin : In d (List.filter (fun d => is_not d home) devices))
      by (apply List.filter_In; now split).
    rewrite Hnone in Hin. exact Hin. }
  destruct home as [h|]; cbn in Hk.
  - destruct (Nat.eqb_spec d1 h) as [E1|N1], (Nat.eqb_spec d2 h) as [E2|N2].
    + congruence.
    + apply (Hk d2 H2). now apply Bool.negb_true_iff, Nat.eqb_neq.
    + apply (Hk d1 H1). now apply Bool.negb_true_iff, Nat.eqb_neq.
    + apply (Hk d1 H1). now apply Bool.negb_true_iff, Nat.eqb_neq.
  - exact (Hk d1 H1 eq_refl).
Qed.

End Selection.

(** ** What a call of the multi-disk planner returns and leaves behind *)

Section MultiDisk.

Variable has_uefi : bool.
Variable cursor : Prompt -> nat.
Variable bdevice : dref -> disk.BDevice.

Lemma suggest_multi_disk_layout_run devices ft adv :
  devices <> [] ->
  let fs := filesystem_of cursor ft adv in
  let home := home_device bdevice devices in
  let options := if compression cursor fs then ["compress=zstd"] else [] in
  run (suggest_multi_disk_layout has_uefi cursor bdevice devices ft adv) =
  match first_smallest (delta_size bdevice)
          (List.filter (fun d => is_not d home) devices) with
  | None => (Raise IndexError, mkWorld (filesystem_events ft adv) [])
  | Some r =>
      match home with
      | None =>
          (Return [],
           mkWorld
             (filesystem_events ft adv
              ++ [MenuRun
                    (CapacityAdvisory (disk.Size_ 40 disk.GiB)
                       (disk.Size_ 20 disk.GiB))
                    ["Continue"]])
             [])
      | Some h =>
          (Return
             [disk.mkDeviceModification r true [0; 1];
              disk.mkDeviceModification h true [2]],
           mkWorld
             (filesystem_events ft adv
              ++ (if is_btrfs fs
                  then [MenuRun UseCompression Menu_yes_no] else [])
              ++ [Log ("Suggesting multi-disk-layout for devices: "
                       ++ py.join ", "
                            (map (fun d =>
                                    disk.path (disk.device_info (bdevice d)))
                               devices));
                  Log ("/root: " ++ disk.path (disk.device_info (bdevice r)));
                  Log ("/home: " ++ disk.path (disk.device_info (bdevice h)))])
             [disk.mkPartitionModification disk.Create disk.Primary
                (disk.Size_ (if has_uefi then 1 else 3) disk.MiB)
                (disk.Size_ (if has_uefi then 512 else 203) disk.MiB)
                (Some "/boot") disk.Fat32 [] [disk.Boot] [];
              disk.mkPartitionModification disk.Create disk.Primary
                (disk.Size_ (if has_uefi then 513 else 206) disk.MiB)
                (disk.Size_percent 100 (total_size_of bdevice r))
                (Some "/") fs options [] [];
              disk.mkPartitionModification disk.Create disk.Primary
                (disk.Size_ 1 disk.MiB)
                (disk.Size_percent 100 (total_size_of bdevice h))
                (Some "/home") fs options [] []])
      end
  end.
Proof.
  intros Hne. unfold run, suggest_multi_disk_layout.
  destruct devices as [|d0 l]; [contradiction|].
  remember (d0 :: l) as ds eqn:Hds. clear Hds Hne.
  unfold bind at 1. rewrite resolve_filesystem_run.
  unfold bind at 1. rewrite root_device_eq.
  destruct (first_smallest (delta_size bdevice) _) as [r|]; [|reflexivity].
  unfold ret at 1. cbv beta iota.
  destruct (home_device bdevice ds) as [h|]; [|reflexivity].
  unfold compression, is_btrfs, answer.
  generalize (filesystem_of cursor ft adv) (filesystem_events ft adv).
  intros fs fs_events.
  unfold bind, ret, Menu_run, emit, _boot_partition, new_partition.
  cbn.
  destruct (disk.FilesystemType_eqb fs disk.Btrfs), (cursor UseCompression),
    has_uefi; cbn; rewrite <- ?app_assoc; reflexivity.
Qed.

End MultiDisk.

(** ** Properties of the suggested layouts *)

Section Properties.

Variable has_uefi : bool.
Variable cursor : Prompt -> nat.
Variable bdevice : dref -> disk.BDevice.

(** The multi-disk planner returns no modification or two. *)
Lemma multi_returns devices ft adv mods w :
  run (suggest_multi_disk_layout has_uefi cursor bdevice
         devices ft adv) = (Return mods, w) ->
  mods = []
  \/ exists r h,
       home_device bdevice devices = Some h
       /\ first_smallest (delta_size bdevice)
            (List.filter (fun d => is_not d (Some h)) devices) = Some r
       /\ devices <> []
       /\ mods = [disk.mkDeviceModification r true [0; 1];
                  disk.mkDeviceModification h true [2]].
Proof.
  destruct devices as [|d0 l].
  - cbn. intros [= <- <-]. now left.
  - assert (Hne : d0 :: l <> []) by discriminate.
    pose proof (suggest_multi_disk_layout_run has_uefi cursor bdevice
                  (d0 :: l) ft adv Hne) as Hrun.
    cbv zeta in Hrun. rewrite Hrun. clear Hrun.
    destruct (home_device bdevice (d0 :: l)) as [h|] eqn:Hh;
      destruct (first_smallest _ _) as [r|] eqn:Hr; intros [= <- <-];
      [right; exists r, h; repeat split; assumption | now left].
Qed.

(** C5: every planner path that creates a boot partition gives it start
    1 MiB and length 512 MiB under UEFI, start 3 MiB and length 203 MiB
    under legacy BIOS, filesystem type FAT32, mountpoint /boot and the boot
    flag: this is what [_boot_partition] creates, it is the first partition
    of the single-disk layout and of the root device of a multi-disk
    layout, and no other partition is mounted on /boot. *)
Theorem boot_partition_policy device devices ft adv sh :
  let boot :=
    disk.mkPartitionModification disk.Create disk.Primary
      (if has_uefi then disk.Size_ 1 disk.MiB else disk.Size_ 3 disk.MiB)
      (if has_uefi then disk.Size_ 512 disk.MiB else disk.Size_ 203 disk.MiB)
      (Some "/boot") disk.Fat32 [] [disk.Boot] [] in
  (forall w,
     _boot_partition has_uefi w =
     (Return (length (store w)), mkWorld (events w) (store w ++ [boot])))
  /\ (exists dm w rest,
        run (suggest_single_disk_layout has_uefi cursor bdevice
               device ft adv sh) = (Return dm, w)
        /\ planned w dm = boot :: rest
        /\ Forall (fun p => disk.mountpoint p <> Some "/boot") rest)
  /\ (forall mods w,
        run (suggest_multi_disk_layout has_uefi cursor bdevice
               devices ft adv) = (Return mods, w) ->
        mods = []
        \/ exists rm hm root home,
             mods = [rm; hm]
             /\ planned w rm = [boot; root]
             /\ planned w hm = [home]
             /\ disk.mountpoint root <> Some "/boot"
             /\ disk.mountpoint home <> Some "/boot").
Proof.
  cbv zeta. split; [|split].
  - intros w. unfold _boot_partition, new_partition. now destruct has_uefi.
  - rewrite suggest_single_disk_layout_run.
    destruct (using_home_partition _ _ _ _ _), has_uefi,
      (using_subvolumes _ _);
      do 3 eexists; (split; [reflexivity|]); cbn;
      (split; [reflexivity | repeat constructor; discriminate]).
  - intros mods w Hrun.
    destruct (multi_returns _ _ _ _ _ Hrun) as [->|(r & h & Hh & Hr & Hne & ->)];
      [now left|right].
    pose proof (suggest_multi_disk_layout_run has_uefi cursor bdevice
                  devices ft adv Hne) as Heq.
    cbv zeta in Heq. rewrite Hh, Hr in Heq. rewrite Heq in Hrun.
    injection Hrun as <-.
    destruct has_uefi; do 4 eexists; (split; [reflexivity|]); cbn;
      (split; [reflexivity|]); (split; [reflexivity|]); split; discriminate.
Qed.

Ltac multi_cases Hrun :=
  let r := fresh "r" in
  let h := fresh "h" in
  let Hh := fresh "Hh" in
  let Hr := fresh "Hr" in
  let Hne := fresh "Hne" in
  let Heq := fresh "Heq" in
  destruct (multi_returns _ _ _ _ _ Hrun)
    as [->|(r & h & Hh & Hr & Hne & ->)];
  [now left|right];
  match type of Hrun with
  | run (suggest_multi_disk_layout _ _ _ ?ds ?ft ?adv) = _ =>
      pose proof (suggest_multi_disk_layout_run has_uefi cursor bdevice
                    ds ft adv Hne) as Heq
  end;
  cbv zeta in Heq; rewrite Hh, Hr in Heq; rewrite Heq in Hrun;
  injection Hrun as <-.

(** C8: every device modification the planners produce has [wipe = true]:
    the one of the single-disk planner, and the root-device and home-device
    modifications of the multi-disk planner. *)
Theorem every_modification_wipes device devices ft adv sh :
  (exists dm w,
     run (suggest_single_disk_layout has_uefi cursor bdevice
            device ft adv sh) = (Return dm, w) /\ disk.wipe dm = true)
  /\ (forall mods w,
        run (suggest_multi_disk_layout has_uefi cursor bdevice
               devices ft adv) = (Return mods, w) ->
        mods = []
        \/ exists rm hm,
             mods = [rm; hm]
             /\ disk.wipe rm = true /\ disk.wipe hm = true).
Proof.
  split.
  - rewrite suggest_single_disk_layout_run. do 2 eexists.
    split; reflexivity.
  - intros mods w Hrun. multi_cases Hrun.
    do 2 eexists. repeat split.
Qed.

Lemma normalize_percent_100 (t : disk.Size) :
  disk.normalize (disk.Size_percent 100 t) = disk.normalize t.
Proof. cbn. now rewrite Z.div_mul. Qed.

Lemma normalize_min (a b : disk.Size) :
  disk.normalize (py.min a b) = Z.min (disk.normalize a) (disk.normalize b).
Proof.
  unfold py.min, disk.lt.
  destruct (Z.ltb_spec (disk.normalize b) (disk.normalize a)); lia.
Qed.

(** C3: in both planners the root partition starts at 513 MiB under UEFI
    and at 206 MiB under legacy BIOS; in the single-disk planner its length
    is a 100-Percent size of the device total when subvolumes are used, or
    the device is below 40 GiB, or no separate home was chosen, and
    otherwise the minimum of the device total and 20 GiB. *)
Theorem root_partition_start_and_length device devices ft adv sh :
  let fs := filesystem_of cursor ft adv in
  let start :=
    if has_uefi then disk.Size_ 513 disk.MiB else disk.Size_ 206 disk.MiB in
  let chosen :=
    match sh with Some b => b | None => answer cursor SeparateHome end in
  let whole :=
    using_subvolumes cursor fs
    || disk.lt (total_size_of bdevice device) (disk.Size_ 40 disk.GiB)
    || negb chosen in
  (exists dm w boot root rest,
     run (suggest_single_disk_layout has_uefi cursor bdevice
            device ft adv sh) = (Return dm, w)
     /\ planned w dm = boot :: root :: rest
     /\ disk.mountpoint boot = Some "/boot"
     /\ disk.fs_type root = fs
     /\ disk.start root = start
     /\ disk.length root =
        (if whole then disk.Size_percent 100 (total_size_of bdevice device)
         else py.min (total_size_of bdevice device) (disk.Size_ 20 disk.GiB))
     /\ disk.normalize (disk.length root) =
        (if whole then disk.normalize (total_size_of bdevice device)
         else Z.min (disk.normalize (total_size_of bdevice device))
                (20 * 2 ^ 30))%Z)
  /\ (forall mods w,
        run (suggest_multi_disk_layout has_uefi cursor bdevice
               devices ft adv) = (Return mods, w) ->
        mods = []
        \/ exists rm hm boot root,
             mods = [rm; hm]
             /\ planned w rm = [boot; root]
             /\ disk.mountpoint boot = Some "/boot"
             /\ disk.mountpoint root = Some "/"
             /\ disk.start root = start).
Proof.
  cbv zeta. split.
  - rewrite suggest_single_disk_layout_run. cbv zeta.
    unfold using_home_partition. rewrite lt_not_ge.
    destruct (using_subvolumes cursor (filesystem_of cursor ft adv)),
      (disk.ge (total_size_of bdevice device) (disk.Size_ 40 disk.GiB)),
      sh as [[]|], (answer cursor SeparateHome), has_uefi;
      do 5 eexists; (split; [reflexivity|]);
      cbn [planned disk.partitions omap list_omap negb orb andb];
      (split; [reflexivity|]);
      cbn [disk.mountpoint disk.fs_type disk.start disk.length];
      repeat (split; [reflexivity|]);
      first [apply normalize_percent_100 | apply normalize_min].
  - intros mods w Hrun. multi_cases Hrun.
    destruct has_uefi; do 4 eexists; repeat (split; [reflexivity|]);
      reflexivity.
Qed.

Lemma is_btrfs_iff (fs : disk.FilesystemType) :
  is_btrfs fs = true <-> fs = disk.Btrfs.
Proof. destruct fs; cbn; split; congruence. Qed.

Lemma filesystem_events_only_select ft adv (p : Prompt) options :
  In (MenuRun p options) (filesystem_events ft adv) -> p = SelectFilesystem.
Proof.
  destruct ft; cbn; [contradiction|]. intros [[= <- _]|[]]. reflexivity.
Qed.

(** C2: on a device of at least 40 GiB, single-disk planning without
    subvolumes and with a separate home chosen appends a home partition
    that starts at the root partition's length (not at root start plus root
    length), whose length is a 100-Percent size of the device total, and
    whose mountpoint is /home. *)
Theorem separate_home_partition device ft adv sh :
  let fs := filesystem_of cursor ft adv in
  disk.ge (total_size_of bdevice device) (disk.Size_ 40 disk.GiB) = true ->
  using_subvolumes cursor fs = false ->
  match sh with Some b => b | None => answer cursor SeparateHome end = true ->
  exists dm w boot root home,
    run (suggest_single_disk_layout has_uefi cursor bdevice
           device ft adv sh) = (Return dm, w)
    /\ planned w dm = [boot; root; home]
    /\ disk.mountpoint root = Some "/"
    /\ disk.start home = disk.length root
    /\ disk.normalize (disk.start home)
       <> (disk.normalize (disk.start root)
           + disk.normalize (disk.length root))%Z
    /\ disk.length home = disk.Size_percent 100 (total_size_of bdevice device)
    /\ disk.mountpoint home = Some "/home".
Proof.
  cbv zeta. intros Hge Hsub Hchosen.
  rewrite suggest_single_disk_layout_run. cbv zeta.
  unfold using_home_partition. rewrite Hge, Hsub, Hchosen.
  cbn [negb andb]. do 5 eexists. split; [reflexivity|].
  cbn [planned disk.partitions omap list_omap].
  split; [reflexivity|].
  cbn [disk.mountpoint disk.start disk.length].
  repeat (split; [reflexivity|]). split; [|split; reflexivity].
  destruct has_uefi; cbn; lia.
Qed.

(** C4: on a device below 40 GiB, single-disk planning never asks the
    separate-home question and produces no /home partition, whatever the
    [separate_home] preference, and the root partition's length is a
    100-Percent size of the device total. *)
Theorem small_device_has_no_home device ft adv sh :
  disk.lt (total_size_of bdevice device) (disk.Size_ 40 disk.GiB) = true ->
  exists dm w boot root,
    run (suggest_single_disk_layout has_uefi cursor bdevice
           device ft adv sh) = (Return dm, w)
    /\ planned w dm = [boot; root]
    /\ disk.mountpoint boot = Some "/boot"
    /\ disk.mountpoint root <> Some "/home"
    /\ disk.length root = disk.Size_percent 100 (total_size_of bdevice device)
    /\ forall options, ~ In (MenuRun SeparateHome options) (events w).
Proof.
  intros Hlt. rewrite lt_not_ge in Hlt. apply Bool.negb_true_iff in Hlt.
  rewrite suggest_single_disk_layout_run. cbv zeta.
  unfold using_home_partition, single_disk_events. rewrite Hlt.
  rewrite !Bool.andb_false_r. cbn [andb].
  do 4 eexists. split; [reflexivity|].
  cbn [planned disk.partitions omap list_omap app].
  split; [reflexivity|].
  cbn [disk.mountpoint disk.length events].
  split; [reflexivity|]. split; [now destruct (using_subvolumes _ _)|].
  split; [reflexivity|].
  intros options Hin. rewrite app_nil_r in Hin.
  apply in_app_or in Hin. destruct Hin as [Hin|Hin].
  - apply filesystem_events_only_select in Hin. discriminate.
  - destruct (is_btrfs _); cbn in Hin;
      [destruct Hin as [Hin|[Hin|[]]]; discriminate | contradiction].
Qed.

(** C6: whenever subvolumes are selected in the single-disk planner, the
    root partition carries exactly the five subvolumes @ -> /,
    @home -> /home, @log -> /var/log, @pkg -> /var/cache/pacman/pkg and
    @.snapshots -> /.snapshots, and its own mountpoint is unset. *)
Theorem subvolumes_on_root device ft adv sh :
  let fs := filesystem_of cursor ft adv in
  using_subvolumes cursor fs = true ->
  exists dm w boot root,
    run (suggest_single_disk_layout has_uefi cursor bdevice
           device ft adv sh) = (Return dm, w)
    /\ planned w dm = [boot; root]
    /\ disk.mountpoint boot = Some "/boot"
    /\ disk.btrfs_subvols boot = []
    /\ disk.fs_type root = disk.Btrfs
    /\ disk.mountpoint root = None
    /\ disk.btrfs_subvols root =
       [disk.mkSubvolumeModification "@" "/";
        disk.mkSubvolumeModification "@home" "/home";
        disk.mkSubvolumeModification "@log" "/var/log";
        disk.mkSubvolumeModification "@pkg" "/var/cache/pacman/pkg";
        disk.mkSubvolumeModification "@.snapshots" "/.snapshots"].
Proof.
  cbv zeta. intros Hsub.
  rewrite suggest_single_disk_layout_run. cbv zeta.
  unfold using_home_partition. rewrite Hsub. cbn [negb andb].
  do 4 eexists. split; [reflexivity|].
  cbn [planned disk.partitions omap list_omap app].
  split; [reflexivity|].
  cbn [disk.mountpoint disk.btrfs_subvols disk.fs_type].
  repeat (split; [reflexivity|]). split; [|split; reflexivity].
  unfold using_subvolumes in Hsub. apply Bool.andb_true_iff in Hsub.
  now apply is_btrfs_iff.
Qed.

Lemma compression_asked_single device ft adv sh options :
  In (MenuRun UseCompression options)
     (single_disk_events cursor bdevice device ft adv sh)
  <-> options = Menu_yes_no /\ filesystem_of cursor ft adv = disk.Btrfs.
Proof.
  unfold single_disk_events. rewrite !in_app_iff, <- is_btrfs_iff. split.
  - intros [Hin|[Hin|Hin]].
    + apply filesystem_events_only_select in Hin. discriminate.
    + destruct (is_btrfs _); cbn in Hin; [|contradiction].
      destruct Hin as [[=]|[[= <-]|[]]]. now split.
    + destruct (_ && _); [|contradiction].
      destruct sh; cbn in Hin; [contradiction|].
      destruct Hin as [[=]|[]].
  - intros [-> ->]. right. left. right. now left.
Qed.

Lemma compression_asked_multi devices ft adv o w options :
  run (suggest_multi_disk_layout has_uefi cursor bdevice
         devices ft adv) = (o, w) ->
  In (MenuRun UseCompression options) (events w) ->
  filesystem_of cursor ft adv = disk.Btrfs.
Proof.
  destruct devices as [|d0 l].
  - cbn. intros [= <- <-] [].
  - assert (Hne : d0 :: l <> []) by discriminate.
    pose proof (suggest_multi_disk_layout_run has_uefi cursor bdevice
                  (d0 :: l) ft adv Hne) as Hrun.
    cbv zeta in Hrun. rewrite Hrun. clear Hrun.
    destruct (first_smallest _ _) as [r|];
      [destruct (home_device bdevice (d0 :: l)) as [h|]|];
      intros [= <- <-]; cbn [events]; rewrite ?in_app_iff;
      intros Hin.
    + destruct Hin as [Hin|[Hin|Hin]].
      * apply filesystem_events_only_select in Hin. discriminate.
      * apply is_btrfs_iff. destruct (is_btrfs _); [reflexivity|].
        contradiction.
      * cbn in Hin. destruct Hin as [[=]|[[=]|[[=]|[]]]].
    + destruct Hin as [Hin|[[=]|[]]].
      apply filesystem_events_only_select in Hin. discriminate.
    + apply filesystem_events_only_select in Hin. discriminate.
Qed.

(** C9: the mount options of the root and home partitions the planners
    create are ['compress=zstd'] if compression was requested and empty
    otherwise (the boot partition has none); compression is requested only
    when the filesystem type is Btrfs, and only then is it asked for. *)
Theorem mount_options_follow_compression device devices ft adv sh :
  let fs := filesystem_of cursor ft adv in
  let options := if compression cursor fs then ["compress=zstd"] else [] in
  (compression cursor fs = true -> fs = disk.Btrfs)
  /\ (exists dm w boot rest,
        run (suggest_single_disk_layout has_uefi cursor bdevice
               device ft adv sh) = (Return dm, w)
        /\ planned w dm = boot :: rest
        /\ disk.mountpoint boot = Some "/boot"
        /\ disk.mount_options boot = []
        /\ rest <> []
        /\ Forall (fun p => disk.mount_options p = options) rest
        /\ (forall entries,
              In (MenuRun UseCompression entries) (events w) ->
              fs = disk.Btrfs))
  /\ (forall o w,
        run (suggest_multi_disk_layout has_uefi cursor bdevice
               devices ft adv) = (o, w) ->
        forall entries,
          In (MenuRun UseCompression entries) (events w) -> fs = disk.Btrfs)
  /\ (forall mods w,
        run (suggest_multi_disk_layout has_uefi cursor bdevice
               devices ft adv) = (Return mods, w) ->
        mods = []
        \/ exists rm hm boot root home,
             mods = [rm; hm]
             /\ planned w rm = [boot; root]
             /\ planned w hm = [home]
             /\ disk.mount_options boot = []
             /\ disk.mount_options root = options
             /\ disk.mount_options home = options).
Proof.
  cbv zeta. split; [|split; [|split]].
  - unfold compression. intros H. apply Bool.andb_true_iff in H.
    now apply is_btrfs_iff.
  - rewrite suggest_single_disk_layout_run. cbv zeta.
    destruct (using_home_partition _ _ _ _ _);
      do 4 eexists; (split; [reflexivity|]);
      cbn [planned disk.partitions omap list_omap app];
      (split; [reflexivity|]);
      cbn [disk.mountpoint disk.mount_options events];
      (repeat split; [discriminate | repeat constructor |]);
      intros o Hin; now apply compression_asked_single in Hin.
  - intros o w Hrun entries.
    exact (compression_asked_multi _ _ _ _ _ _ Hrun).
  - intros mods w Hrun. multi_cases Hrun.
    do 5 eexists. repeat (split; [reflexivity|]). reflexivity.
Qed.

(** C1: for every list of two or more devices, the multi-disk planner
    takes as home device the largest of the devices of at least 40 GiB
    (the first-listed of the largest; none when there is no such device),
    and as root device, among the devices other than the home device, the
    one with the smallest signed delta total size - 20 GiB, the
    first-listed one on a tie: it is the head of the list stably sorted by
    delta.  The root device is a device of the list and is never the home
    device.  The root and home modifications are for these two devices. *)
Theorem multi_disk_selects_home_and_root devices ft adv :
  two_or_more devices ->
  let bytes d := disk.normalize (total_size_of bdevice d) in
  let home := home_device bdevice devices in
  match home with
  | Some h =>
      exists l1 l2,
        List.filter
          (fun d => disk.ge (total_size_of bdevice d) (disk.Size_ 40 disk.GiB))
          devices
        = l1 ++ h :: l2
        /\ Forall (fun d => (bytes d < bytes h)%Z) l1
        /\ Forall (fun d => (bytes d <= bytes h)%Z) l2
  | None =>
      List.filter
        (fun d => disk.ge (total_size_of bdevice d) (disk.Size_ 40 disk.GiB))
        devices
      = []
  end
  /\ exists r l1 l2,
       List.filter
         (fun d =>
            match home with
            | Some h => negb (Nat.eqb d h)
            | None => true
            end)
         devices
       = l1 ++ r :: l2
       /\ In r devices
       /\ home <> Some r
       /\ Forall
            (fun d => (bytes r - 20 * 2 ^ 30 < bytes d - 20 * 2 ^ 30)%Z) l1
       /\ Forall
            (fun d => (bytes r - 20 * 2 ^ 30 <= bytes d - 20 * 2 ^ 30)%Z) l2
       /\ head (sorted_delta bdevice devices home)
          = Some (r, disk.sub (total_size_of bdevice r)
                       (disk.Size_ 20 disk.GiB))
       /\ exists w,
            run (suggest_multi_disk_layout has_uefi cursor bdevice
                   devices ft adv) =
            (Return
               match home with
               | Some h =>
                   [disk.mkDeviceModification r true [0; 1];
                    disk.mkDeviceModification h true [2]]
               | None => []
               end,
             w).
Proof.
  intros Htwo. cbv zeta. split; [apply home_device_spec|].
  pose proof (kept_not_empty bdevice devices (home_device bdevice devices)
                Htwo) as Hsome.
  destruct (first_smallest (delta_size bdevice) _) as [r|] eqn:Hr;
    [clear Hsome | contradiction].
  destruct (first_smallest_spec _ _ _ Hr) as (l1 & l2 & Heq & H1 & H2).
  assert (Hkept :
            In r (List.filter
                    (fun d => is_not d (home_device bdevice devices))
                    devices))
    by (rewrite Heq; apply in_elt).
  apply List.filter_In in Hkept. destruct Hkept as [Hlisted Hnot].
  exists r, l1, l2. split; [exact Heq|].
  split; [exact Hlisted|]. split.
  { intros Hhome. rewrite Hhome in Hnot. cbn in Hnot.
    now rewrite Nat.eqb_refl in Hnot. }
  split; [|split; [|split]].
  - eapply Forall_impl; [exact H1|]. intros d Hd. cbv beta in Hd |- *.
    rewrite !normalize_delta_size in Hd. exact Hd.
  - eapply Forall_impl; [exact H2|]. intros d Hd. cbv beta in Hd |- *.
    rewrite !normalize_delta_size in Hd. exact Hd.
  - rewrite sorted_delta_head, Hr. reflexivity.
  - assert (Hne : devices <> []).
    { destruct Htwo as (d1 & _ & Hin & _). now destruct devices. }
    pose proof (suggest_multi_disk_layout_run has_uefi cursor bdevice
                  devices ft adv Hne) as Hrun.
    cbv zeta in Hrun. rewrite Hr in Hrun. rewrite Hrun.
    destruct (home_device bdevice devices); eexists; reflexivity.
Qed.

Lemma no_possible_devices devices :
  Forall
    (fun d => disk.lt (total_size_of bdevice d) (disk.Size_ 40 disk.GiB) = true)
    devices ->
  possible_devices bdevice devices = [].
Proof.
  unfold possible_devices. induction 1 as [|d l Hd _ IH]; [reflexivity|].
  cbn [List.filter]. rewrite lt_not_ge in Hd.
  apply Bool.negb_true_iff in Hd. now rewrite Hd.
Qed.

Lemma kept_without_home devices :
  List.filter (fun d => is_not d None) devices = devices.
Proof.
  induction devices as [|d l IH]; [reflexivity|].
  change (d :: List.filter (fun d => is_not d None) l = d :: l).
  now rewrite IH.
Qed.

Lemma no_advisory_in_filesystem_events ft adv :
  List.filter is_capacity_advisory (filesystem_events ft adv) = [].
Proof. now destruct ft. Qed.

(** C7: for every list of two or more devices that are all below 40 GiB,
    the multi-disk planner returns the empty list, not an exception, and
    runs the capacity advisory exactly once. *)
Theorem no_suggestion_below_40_GiB devices ft adv :
  2 <= length devices ->
  Forall
    (fun d => disk.lt (total_size_of bdevice d) (disk.Size_ 40 disk.GiB) = true)
    devices ->
  exists w,
    run (suggest_multi_disk_layout has_uefi cursor bdevice
           devices ft adv) = (Return [], w)
    /\ List.filter is_capacity_advisory (events w) =
       [MenuRun
          (CapacityAdvisory (disk.Size_ 40 disk.GiB) (disk.Size_ 20 disk.GiB))
          ["Continue"]].
Proof.
  intros Hlen Hsmall.
  assert (Hne : devices <> []) by (destruct devices; [cbn in Hlen; lia|easy]).
  pose proof (suggest_multi_disk_layout_run has_uefi cursor bdevice
                devices ft adv Hne) as Hrun.
  cbv zeta in Hrun. unfold home_device in Hrun.
  rewrite (no_possible_devices devices Hsmall), kept_without_home in Hrun.
  destruct (first_smallest (delta_size bdevice) devices) as [r|] eqn:Hr.
  - eexists. split; [exact Hrun|]. cbn [events].
    rewrite List.filter_app, no_advisory_in_filesystem_events. reflexivity.
  - apply first_smallest_None in Hr. contradiction.
Qed.

(** C10: on a list of exactly one device of at least 40 GiB, that device
    is the home device, no device is left for the root, and indexing the
    empty sorted list raises an error instead of returning the empty
    result; on every list of two or more devices the planner returns, and
    on the empty list it returns the empty result without any event. *)
Theorem single_device_list_raises d ft adv :
  disk.ge (total_size_of bdevice d) (disk.Size_ 40 disk.GiB) = true ->
  home_device bdevice [d] = Some d
  /\ devices_delta bdevice [d] (home_device bdevice [d]) = []
  /\ run (suggest_multi_disk_layout has_uefi cursor bdevice [d] ft adv) =
     (Raise IndexError, mkWorld (filesystem_events ft adv) [])
  /\ (forall devices ft' adv',
        two_or_more devices ->
        exists mods w, run (suggest_multi_disk_layout has_uefi cursor bdevice
                              devices ft' adv') = (Return mods, w))
  /\ (forall ft' adv', run (suggest_multi_disk_layout has_uefi cursor bdevice
                              [] ft' adv') = (Return [], mkWorld [] [])).
Proof.
  intros Hge.
  assert (Hhome : home_device bdevice [d] = Some d).
  { unfold home_device, possible_devices. cbn [List.filter].
    now rewrite Hge. }
  split; [exact Hhome|]. split; [|split; [|split]].
  - rewrite Hhome. unfold devices_delta. cbn.
    now rewrite Nat.eqb_refl.
  - assert (Hne : [d] <> []) by discriminate.
    pose proof (suggest_multi_disk_layout_run has_uefi cursor bdevice
                  [d] ft adv Hne) as Hrun.
    cbv zeta in Hrun. rewrite Hhome in Hrun. cbn [List.filter is_not] in Hrun.
    rewrite Nat.eqb_refl in Hrun. exact Hrun.
  - intros devices ft' adv' Htwo.
    assert (Hne : devices <> []).
    { destruct Htwo as (d1 & _ & Hin & _). now destruct devices. }
    pose proof (suggest_multi_disk_layout_run has_uefi cursor bdevice
                  devices ft' adv' Hne) as Hrun.
    cbv zeta in Hrun. rewrite Hrun.
    pose proof (kept_not_empty bdevice devices (home_device bdevice devices)
                  Htwo) as Hsome.
    destruct (first_smallest (delta_size bdevice) _) as [r|];
      [|contradiction].
    destruct (home_device bdevice devices); do 2 eexists; reflexivity.
  - reflexivity.
Qed.

End Properties.

(** ** The layouts on the example machines *)

(** The disks of 10, 45 and 60 GiB: /home goes to the largest, the root to
    the 10 GiB disk, whose delta of -10 GiB is the smallest. *)
Example three_disks_selection :
  home_device example_bdevice [0; 1; 2] = Some 2
  /\ sorted_delta example_bdevice [0; 1; 2] (Some 2) =
     [(0, disk.Size_ (-10 * 2 ^ 30) disk.B);
      (1, disk.Size_ (25 * 2 ^ 30) disk.B)].
Proof. split; reflexivity. Qed.

(** The same device object listed twice is one device: nothing is left for
    the root. *)
Example same_device_twice :
  run (suggest_multi_disk_layout true first_entry example_bdevice [2; 2]
         (Some disk.Ext4) false)
  = (Raise IndexError, mkWorld [] []).
Proof. reflexivity. Qed.

(** A list of one device below 40 GiB gets the advisory, not an error. *)
Example one_small_device :
  run (suggest_multi_disk_layout true first_entry example_bdevice [0]
         (Some disk.Ext4) false)
  = (Return [],
     mkWorld
       [MenuRun
          (CapacityAdvisory (disk.Size_ 40 disk.GiB) (disk.Size_ 20 disk.GiB))
          ["Continue"]]
       []).
Proof. reflexivity. Qed.

(** Btrfs with subvolumes on the 45 GiB disk, legacy BIOS. *)
Example btrfs_single_disk :
  let '(o, w) :=
    run (suggest_single_disk_layout false first_entry example_bdevice 1
           None false None) in
  o = Return (disk.mkDeviceModification 1 true [0; 1])
  /\ events w =
     [MenuRun SelectFilesystem ["btrfs"; "ext4"; "xfs"; "f2fs"];
      MenuRun UseSubvolumes ["yes"; "no"];
      MenuRun UseCompression ["yes"; "no"]]
  /\ map disk.mountpoint (store w) = [Some "/boot"; None]
  /\ map disk.mount_options (store w) = [[]; ["compress=zstd"]].
Proof. cbn. repeat split. Qed.

(** ** Instances of the properties *)

Lemma example_two_or_more : two_or_more [0; 1; 2].
Proof. exists 0, 1. cbn. repeat split; auto. Defined.

Lemma example_twins : two_or_more [0; 1].
Proof. exists 0, 1. cbn. repeat split; auto. Defined.

Lemma multi_disk_selects_home_and_root_witness :
  two_or_more [0; 1]
  /\ home_device twin_bdevice [0; 1] = Some 0
  /\ exists w,
       run (suggest_multi_disk_layout true first_entry twin_bdevice
              [0; 1] None false)
       = (Return
            [disk.mkDeviceModification 1 true [0; 1];
             disk.mkDeviceModification 0 true [2]],
          w).
Proof.
  split; [exact example_twins|]. split; [reflexivity|].
  destruct (multi_disk_selects_home_and_root true first_entry twin_bdevice
              [0; 1] None false example_twins)
    as (_ & r & l1 & l2 & Hkept & _ & Hhome & _ & _ & _ & w & Hw).
  assert (E : List.filter
                (fun d =>
                   match home_device twin_bdevice [0; 1] with
                   | Some h => negb (Nat.eqb d h)
                   | None => true
                   end)
                [0; 1]
              = [1]) by reflexivity.
  rewrite E in Hkept.
  destruct l1 as [|x [|y l1]]; try discriminate Hkept.
  injection Hkept as Hr _. subst r.
  exists w. exact Hw.
Defined.

Lemma separate_home_partition_witness :
  disk.ge (total_size_of example_bdevice 1) (disk.Size_ 40 disk.GiB) = true
  /\ exists dm w boot root home,
       run (suggest_single_disk_layout true second_entry example_bdevice 1
              (Some disk.Ext4) false (Some true))
       = (Return dm, w)
       /\ planned w dm = [boot; root; home]
       /\ disk.start home = disk.length root
       /\ disk.length home
          = disk.Size_percent 100 (total_size_of example_bdevice 1)
       /\ disk.mountpoint home = Some "/home".
Proof.
  split; [reflexivity|].
  destruct (separate_home_partition true second_entry example_bdevice 1
              (Some disk.Ext4) false (Some true) eq_refl eq_refl eq_refl)
    as (dm & w & boot & root & home & H1 & H2 & _ & H3 & _ & H4 & H5).
  exists dm, w, boot, root, home. repeat split; assumption.
Defined.

Lemma small_device_has_no_home_witness :
  disk.lt (total_size_of example_bdevice 0) (disk.Size_ 40 disk.GiB) = true
  /\ exists dm w boot root,
       run (suggest_single_disk_layout true second_entry example_bdevice 0
              (Some disk.Ext4) false (Some true))
       = (Return dm, w)
       /\ planned w dm = [boot; root]
       /\ disk.length root
          = disk.Size_percent 100 (total_size_of example_bdevice 0)
       /\ forall options, ~ In (MenuRun SeparateHome options) (events w).
Proof.
  split; [reflexivity|].
  destruct (small_device_has_no_home true second_entry example_bdevice 0
              (Some disk.Ext4) false (Some true) eq_refl)
    as (dm & w & boot & root & H1 & H2 & _ & _ & H3 & H4).
  exists dm, w, boot, root. repeat split; assumption.
Defined.

(** The outcome of the run a hypothesis is about, evaluated. *)
Ltac evaluated_run H Hres :=
  match type of H with
  | forall mods w, ?R = _ -> _ =>
      let v := eval vm_compute in R in
      assert (Hres : R = v) by (vm_compute; reflexivity)
  end.

Lemma root_partition_start_and_length_witness :
  exists rm hm boot root w,
    run (suggest_multi_disk_layout false first_entry example_bdevice
           [0; 1; 2] None false)
    = (Return [rm; hm], w)
    /\ planned w rm = [boot; root]
    /\ disk.start root = disk.Size_ 206 disk.MiB.
Proof.
  destruct (root_partition_start_and_length false first_entry example_bdevice
              1 [0; 1; 2] None false None) as [_ Hmulti].
  evaluated_run Hmulti Hres.
  destruct (Hmulti _ _ Hres)
    as [Hnil|(rm & hm & boot & root & Heq & Hp & _ & _ & Hs)];
    [discriminate|].
  injection Heq as <- <-.
  do 5 eexists. split; [exact Hres|]. split; [exact Hp|exact Hs].
Defined.

Lemma boot_partition_policy_witness :
  exists rm hm boot root w,
    run (suggest_multi_disk_layout true first_entry example_bdevice
           [0; 1; 2] None false)
    = (Return [rm; hm], w)
    /\ planned w rm = [boot; root]
    /\ disk.start boot = disk.Size_ 1 disk.MiB
    /\ disk.length boot = disk.Size_ 512 disk.MiB.
Proof.
  destruct (boot_partition_policy true first_entry example_bdevice
              1 [0; 1; 2] None false None) as (_ & _ & Hmulti).
  evaluated_run Hmulti Hres.
  destruct (Hmulti _ _ Hres)
    as [Hnil|(rm & hm & root & home & Heq & Hp & _)];
    [discriminate|].
  injection Heq as <- <-.
  do 5 eexists. split; [exact Hres|]. split; [exact Hp|].
  split; reflexivity.
Defined.

Lemma subvolumes_on_root_witness :
  using_subvolumes first_entry (filesystem_of first_entry None false) = true
  /\ exists dm w boot root,
       run (suggest_single_disk_layout false first_entry example_bdevice 1
              None false None)
       = (Return dm, w)
       /\ planned w dm = [boot; root]
       /\ disk.mountpoint root = None
       /\ length (disk.btrfs_subvols root) = 5.
Proof.
  split; [reflexivity|].
  destruct (subvolumes_on_root false first_entry example_bdevice 1
              None false None eq_refl)
    as (dm & w & boot & root & H1 & H2 & _ & _ & _ & H3 & H4).
  exists dm, w, boot, root. repeat split; try assumption.
  now rewrite H4.
Defined.

Lemma no_suggestion_below_40_GiB_witness :
  2 <= length [0; 3]
  /\ Forall
       (fun d =>
          disk.lt (total_size_of example_bdevice d) (disk.Size_ 40 disk.GiB)
          = true)
       [0; 3]
  /\ exists w,
       run (suggest_multi_disk_layout true first_entry example_bdevice
              [0; 3] (Some disk.Ext4) false)
       = (Return [], w)
       /\ List.filter is_capacity_advisory (events w) =
          [MenuRun
             (CapacityAdvisory (disk.Size_ 40 disk.GiB)
                (disk.Size_ 20 disk.GiB))
             ["Continue"]].
Proof.
  assert (Hlen : 2 <= length [0; 3]) by (cbn; lia).
  assert (Hsmall :
            Forall
              (fun d =>
                 disk.lt (total_size_of example_bdevice d)
                   (disk.Size_ 40 disk.GiB) = true)
              [0; 3]) by (repeat constructor).
  split; [exact Hlen|]. split; [exact Hsmall|].
  exact (no_suggestion_below_40_GiB true first_entry example_bdevice
           [0; 3] (Some disk.Ext4) false Hlen Hsmall).
Defined.

Lemma every_modification_wipes_witness :
  exists rm hm w,
    run (suggest_multi_disk_layout true first_entry example_bdevice
           [0; 1; 2] None false)
    = (Return [rm; hm], w)
    /\ disk.wipe rm = true /\ disk.wipe hm = true.
Proof.
  destruct (every_modification_wipes true first_entry example_bdevice
              1 [0; 1; 2] None false None) as [_ Hmulti].
  evaluated_run Hmulti Hres.
  destruct (Hmulti _ _ Hres)
    as [Hnil|(rm & hm & Heq & Hr & Hh)];
    [discriminate|].
  injection Heq as <- <-.
  do 3 eexists. split; [exact Hres|]. split; [exact Hr|exact Hh].
Defined.

Lemma mount_options_follow_compression_witness :
  compression first_entry (filesystem_of first_entry None false) = true
  /\ filesystem_of first_entry None false = disk.Btrfs
  /\ exists rm hm boot root home w,
       run (suggest_multi_disk_layout true first_entry example_bdevice
              [0; 1; 2] None false)
       = (Return [rm; hm], w)
       /\ planned w rm = [boot; root]
       /\ planned w hm = [home]
       /\ disk.mount_options boot = []
       /\ disk.mount_options root = ["compress=zstd"]
       /\ disk.mount_options home = ["compress=zstd"].
Proof.
  destruct (mount_options_follow_compression true first_entry example_bdevice
              1 [0; 1; 2] None false None) as (Hfs & _ & _ & Hmulti).
  split; [reflexivity|]. split; [exact (Hfs eq_refl)|].
  evaluated_run Hmulti Hres.
  destruct (Hmulti _ _ Hres)
    as [Hnil|(rm & hm & boot & root & home & Heq & Hr & Hh & Hb & Ho & Ho')];
    [discriminate|].
  injection Heq as <- <-.
  do 6 eexists. split; [exact Hres|].
  split; [exact Hr|]. split; [exact Hh|]. split; [exact Hb|].
  split; [exact Ho|exact Ho'].
Defined.

Lemma single_device_list_raises_witness :
  disk.ge (total_size_of example_bdevice 1) (disk.Size_ 40 disk.GiB) = true
  /\ run (suggest_multi_disk_layout true first_entry example_bdevice [1]
            (Some disk.Ext4) false)
     = (Raise IndexError, mkWorld [] []).
Proof.
  split; [reflexivity|].
  destruct (single_device_list_raises true first_entry example_bdevice 1
              (Some disk.Ext4) false eq_refl) as (_ & _ & Hraise & _).
  exact Hraise.
Defined.

(** ** Further properties of the planners *)

Section PlannerProperties.

Variable has_uefi : bool.
Variable cursor : Prompt -> nat.
Variable bdevice : dref -> disk.BDevice.

Lemma NoDup_two_or_more (a b : dref) (l : list dref) :
  List.NoDup (a :: b :: l) -> two_or_more (a :: b :: l).
Proof.
  intros H. exists a, b. repeat split; [now left | right; now left |].
  intros ->. apply List.NoDup_cons_iff in H. destruct H as [H _].
  apply H. now left.
Qed.

Lemma possible_devices_nil_iff devices :
  possible_devices bdevice devices = []
  <-> Forall
        (fun d =>
           disk.lt (total_size_of bdevice d) (disk.Size_ 40 disk.GiB) = true)
        devices.
Proof.
  split; [|apply no_possible_devices].
  unfold possible_devices. induction devices as [|d l IH]; [constructor|].
  cbn [List.filter].
  destruct (disk.ge (total_size_of bdevice d) (disk.Size_ 40 disk.GiB))
    eqn:Hge; [discriminate|].
  intros H. constructor; [|now apply IH].
  now rewrite lt_not_ge, Hge.
Qed.

Lemma home_device_None_iff devices :
  home_device bdevice devices = None
  <-> possible_devices bdevice devices = [].
Proof.
  unfold home_device.
  destruct (possible_devices bdevice devices); split; congruence.
Qed.

(** What the multi-disk planner does on a list that leaves a device for the
    root. *)
Lemma multi_run_two_or_more devices :
  two_or_more devices ->
  exists r,
    first_smallest (delta_size bdevice)
      (List.filter (fun d => is_not d (home_device bdevice devices)) devices)
    = Some r
    /\ devices <> [].
Proof.
  intros Htwo.
  pose proof (kept_not_empty bdevice devices (home_device bdevice devices)
                Htwo) as Hsome.
  destruct (first_smallest (delta_size bdevice) _) as [r|]; [|contradiction].
  exists r. split; [reflexivity|].
  destruct Htwo as (d1 & _ & Hin & _). now destruct devices.
Qed.

(** X1: on two or more devices the multi-disk planner returns, and it
    returns no modification exactly when every device is below 40 GiB;
    the capacity advisory is run once in that case and never otherwise.
    The size of the root device is not checked. *)
Theorem multi_disk_feasible_iff devices ft adv :
  two_or_more devices ->
  exists mods w,
    run (suggest_multi_disk_layout has_uefi cursor bdevice devices ft adv)
    = (Return mods, w)
    /\ (mods = []
        <-> Forall
              (fun d =>
                 disk.lt (total_size_of bdevice d) (disk.Size_ 40 disk.GiB)
                 = true)
              devices)
    /\ length (List.filter is_capacity_advisory (events w))
       = match mods with [] => 1 | _ => 0 end.
Proof.
  intros Htwo.
  destruct (multi_run_two_or_more devices Htwo) as (r & Hr & Hne).
  pose proof (suggest_multi_disk_layout_run has_uefi cursor bdevice
                devices ft adv Hne) as Hrun.
  cbv zeta in Hrun. rewrite Hr in Hrun.
  pose proof (home_device_None_iff devices) as Hnone.
  pose proof (possible_devices_nil_iff devices) as Hsmall.
  destruct (home_device bdevice devices) as [h|] eqn:Hh;
    do 2 eexists; (split; [exact Hrun|]); cbn [events];
    rewrite !List.filter_app, no_advisory_in_filesystem_events.
  - split; [|now destruct (is_btrfs _)].
    split; [discriminate|]. intros H. apply Hsmall, Hnone in H.
    discriminate.
  - split; [|reflexivity].
    split; [|reflexivity]. intros _. now apply Hsmall, Hnone.
Qed.

Lemma possible_devices_existsb devices :
  match possible_devices bdevice devices with
  | [] => 0
  | _ :: _ => 2
  end
  = if existsb
         (fun d =>
            disk.ge (total_size_of bdevice d) (disk.Size_ 40 disk.GiB))
         devices
    then 2 else 0.
Proof.
  unfold possible_devices.
  induction devices as [|d l IH]; [reflexivity|]. cbn [List.filter existsb].
  destruct (disk.ge (total_size_of bdevice d) (disk.Size_ 40 disk.GiB));
    [reflexivity|exact IH].
Qed.

(** X2: on a list of distinct devices [get_default_partition_layout]
    returns: one modification for one device (the single-disk layout, with
    the separate-home question left to the user), and for any other number
    of devices two modifications when some device has at least 40 GiB and
    none otherwise. *)
Theorem default_layout_returns devices ft adv :
  List.NoDup devices ->
  exists mods w,
    run (get_default_partition_layout has_uefi cursor bdevice devices ft adv)
    = (Return mods, w)
    /\ length mods
       = match devices with
         | [_] => 1
         | _ =>
             if existsb
                  (fun d =>
                     disk.ge (total_size_of bdevice d)
                       (disk.Size_ 40 disk.GiB))
                  devices
             then 2 else 0
         end
    /\ match devices with
       | [d] =>
           exists dm,
             mods = [dm]
             /\ run (suggest_single_disk_layout has_uefi cursor bdevice
                       d ft adv None)
                = (Return dm, w)
       | _ => True
       end.
Proof.
  intros Hnd. destruct devices as [|a [|b l]].
  - do 2 eexists. split; [reflexivity|]. now split.
  - unfold get_default_partition_layout, run, bind.
    pose proof (suggest_single_disk_layout_run has_uefi cursor bdevice
                  a ft adv None) as Hrun.
    cbv zeta in Hrun. unfold run in Hrun. rewrite Hrun.
    do 2 eexists. split; [reflexivity|]. split; [reflexivity|].
    eexists. split; reflexivity.
  - change (run (get_default_partition_layout has_uefi cursor bdevice
                   (a :: b :: l) ft adv))
      with (run (suggest_multi_disk_layout has_uefi cursor bdevice
                   (a :: b :: l) ft adv)).
    destruct (multi_run_two_or_more _ (NoDup_two_or_more a b l Hnd))
      as (r & Hr & Hne).
    pose proof (suggest_multi_disk_layout_run has_uefi cursor bdevice
                  (a :: b :: l) ft adv Hne) as Hrun.
    cbv zeta in Hrun. rewrite Hr in Hrun. rewrite Hrun.
    rewrite <- possible_devices_existsb.
    unfold home_device.
    destruct (possible_devices bdevice (a :: b :: l));
      do 2 eexists; (split; [reflexivity|]); now split.
Qed.

(** X3: the two modifications of a multi-disk layout are for two different
    devices of the list, and the home device has at least 40 GiB. *)
Theorem multi_disk_devices_differ devices ft adv mods w :
  run (suggest_multi_disk_layout has_uefi cursor bdevice devices ft adv)
  = (Return mods, w) ->
  mods = []
  \/ exists rm hm,
       mods = [rm; hm]
       /\ disk.device rm <> disk.device hm
       /\ In (disk.device rm) devices
       /\ In (disk.device hm) devices
       /\ disk.ge (total_size_of bdevice (disk.device hm))
            (disk.Size_ 40 disk.GiB) = true.
Proof.
  intros Hrun.
  destruct (multi_returns _ _ _ _ _ _ _ _ Hrun)
    as [->|(r & h & Hh & Hr & Hne & ->)]; [now left|right].
  do 2 eexists. split; [reflexivity|]. cbn [disk.device].
  apply first_smallest_In, List.filter_In in Hr. destruct Hr as [Hrin Hnot].
  pose proof (home_device_spec bdevice devices) as Hspec.
  rewrite Hh in Hspec. destruct Hspec as (l1 & l2 & Heq & _).
  assert (Hin : In h (possible_devices bdevice devices)).
  { rewrite Heq. apply in_or_app. right. now left. }
  apply List.filter_In in Hin. destruct Hin as [Hhin Hge].
  repeat split; try assumption.
  intros ->. cbn in Hnot. now rewrite Nat.eqb_refl in Hnot.
Qed.

(** X4: the multi-disk planner never creates subvolumes and never asks for
    them or for a separate home: however it ends, no partition object it
    created has subvolumes and neither menu is among its events. *)
Theorem multi_disk_never_uses_subvolumes devices ft adv o w :
  run (suggest_multi_disk_layout has_uefi cursor bdevice devices ft adv)
  = (o, w) ->
  Forall (fun p => disk.btrfs_subvols p = []) (store w)
  /\ forall entries,
       ~ In (MenuRun UseSubvolumes entries) (events w)
       /\ ~ In (MenuRun SeparateHome entries) (events w).
Proof.
  destruct devices as [|d0 l].
  - cbn. intros [= <- <-]. split; [constructor|]. intros entries. now split.
  - assert (Hne : d0 :: l <> []) by discriminate.
    pose proof (suggest_multi_disk_layout_run has_uefi cursor bdevice
                  (d0 :: l) ft adv Hne) as Hrun.
    cbv zeta in Hrun. rewrite Hrun. clear Hrun.
    assert (Hfs : forall p entries,
               p <> SelectFilesystem ->
               ~ In (MenuRun p entries) (filesystem_events ft adv)).
    { intros p entries Hp Hin.
      now apply filesystem_events_only_select in Hin. }
    destruct (first_smallest _ _) as [r|];
      [destruct (home_device bdevice (d0 :: l)) as [h|]|];
      intros [= <- <-]; cbn [events store];
      (split; [repeat constructor|]); intros entries;
      rewrite ?in_app_iff; split; intros Hin;
      repeat match goal with
        | H : _ \/ _ |- _ => destruct H as [H|H]
        | H : In _ (filesystem_events _ _) |- _ =>
            apply Hfs in H; [contradiction|discriminate]
        | H : In _ (if ?b then _ else _) |- _ => destruct b; cbn in H
        | H : In _ (_ :: _) |- _ => cbn in H
        | H : In _ [] |- _ => contradiction
        | H : False |- _ => contradiction
        | H : MenuRun _ _ = MenuRun _ _ |- _ => discriminate H
        | H : Log _ = MenuRun _ _ |- _ => discriminate H
        end.
Qed.

(** X5: in both planners the root partition starts exactly where the boot
    partition ends: boot start plus boot length is the root start, in
    bytes, under UEFI (1 + 512 = 513 MiB) and under BIOS (3 + 203 = 206
    MiB). *)
Theorem root_starts_where_boot_ends device devices ft adv sh :
  (exists dm w boot root rest,
     run (suggest_single_disk_layout has_uefi cursor bdevice
            device ft adv sh) = (Return dm, w)
     /\ planned w dm = boot :: root :: rest
     /\ (disk.normalize (disk.start boot) + disk.normalize (disk.length boot)
         = disk.normalize (disk.start root))%Z)
  /\ (forall mods w,
        run (suggest_multi_disk_layout has_uefi cursor bdevice
               devices ft adv) = (Return mods, w) ->
        mods = []
        \/ exists rm hm boot root,
             mods = [rm; hm]
             /\ planned w rm = [boot; root]
             /\ (disk.normalize (disk.start boot)
                 + disk.normalize (disk.length boot)
                 = disk.normalize (disk.start root))%Z).
Proof.
  split.
  - rewrite suggest_single_disk_layout_run. cbv zeta.
    destruct (using_home_partition _ _ _ _ _), has_uefi;
      do 5 eexists; (split; [reflexivity|]);
      cbn [planned disk.partitions omap list_omap app];
      (split; [reflexivity|]); reflexivity.
  - intros mods w Hrun.
    destruct (multi_returns _ _ _ _ _ _ _ _ Hrun)
      as [->|(r & h & Hh & Hr & Hne & ->)]; [now left|right].
    pose proof (suggest_multi_disk_layout_run has_uefi cursor bdevice
                  devices ft adv Hne) as Heq.
    cbv zeta in Heq. rewrite Hh, Hr in Heq. rewrite Heq in Hrun.
    injection Hrun as <-.
    destruct has_uefi; do 4 eexists; (split; [reflexivity|]);
      (split; [reflexivity|]); reflexivity.
Qed.

Lemma min_with_20_GiB (t : disk.Size) :
  disk.ge t (disk.Size_ 40 disk.GiB) = true ->
  py.min t (disk.Size_ 20 disk.GiB) = disk.Size_ 20 disk.GiB.
Proof.
  unfold disk.ge, py.min, disk.lt. intros H.
  apply Z.geb_le in H. cbn in H.
  destruct (Z.ltb_spec (disk.normalize (disk.Size_ 20 disk.GiB))
              (disk.normalize t)) as [_|Hle]; [reflexivity|].
  cbn in Hle. lia.
Qed.

(** X6: when the single-disk planner adds a home partition, the root
    partition has exactly 20 GiB and the home partition starts at byte
    offset 20 GiB, which lies inside the root partition's extent (the root
    starts at 513 or 206 MiB); the home partition's start plus its length
    exceeds the size of the device. *)
Theorem home_partition_starts_inside_root device ft adv sh :
  let fs := filesystem_of cursor ft adv in
  let total := disk.normalize (total_size_of bdevice device) in
  using_home_partition cursor bdevice fs device sh = true ->
  exists dm w boot root home,
    run (suggest_single_disk_layout has_uefi cursor bdevice device ft adv sh)
    = (Return dm, w)
    /\ planned w dm = [boot; root; home]
    /\ disk.length root = disk.Size_ 20 disk.GiB
    /\ disk.start home = disk.Size_ 20 disk.GiB
    /\ (disk.normalize (disk.start root) < disk.normalize (disk.start home)
        < disk.normalize (disk.start root)
          + disk.normalize (disk.length root))%Z
    /\ (total
        < disk.normalize (disk.start home)
          + disk.normalize (disk.length home))%Z.
Proof.
  cbv zeta. intros Hhome.
  rewrite suggest_single_disk_layout_run. cbv zeta. rewrite Hhome.
  unfold using_home_partition in Hhome.
  apply Bool.andb_true_iff in Hhome. destruct Hhome as [Hhome _].
  apply Bool.andb_true_iff in Hhome. destruct Hhome as [_ Hge].
  rewrite (min_with_20_GiB _ Hge).
  do 5 eexists. split; [reflexivity|].
  cbn [planned disk.partitions omap list_omap app].
  split; [reflexivity|].
  cbn [disk.start disk.length]. split; [reflexivity|].
  split; [reflexivity|]. rewrite normalize_percent_100.
  destruct has_uefi; cbn; lia.
Qed.

(** X7: the single-disk layout has three partitions, the third mounted on
    /home, exactly when no subvolumes are used, the device has at least
    40 GiB and a separate home was chosen; otherwise it has two and none is
    mounted on /home.  With subvolumes a [separate_home] preference is
    ignored. *)
Theorem home_partition_iff device ft adv sh :
  let fs := filesystem_of cursor ft adv in
  let chosen :=
    match sh with Some b => b | None => answer cursor SeparateHome end in
  let home :=
    negb (using_subvolumes cursor fs)
    && disk.ge (total_size_of bdevice device) (disk.Size_ 40 disk.GiB)
    && chosen in
  exists dm w,
    run (suggest_single_disk_layout has_uefi cursor bdevice device ft adv sh)
    = (Return dm, w)
    /\ map disk.mountpoint (planned w dm)
       = if home
         then [Some "/boot"; Some "/"; Some "/home"]
         else [Some "/boot";
               if using_subvolumes cursor fs then None else Some "/"].
Proof.
  cbv zeta. rewrite suggest_single_disk_layout_run. cbv zeta.
  unfold using_home_partition.
  destruct (using_subvolumes cursor (filesystem_of cursor ft adv)),
    (disk.ge (total_size_of bdevice device) (disk.Size_ 40 disk.GiB)),
    sh as [[]|], (answer cursor SeparateHome);
    do 2 eexists; (split; [reflexivity|]); reflexivity.
Qed.

(** X8: the single-disk planner asks nothing when it is given a
    filesystem type other than Btrfs and either a [separate_home]
    preference or a device below 40 GiB: no menu is run. *)
Theorem single_disk_asks_nothing device fs adv sh :
  fs <> disk.Btrfs ->
  sh <> None
  \/ disk.lt (total_size_of bdevice device) (disk.Size_ 40 disk.GiB) = true ->
  exists dm w,
    run (suggest_single_disk_layout has_uefi cursor bdevice
           device (Some fs) adv sh)
    = (Return dm, w)
    /\ events w = [].
Proof.
  intros Hfs Hsh.
  rewrite suggest_single_disk_layout_run. cbv zeta.
  do 2 eexists. split; [reflexivity|]. cbn [events].
  unfold single_disk_events, using_subvolumes. cbn [filesystem_of].
  assert (Hb : is_btrfs fs = false).
  { destruct (is_btrfs fs) eqn:E; [|reflexivity].
    now apply is_btrfs_iff in E. }
  rewrite Hb. cbn.
  destruct Hsh as [Hsh|Hlt].
  - destruct sh; [|contradiction]. now destruct (disk.ge _ _).
  - rewrite lt_not_ge in Hlt. apply Bool.negb_true_iff in Hlt.
    now rewrite Hlt.
Qed.

(** X9: the filesystem menu always yields a filesystem type: no lookup of
    the selected entry fails; the type is never FAT32, and it is NTFS only
    when advanced options are on.  One menu is run, with four entries, or
    five with advanced options. *)
Theorem filesystem_menu_choice (advanced_options : bool) (w : World) :
  exists fs entries,
    ask_for_main_filesystem_format cursor advanced_options w
    = (Return fs,
       mkWorld (events w ++ [MenuRun SelectFilesystem entries]) (store w))
    /\ In fs [disk.Btrfs; disk.Ext4; disk.Xfs; disk.F2fs; disk.Ntfs]
    /\ (fs = disk.Ntfs -> advanced_options = true)
    /\ length entries = (if advanced_options then 5 else 4).
Proof.
  rewrite ask_for_main_filesystem_format_run.
  do 2 eexists. split; [reflexivity|].
  unfold filesystem_of, filesystem_options.
  destruct advanced_options;
    destruct (cursor SelectFilesystem) as [|[|[|[|[|n]]]]]; cbn;
    repeat split; try discriminate; tauto.
Qed.

End PlannerProperties.

(** ** [find_nth] *)

Section FindNth.

Variable needle : string.

Local Abbreviation count l := (count_occ string_dec l needle).

(** The positions of the needle, counted from [i]. *)
Lemma indices_cons (i : nat) (e : string) (l : list string) :
  map fst
    (List.filter (fun '(idx, elem) => String.eqb elem needle)
       (combine (seq i (S (length l))) (e :: l)))
  = (if String.eqb e needle then [i] else [])
    ++ map fst
         (List.filter (fun '(idx, elem) => String.eqb elem needle)
            (combine (seq (S i) (length l)) l)).
Proof. cbn. now destruct (String.eqb e needle). Qed.

Lemma count_cons (e : string) (l : list string) :
  count (e :: l) = (if String.eqb e needle then 1 else 0) + count l.
Proof.
  cbn. destruct (string_dec e needle) as [->|Hne].
  - now rewrite String.eqb_refl.
  - apply String.eqb_neq in Hne. now rewrite Hne.
Qed.

(** The [k]-th index found is a position of the needle with [k]
    occurrences before it. *)
Lemma indices_spec (l : list string) (i k idx : nat) :
  nth_error
    (map fst
       (List.filter (fun '(idx, elem) => String.eqb elem needle)
          (combine (seq i (length l)) l))) k = Some idx ->
  i <= idx
  /\ nth_error l (idx - i) = Some needle
  /\ count (firstn (idx - i) l) = k.
Proof.
  revert i k. induction l as [|e l IH]; intros i k.
  - cbn. now destruct k.
  - cbn [length]. rewrite indices_cons.
    destruct (String.eqb e needle) eqn:He; cbn [app].
    + apply String.eqb_eq in He. subst e. destruct k as [|k]; cbn [nth_error].
      * intros [= <-]. rewrite Nat.sub_diag. cbn. now repeat split.
      * intros H. apply IH in H. destruct H as (Hle & Hnth & Hcount).
        replace (idx - i) with (S (idx - S i)) by lia.
        cbn [nth_error firstn]. rewrite count_cons, String.eqb_refl.
        repeat split; [lia | exact Hnth | now rewrite Hcount].
    + intros H. apply IH in H. destruct H as (Hle & Hnth & Hcount).
      replace (idx - i) with (S (idx - S i)) by lia.
      cbn [nth_error firstn]. rewrite count_cons, He.
      repeat split; [lia | exact Hnth | exact Hcount].
Qed.

Lemma indices_length (l : list string) (i : nat) :
  length
    (map fst
       (List.filter (fun '(idx, elem) => String.eqb elem needle)
          (combine (seq i (length l)) l)))
  = count l.
Proof.
  revert i. induction l as [|e l IH]; intros i; [reflexivity|].
  cbn [length]. rewrite indices_cons, length_app, IH, count_cons.
  now destruct (String.eqb e needle).
Qed.

Local Abbreviation indices haystack :=
  (map fst
     (List.filter (fun '(idx, elem) => String.eqb elem needle)
        (plugins.enumerate haystack))).

Lemma getitem_in_range (haystack : list string) (k : Z) :
  (0 <= k < Z.of_nat (count haystack))%Z ->
  exists idx,
    plugins.getitem (indices haystack) k = Some idx
    /\ nth_error (indices haystack) (Z.to_nat k) = Some idx.
Proof.
  intros Hk. unfold plugins.getitem, plugins.enumerate.
  rewrite indices_length.
  destruct (Z.leb_spec 0 k), (Z.ltb_spec k (Z.of_nat (count haystack)));
    try lia. cbn [andb].
  destruct (nth_error _ (Z.to_nat k)) as [idx|] eqn:Hnth.
  - now exists idx.
  - apply nth_error_None in Hnth. rewrite indices_length in Hnth. lia.
Qed.

Lemma find_nth_in_range (haystack : list string) (n : Z) :
  (1 <= n <= Z.of_nat (count haystack))%Z ->
  exists idx,
    plugins.find_nth haystack needle n = Return (Some idx)
    /\ nth_error haystack idx = Some needle
    /\ Z.of_nat (count (firstn idx haystack)) = (n - 1)%Z.
Proof.
  intros Hn. unfold plugins.find_nth.
  destruct (getitem_in_range haystack (n - 1)) as (idx & Hget & Hnth);
    [lia|].
  unfold plugins.enumerate in *. rewrite indices_length.
  destruct (Z.leb_spec n (Z.of_nat (count haystack))); [|lia].
  rewrite Hget. exists idx. split; [reflexivity|].
  apply indices_spec in Hnth. rewrite Nat.sub_0_r in Hnth.
  destruct Hnth as (_ & Hat & Hbefore). split; [exact Hat|]. lia.
Qed.

(** X10: for [1 <= n] up to the number of occurrences, [find_nth] returns
    the position of the [n]-th occurrence of the needle: the needle is at
    that position and occurs [n - 1] times before it. *)
Theorem find_nth_occurrence (haystack : list string) (n : Z) :
  (1 <= n <= Z.of_nat (count haystack))%Z ->
  exists idx,
    plugins.find_nth haystack needle n = Return (Some idx)
    /\ nth_error haystack idx = Some needle
    /\ Z.of_nat (count (firstn idx haystack)) = (n - 1)%Z.
Proof. exact (find_nth_in_range haystack n). Qed.

Lemma find_nth_out_of_range (haystack : list string) (n : Z) :
  (Z.of_nat (count haystack) < n)%Z ->
  plugins.find_nth haystack needle n = Return None.
Proof.
  intros Hn. unfold plugins.find_nth, plugins.enumerate.
  rewrite indices_length.
  destruct (Z.leb_spec n (Z.of_nat (count haystack))); [lia|reflexivity].
Qed.

(** X11: when the needle occurs fewer than [n] times, [find_nth] returns
    [None]. *)
Theorem find_nth_too_few (haystack : list string) (n : Z) :
  (Z.of_nat (count haystack) < n)%Z ->
  plugins.find_nth haystack needle n = Return None.
Proof. exact (find_nth_out_of_range haystack n). Qed.

(** X12: for [n <= 0] the index [n - 1] is negative and counts from the
    end: [find_nth] returns what it returns for [n] plus the number of
    occurrences (for [n = 0], the last occurrence), and raises [IndexError]
    when there are fewer than [1 - n] occurrences; for [n = 0], when there
    is none. *)
Theorem find_nth_not_positive (haystack : list string) (n : Z) :
  (n <= 0)%Z ->
  plugins.find_nth haystack needle n
  = if (1 - n <=? Z.of_nat (count haystack))%Z
    then plugins.find_nth haystack needle (Z.of_nat (count haystack) + n)
    else Raise IndexError.
Proof.
  intros Hn. unfold plugins.find_nth, plugins.getitem, plugins.enumerate.
  rewrite !indices_length.
  set (c := Z.of_nat (count haystack)).
  assert (Hc : (0 <= c)%Z) by (unfold c; lia).
  destruct (Z.leb_spec n c); [|lia].
  destruct (Z.leb_spec 0 (n - 1)); [lia|]. cbn [andb].
  destruct (Z.ltb_spec (n - 1) 0); [|lia].
  destruct (Z.leb_spec (1 - n) c) as [Hfits|Hshort].
  - destruct (Z.leb_spec (- c) (n - 1)); [|lia]. cbn [andb].
    destruct (Z.leb_spec (c + n) c); [|lia].
    destruct (Z.leb_spec 0 (c + n - 1)); [|lia].
    destruct (Z.ltb_spec (c + n - 1) c); [|lia]. cbn [andb].
    now replace (c + (n - 1))%Z with (c + n - 1)%Z by lia.
  - destruct (Z.leb_spec (- c) (n - 1)); [lia|reflexivity].
Qed.

End FindNth.

Lemma split_at_nth {A : Type} (l : list A) (i : nat) (x : A) :
  nth_error l i = Some x -> l = firstn i l ++ x :: skipn (S i) l.
Proof.
  revert i. induction l as [|e l IH]; intros i H; [now destruct i|].
  destruct i as [|i]; cbn in H |- *.
  - now injection H as ->.
  - f_equal. now apply IH.
Qed.

(** X13: the version text [load_plugin] cuts out is always defined: it is
    the part of the version before its second '.', which holds exactly one
    '.', and the whole version when it has fewer than two. *)
Theorem major_and_minor_version_spec (version : list string) :
  exists text,
    plugins.major_and_minor_version version = Return text
    /\ if Nat.leb 2 (count_occ string_dec version ".")
       then count_occ string_dec text "." = 1
            /\ exists rest, version = text ++ "." :: rest
       else text = version.
Proof.
  unfold plugins.major_and_minor_version.
  destruct (Nat.leb_spec 2 (count_occ string_dec version "."))
    as [Hge|Hlt].
  - destruct (find_nth_in_range "." version 2)
      as (idx & Hfind & Hat & Hbefore); [lia|].
    rewrite Hfind. eexists. split; [reflexivity|].
    cbn [plugins.slice_to]. split; [lia|].
    exists (skipn (S idx) version). now apply split_at_nth.
  - rewrite (find_nth_out_of_range "." version 2) by lia.
    now exists version.
Qed.

(** ** [networking.py]: hardware addresses and interface types *)

Section Strings.

Import Ascii.

Lemma string_length_app (a b : string) :
  String.length (a ++ b)%string = String.length a + String.length b.
Proof. induction a as [|c a IH]; cbn; [reflexivity|]. now rewrite IH. Qed.

Lemma replace_app (old new : Ascii.ascii) (a b : string) :
  networking.replace old new (a ++ b)%string
  = (networking.replace old new a ++ networking.replace old new b)%string.
Proof. induction a as [|c a IH]; cbn; [reflexivity|]. now rewrite IH. Qed.

Lemma lower_app (a b : string) :
  networking.lower (a ++ b)%string
  = (networking.lower a ++ networking.lower b)%string.
Proof. induction a as [|c a IH]; cbn; [reflexivity|]. now rewrite IH. Qed.

Lemma format_02x_length (b : Byte.byte) :
  String.length (networking.format_02x b) = 2.
Proof. reflexivity. Qed.

(** Two hexadecimal digits hold no ':' and no upper-case letter. *)
Lemma format_02x_key (b : Byte.byte) :
  networking.lower (networking.replace ":" "-" (networking.format_02x b))
  = networking.format_02x b.
Proof. destruct b; reflexivity. Qed.

Lemma join_cons (sep s : string) (l : list string) :
  l <> [] -> py.join sep (s :: l) = (s ++ sep ++ py.join sep l)%string.
Proof. destruct l; [contradiction|reflexivity]. Qed.

Lemma key_of_join (l : list Byte.byte) :
  networking.lower
    (networking.replace ":" "-"
       (py.join ":" (map networking.format_02x l)))
  = py.join "-" (map networking.format_02x l).
Proof.
  induction l as [|b l IH]; [reflexivity|].
  destruct l as [|b' l]; [apply format_02x_key|].
  cbn [map] in *. rewrite !join_cons by discriminate.
  rewrite !replace_app, !lower_app, IH, format_02x_key. reflexivity.
Qed.

Lemma join_length (sep : string) (l : list Byte.byte) :
  String.length sep = 1 ->
  String.length (py.join sep (map networking.format_02x l))
  = 3 * length l - 1.
Proof.
  intros Hsep. induction l as [|b l IH]; [reflexivity|].
  destruct l as [|b' l]; [reflexivity|].
  cbn [map] in *. rewrite join_cons by discriminate.
  rewrite !string_length_app, IH, Hsep, format_02x_length. cbn [length]. lia.
Qed.

End Strings.

Section StringDict.

Context {V : Type}.

Lemma dict_get_set_eq (d : list (string * V)) (k : string) (v : V) :
  py.dict_get (networking.dict_set d k v) k = Some v.
Proof.
  induction d as [|[k' v'] d IH]; cbn.
  - now rewrite String.eqb_refl.
  - destruct (String.eqb k' k) eqn:E; cbn; rewrite E; [reflexivity|exact IH].
Qed.

Lemma dict_get_set_ne (d : list (string * V)) (k k' : string) (v : V) :
  k <> k' ->
  py.dict_get (networking.dict_set d k v) k' = py.dict_get d k'.
Proof.
  intros Hne. induction d as [|[k0 v0] d IH]; cbn.
  - apply String.eqb_neq in Hne. now rewrite Hne.
  - destruct (String.eqb k0 k) eqn:E; cbn.
    + apply String.eqb_eq in E. subst k0.
      apply String.eqb_neq in Hne. now rewrite Hne.
    + now rewrite IH.
Qed.

Lemma dict_get_In (d : list (string * V)) (k : string) (v : V) :
  py.dict_get d k = Some v -> In (k, v) d.
Proof.
  induction d as [|[k' v'] d IH]; cbn; [discriminate|].
  destruct (String.eqb_spec k' k) as [->|Hne].
  - intros [= ->]. now left.
  - intros H. right. now apply IH.
Qed.

Lemma dict_In_get (d : list (string * V)) (k : string) (v : V) :
  List.NoDup (map fst d) -> In (k, v) d -> py.dict_get d k = Some v.
Proof.
  induction d as [|[k' v'] d IH]; cbn; [contradiction|].
  intros Hnd Hin. apply List.NoDup_cons_iff in Hnd. destruct Hnd as [Hk Hnd].
  destruct Hin as [[= -> ->]|Hin].
  - now rewrite String.eqb_refl.
  - destruct (String.eqb_spec k' k) as [->|Hne]; [|now apply IH].
    exfalso. apply Hk. apply in_map_iff. now exists (k, v).
Qed.

Lemma dict_get_None (d : list (string * V)) (k : string) :
  py.dict_get d k = None <-> ~ In k (map fst d).
Proof.
  induction d as [|[k' v'] d IH]; cbn; [tauto|].
  destruct (String.eqb_spec k' k) as [->|Hne].
  - split; [discriminate|]. intros H. exfalso. apply H. now left.
  - rewrite IH. tauto.
Qed.

Lemma dict_set_keys (d : list (string * V)) (k x : string) (v : V) :
  In x (map fst (networking.dict_set d k v)) -> x = k \/ In x (map fst d).
Proof.
  induction d as [|[k' v'] d IH]; cbn.
  - intros [<-|[]]. now left.
  - destruct (String.eqb k' k); cbn; [tauto|].
    intros [<-|H]; [tauto|]. apply IH in H. tauto.
Qed.

Lemma dict_set_NoDup (d : list (string * V)) (k : string) (v : V) :
  List.NoDup (map fst d) -> List.NoDup (map fst (networking.dict_set d k v)).
Proof.
  induction d as [|[k' v'] d IH]; cbn; intros Hnd.
  - repeat constructor. intros [].
  - destruct (String.eqb_spec k' k) as [->|Hne]; cbn; [exact Hnd|].
    apply List.NoDup_cons_iff in Hnd. destruct Hnd as [Hk Hnd].
    constructor; [|now apply IH].
    intros H. apply dict_set_keys in H. destruct H as [->|H]; contradiction.
Qed.

End StringDict.

Section HardwareAddress.

Import Ascii.

Variable ioctl : list Byte.byte -> networking.result (list Byte.byte).

Lemma pack_256s_length (data : list Byte.byte) :
  length (networking.pack_256s data) = 256.
Proof.
  unfold networking.pack_256s.
  rewrite length_app, length_firstn, repeat_length. lia.
Qed.

(** X14: the request of [get_hw_addr] always has 256 bytes, and when the
    kernel answers with at least 24 bytes the address is a string of 17
    characters: the bytes 18 to 23 of the answer as two lower-case
    hexadecimal digits each, joined by ':'.  The key [list_interfaces]
    makes of it holds the same six groups joined by '-'. *)
Theorem hw_addr_format (ifname : string) (info : list Byte.byte) :
  let request :=
    networking.pack_256s (firstn 15 (list_byte_of_string ifname)) in
  let groups := map networking.format_02x (firstn 6 (skipn 18 info)) in
  ioctl request = networking.Ok info ->
  24 <= length info ->
  length request = 256
  /\ length groups = 6
  /\ Forall (fun g => String.length g = 2) groups
  /\ networking.get_hw_addr ioctl ifname = networking.Ok (py.join ":" groups)
  /\ String.length (py.join ":" groups) = 17
  /\ networking.mac_of ioctl ifname = networking.Ok (py.join "-" groups).
Proof.
  cbv zeta. intros Hioctl Hlen.
  assert (Hsix : length (firstn 6 (skipn 18 info)) = 6).
  { rewrite length_firstn, length_skipn. lia. }
  split; [apply pack_256s_length|].
  split; [now rewrite length_map|].
  split.
  { apply List.Forall_forall. intros g Hg. apply in_map_iff in Hg.
    destruct Hg as (b & <- & _). apply format_02x_length. }
  unfold networking.mac_of, networking.get_hw_addr. rewrite Hioctl.
  change (24 - 18) with 6.
  split; [reflexivity|]. split.
  - rewrite join_length by reflexivity. rewrite Hsix. reflexivity.
  - now rewrite key_of_join.
Qed.

End HardwareAddress.

Section Interfaces.

Import Ascii.

Variable ioctl : list Byte.byte -> networking.result (list Byte.byte).
Variable if_nameindex : list (nat * string).
Variable skip_loopback : bool.

Local Abbreviation mac_of := (networking.mac_of ioctl).
Local Abbreviation kept := (networking.kept skip_loopback).
Local Abbreviation last_kept := (networking.last_kept ioctl skip_loopback).
Local Abbreviation loop :=
  (networking.list_interfaces_loop ioctl skip_loopback).

Lemma kept_iff (iface : string) :
  kept iface = true <-> (skip_loopback = true -> iface <> "lo").
Proof.
  unfold networking.kept. destruct skip_loopback; cbn.
  - destruct (String.eqb_spec iface "lo") as [->|Hne]; cbn.
    + split; [discriminate|]. intros H. now exfalso; apply H.
    + tauto.
  - split; [discriminate|reflexivity].
Qed.

(** The loop leaves under a key the last kept interface with that key, or
    what was there before when no interface has it. *)
Lemma loop_get names acc d mac :
  loop names acc = networking.Ok d ->
  py.dict_get d mac
  = match last_kept mac names with
    | Some iface => Some iface
    | None => py.dict_get acc mac
    end.
Proof.
  revert acc. induction names as [|[index iface] names IH]; intros acc.
  - cbn. now intros [= ->].
  - cbn [networking.list_interfaces_loop networking.last_kept].
    unfold networking.mac_of, networking.kept.
    destruct (skip_loopback && String.eqb iface "lo") eqn:Hskip.
    + intros H. rewrite (IH _ H).
      destruct (last_kept mac names); [reflexivity|].
      now destruct (networking.get_hw_addr ioctl iface).
    + destruct (networking.get_hw_addr ioctl iface) as [addr|e];
        [|discriminate].
      intros H. rewrite (IH _ H).
      destruct (last_kept mac names); [reflexivity|]. cbn [negb andb].
      destruct (String.eqb_spec
                  (networking.lower (networking.replace ":" "-" addr)) mac)
        as [->|Hne].
      * apply dict_get_set_eq.
      * now apply dict_get_set_ne.
Qed.

Lemma loop_NoDup names acc d :
  List.NoDup (map fst acc) ->
  loop names acc = networking.Ok d ->
  List.NoDup (map fst d).
Proof.
  revert acc. induction names as [|[index iface] names IH]; intros acc Hnd.
  - cbn. now intros [= <-].
  - cbn [networking.list_interfaces_loop].
    destruct (skip_loopback && String.eqb iface "lo"); [now apply IH|].
    destruct (networking.get_hw_addr ioctl iface) as [addr|e];
      [|discriminate].
    apply IH. now apply dict_set_NoDup.
Qed.

Lemma last_kept_None mac names :
  last_kept mac names = None ->
  forall j other,
    In (j, other) names -> kept other = true -> mac_of other <> networking.Ok mac.
Proof.
  induction names as [|[index iface] names IH]; [intros _ j other []|].
  cbn [networking.last_kept].
  destruct (last_kept mac names); [discriminate|].
  intros H j other [[= <- <-]|Hin] Hkept Hmac.
  - rewrite Hmac, Hkept, String.eqb_refl in H. discriminate.
  - exact (IH eq_refl j other Hin Hkept Hmac).
Qed.

Lemma last_kept_Some mac names iface :
  last_kept mac names = Some iface
  <-> exists l1 index l2,
        names = l1 ++ (index, iface) :: l2
        /\ kept iface = true
        /\ mac_of iface = networking.Ok mac
        /\ forall j other,
             In (j, other) l2 -> kept other = true ->
             mac_of other <> networking.Ok mac.
Proof.
  revert iface. induction names as [|[index i] names IH]; intros iface.
  - cbn. split; [discriminate|]. intros (l1 & idx & l2 & H & _).
    now destruct l1.
  - cbn [networking.last_kept]. split.
    + destruct (last_kept mac names) as [x|] eqn:Hlast.
      * intros [= ->].
        destruct (proj1 (IH iface) eq_refl) as (l1 & idx & l2 & -> & H).
        now exists ((index, i) :: l1), idx, l2.
      * destruct (mac_of i) as [m|e] eqn:Hm; [|discriminate].
        destruct (kept i) eqn:Hk; [|discriminate]. cbn [andb].
        destruct (String.eqb_spec m mac) as [->|Hne]; [|discriminate].
        intros [= <-]. exists [], index, names.
        repeat split; try assumption.
        now apply last_kept_None.
    + intros (l1 & idx & l2 & Heq & Hk & Hm & Hlast).
      destruct l1 as [|e l1]; cbn in Heq;
        [injection Heq as -> -> -> | injection Heq as <- ->].
      * destruct (last_kept mac l2) as [x|] eqn:Hx.
        -- destruct (proj1 (IH x) eq_refl)
             as (k1 & j & k2 & -> & Hkx & Hmx & _).
           exfalso. apply (Hlast j x); [|assumption..].
           apply in_or_app. right. now left.
        -- now rewrite Hm, Hk, String.eqb_refl.
      * assert (H : last_kept mac (l1 ++ (idx, iface) :: l2) = Some iface).
        { apply IH. now exists l1, idx, l2. }
        now rewrite H.
Qed.

Lemma list_interfaces_spec (interfaces : list (string * string)) :
  networking.list_interfaces ioctl if_nameindex skip_loopback
  = networking.Ok interfaces ->
  List.NoDup (map fst interfaces)
  /\ (forall mac iface,
        In (mac, iface) interfaces
        <-> exists l1 index l2,
              if_nameindex = l1 ++ (index, iface) :: l2
              /\ (skip_loopback = true -> iface <> "lo")
              /\ networking.mac_of ioctl iface = networking.Ok mac
              /\ forall j other,
                   In (j, other) l2 ->
                   (skip_loopback = true -> other <> "lo") ->
                   networking.mac_of ioctl other <> networking.Ok mac)
  /\ (skip_loopback = true -> ~ In "lo" (map snd interfaces)).
Proof.
  unfold networking.list_interfaces. intros Hrun.
  assert (Hnd : List.NoDup (map fst interfaces)).
  { apply (loop_NoDup if_nameindex [] interfaces); [constructor|exact Hrun]. }
  assert (Hiff : forall mac iface,
             In (mac, iface) interfaces
             <-> last_kept mac if_nameindex = Some iface).
  { intros mac iface.
    pose proof (loop_get if_nameindex [] interfaces mac Hrun) as Hget.
    cbn [py.dict_get] in Hget. split.
    - intros Hin. apply (dict_In_get _ _ _ Hnd) in Hin.
      rewrite Hin in Hget. now destruct (last_kept mac if_nameindex).
    - intros Hlast. rewrite Hlast in Hget. now apply dict_get_In. }
  split; [exact Hnd|]. split.
  - intros mac iface. rewrite Hiff, last_kept_Some.
    split; intros (l1 & idx & l2 & Heq & Hk & Hm & Hlast);
      exists l1, idx, l2; (repeat split; [exact Heq| |exact Hm|]);
      try (now apply kept_iff);
      intros j other Hin Hko; apply (Hlast j other Hin); now apply kept_iff.
  - intros Hskip Hin. apply in_map_iff in Hin.
    destruct Hin as ([mac iface] & Hlo & Hin). cbn in Hlo. subst iface.
    apply Hiff, last_kept_Some in Hin.
    destruct Hin as (_ & _ & _ & _ & Hk & _).
    apply kept_iff in Hk; [now apply Hk | exact Hskip].
Qed.

(** X15: when [list_interfaces] returns, no key occurs twice, and a key is
    mapped to the last interface of [socket.if_nameindex()] that has this
    hardware address, the loopback interface "lo" left out when
    [skip_loopback] is set: of interfaces that share an address only the
    last one is listed, and "lo" is then never a value. *)
Theorem list_interfaces_last_wins (interfaces : list (string * string)) :
  networking.list_interfaces ioctl if_nameindex skip_loopback
  = networking.Ok interfaces ->
  List.NoDup (map fst interfaces)
  /\ (forall mac iface,
        In (mac, iface) interfaces
        <-> exists l1 index l2,
              if_nameindex = l1 ++ (index, iface) :: l2
              /\ (skip_loopback = true -> iface <> "lo")
              /\ networking.mac_of ioctl iface = networking.Ok mac
              /\ forall j other,
                   In (j, other) l2 ->
                   (skip_loopback = true -> other <> "lo") ->
                   networking.mac_of ioctl other <> networking.Ok mac)
  /\ (skip_loopback = true -> ~ In "lo" (map snd interfaces)).
Proof. exact (list_interfaces_spec interfaces). Qed.

End Interfaces.

Section InterfaceTypes.

Variable isdir isfile : string -> bool.

Local Abbreviation iface_type := (networking.iface_type isdir isfile).
Local Abbreviation enrich := (networking.enrich_iface_types isdir isfile).

Lemma enrich_fold (interfaces : list string) (acc : list (string * string)) :
  fold_left
    (fun result iface =>
       if isdir ("/sys/class/net/" ++ iface ++ "/bridge/") then
         networking.dict_set result iface "BRIDGE"
       else if isfile ("/sys/class/net/" ++ iface ++ "/tun_flags") then
         networking.dict_set result iface "TUN/TAP"
       else if isdir ("/sys/class/net/" ++ iface ++ "/device") then
         if isdir ("/sys/class/net/" ++ iface ++ "/wireless/") then
           networking.dict_set result iface "WIRELESS"
         else
           networking.dict_set result iface "PHYSICAL"
       else
         networking.dict_set result iface "UNKNOWN")
    interfaces acc
  = fold_left
      (fun result iface => networking.dict_set result iface (iface_type iface))
      interfaces acc.
Proof.
  revert acc. induction interfaces as [|i l IH]; intros acc; [reflexivity|].
  cbn [fold_left]. rewrite IH. f_equal. unfold networking.iface_type.
  now destruct (isdir ("/sys/class/net/" ++ i ++ "/bridge/")),
    (isfile ("/sys/class/net/" ++ i ++ "/tun_flags")),
    (isdir ("/sys/class/net/" ++ i ++ "/device")),
    (isdir ("/sys/class/net/" ++ i ++ "/wireless/")).
Qed.

Lemma enrich_get (interfaces : list string) (acc : list (string * string))
  (iface : string) :
  py.dict_get
    (fold_left
       (fun result i => networking.dict_set result i (iface_type i))
       interfaces acc) iface
  = if in_dec string_dec iface interfaces then Some (iface_type iface)
    else py.dict_get acc iface.
Proof.
  revert acc. induction interfaces as [|i l IH]; intros acc; [reflexivity|].
  cbn [fold_left]. rewrite IH.
  destruct (in_dec string_dec iface l) as [Hin|Hnin].
  - destruct (in_dec string_dec iface (i :: l)) as [_|H]; [reflexivity|].
    exfalso. apply H. now right.
  - destruct (string_dec i iface) as [->|Hne].
    + rewrite dict_get_set_eq.
      destruct (in_dec string_dec iface (iface :: l)) as [_|H];
        [reflexivity|]. exfalso. apply H. now left.
    + rewrite dict_get_set_ne by assumption.
      destruct (in_dec string_dec iface (i :: l)) as [[H|H]|_];
        [contradiction..|reflexivity].
Qed.

(** X16: [enrich_iface_types] gives a type to exactly the interfaces it is
    passed, one of BRIDGE, TUN/TAP, WIRELESS, PHYSICAL and UNKNOWN.  The
    checks go in this order: a bridge directory makes a BRIDGE whatever
    else exists, and an interface is WIRELESS exactly when it has no bridge
    directory and no tun_flags file but a device and a wireless
    directory. *)
Theorem enrich_iface_types_spec (interfaces : list string) (iface : string) :
  let path name := ("/sys/class/net/" ++ iface ++ name)%string in
  (py.dict_get (enrich interfaces) iface = None <-> ~ In iface interfaces)
  /\ (forall type,
        py.dict_get (enrich interfaces) iface = Some type ->
        In type ["BRIDGE"; "TUN/TAP"; "WIRELESS"; "PHYSICAL"; "UNKNOWN"])
  /\ (In iface interfaces ->
      isdir (path "/bridge/") = true ->
      py.dict_get (enrich interfaces) iface = Some "BRIDGE")
  /\ (py.dict_get (enrich interfaces) iface = Some "WIRELESS"
      <-> In iface interfaces
          /\ isdir (path "/bridge/") = false
          /\ isfile (path "/tun_flags") = false
          /\ isdir (path "/device") = true
          /\ isdir (path "/wireless/") = true).
Proof.
  cbv zeta. unfold networking.enrich_iface_types.
  rewrite enrich_fold, enrich_get. cbn [py.dict_get].
  unfold networking.iface_type.
  destruct (in_dec string_dec iface interfaces) as [Hin|Hnin].
  - split; [split; [discriminate|contradiction]|].
    destruct (isdir ("/sys/class/net/" ++ iface ++ "/bridge/")),
      (isfile ("/sys/class/net/" ++ iface ++ "/tun_flags")),
      (isdir ("/sys/class/net/" ++ iface ++ "/device")),
      (isdir ("/sys/class/net/" ++ iface ++ "/wireless/"));
      (split; [intros type [= <-]; cbn; tauto|]);
      (split; [try reflexivity; intros _ [=]|]);
      (split; [try discriminate; tauto | intros (_ & ? & ? & ? & ?);
                                         try discriminate; reflexivity]).
  - split; [tauto|]. split; [discriminate|]. split; [contradiction|].
    split; [discriminate|]. intros (H & _). contradiction.
Qed.

End InterfaceTypes.

Section Wireless.

Variable ioctl : list Byte.byte -> networking.result (list Byte.byte).
Variable if_nameindex : list (nat * string).
Variable isdir isfile : string -> bool.
Variable SysCommand : list string -> string -> option (list string).

Local Abbreviation wireless_scan :=
  (networking.wireless_scan ioctl if_nameindex isdir isfile SysCommand).
Local Abbreviation get_wireless_networks :=
  (networking.get_wireless_networks ioctl if_nameindex isdir isfile
     SysCommand).
Local Abbreviation iface_type := (networking.iface_type isdir isfile).

Lemma enrich_lookup (interfaces : list string) (iface : string) :
  py.dict_get (networking.enrich_iface_types isdir isfile interfaces) iface
  = if in_dec string_dec iface interfaces then Some (iface_type iface)
    else None.
Proof.
  unfold networking.enrich_iface_types.
  now rewrite enrich_fold, enrich_get.
Qed.

(** X17: [wireless_scan] refuses an interface before running any command
    and without touching the storage: with [KeyError] when the interface
    is not among those [list_interfaces()] lists, which is always so for
    the loopback interface "lo", and with [HardwareIncompatibilityError]
    when it is listed but not of type WIRELESS. *)
Theorem wireless_scan_refuses (interface : string)
  (listed : list (string * string)) (s : networking.Net) :
  networking.list_interfaces ioctl if_nameindex true = networking.Ok listed ->
  (~ In interface (map snd listed) ->
   wireless_scan interface s = (networking.Error networking.KeyError, s))
  /\ (In interface (map snd listed) ->
      iface_type interface <> "WIRELESS" ->
      wireless_scan interface s
      = (networking.Error networking.HardwareIncompatibilityError, s))
  /\ wireless_scan "lo" s = (networking.Error networking.KeyError, s).
Proof.
  intros Hlist.
  assert (Hmissing : forall i,
             ~ In i (map snd listed) ->
             wireless_scan i s = (networking.Error networking.KeyError, s)).
  { intros i Hnin. unfold networking.wireless_scan.
    rewrite Hlist, enrich_lookup.
    now destruct (in_dec string_dec i (map snd listed)). }
  split; [apply Hmissing|]. split.
  - intros Hin Htype. unfold networking.wireless_scan.
    rewrite Hlist, enrich_lookup.
    destruct (in_dec string_dec interface (map snd listed));
      [|contradiction].
    apply String.eqb_neq in Htype. now rewrite Htype.
  - apply Hmissing.
    now apply (list_interfaces_spec ioctl if_nameindex true listed Hlist).
Qed.

(** X18: for a listed interface of type WIRELESS, [wireless_scan] runs the
    scan command and nothing else.  When the command fails it raises
    [SystemError] and leaves the storage as it was; when it succeeds the
    interface's entry in [storage['_WIFI']] has [scanning] set to [True],
    its other keys and the entries of the other interfaces are kept. *)
Theorem wireless_scan_marks_scanning (interface : string)
  (listed : list (string * string)) (s : networking.Net) :
  let cmd := ("iwctl station " ++ interface ++ " scan")%string in
  let before :=
    match networking.wifi s with Some d => d | None => [] end in
  let entry_before :=
    match py.dict_get before interface with Some e => e | None => [] end in
  networking.list_interfaces ioctl if_nameindex true = networking.Ok listed ->
  In interface (map snd listed) ->
  iface_type interface = "WIRELESS" ->
  match SysCommand (networking.commands s) cmd with
  | None =>
      wireless_scan interface s
      = (networking.Error networking.SystemError,
         networking.mkNet (networking.wifi s) (networking.commands s ++ [cmd])
           (networking.printed s) (networking.slept s))
  | Some _ =>
      exists after entry,
        wireless_scan interface s
        = (networking.Ok tt,
           networking.mkNet (Some after) (networking.commands s ++ [cmd])
             (networking.printed s) (networking.slept s))
        /\ py.dict_get after interface = Some entry
        /\ py.dict_get entry "scanning" = Some networking.PyTrue
        /\ (forall key,
              key <> "scanning" ->
              py.dict_get entry key = py.dict_get entry_before key)
        /\ (forall other,
              other <> interface ->
              py.dict_get after other = py.dict_get before other)
  end.
Proof.
  cbv zeta. intros Hlist Hin Htype.
  unfold networking.wireless_scan, networking.run_command,
    networking.set_wifi.
  rewrite Hlist, enrich_lookup.
  destruct (in_dec string_dec interface (map snd listed)); [|contradiction].
  rewrite Htype. cbn [String.eqb Ascii.eqb Bool.eqb negb].
  change (("WIRELESS" =? "WIRELESS")%string) with true. cbn [negb].
  destruct (SysCommand (networking.commands s) _) as [lines|];
    [|reflexivity].
  cbn [networking.wifi networking.commands networking.printed
         networking.slept].
  set (before := match networking.wifi s with Some d => d | None => [] end).
  destruct (py.dict_get before interface) as [e|] eqn:He.
  - rewrite He. do 2 eexists. split; [reflexivity|].
    rewrite dict_get_set_eq.
    split; [reflexivity|]. split; [apply dict_get_set_eq|].
    split.
    + intros key Hkey. now apply dict_get_set_ne; apply not_eq_sym.
    + intros other Hother. now apply dict_get_set_ne; apply not_eq_sym.
  - rewrite dict_get_set_eq. do 2 eexists. split; [reflexivity|].
    rewrite dict_get_set_eq.
    split; [reflexivity|]. split; [reflexivity|]. split.
    + intros key Hkey. now apply dict_get_set_ne; apply not_eq_sym.
    + intros other Hother.
      rewrite !dict_get_set_ne by now apply not_eq_sym. reflexivity.
Qed.

Lemma wireless_scan_ok (interface : string) (s s' : networking.Net) (u : unit) :
  wireless_scan interface s = (networking.Ok u, s') ->
  networking.commands s'
  = networking.commands s ++ ["iwctl station " ++ interface ++ " scan"]%string
  /\ networking.printed s' = networking.printed s
  /\ networking.slept s' = networking.slept s
  /\ networking.not_scanning s' interface = false.
Proof.
  unfold networking.wireless_scan, networking.run_command,
    networking.set_wifi.
  destruct (networking.list_interfaces ioctl if_nameindex true);
    [|discriminate].
  destruct (py.dict_get _ interface) as [type|]; [|discriminate].
  destruct (negb (String.eqb type "WIRELESS")); [discriminate|].
  destruct (SysCommand (networking.commands s) _); [|discriminate].
  cbn [networking.wifi networking.commands networking.printed
         networking.slept].
  intros [= _ <-]. cbn [networking.commands networking.printed
                          networking.slept].
  repeat split. unfold networking.not_scanning. cbn [networking.wifi].
  now rewrite !dict_get_set_eq.
Qed.

(** The test of [get_wireless_networks] on the contents of the storage:
    it fails exactly when the entry of the interface holds a [scanning]
    value other than [False]. *)
Lemma not_scanning_false_iff (s : networking.Net) (interface : string) :
  networking.not_scanning s interface = false
  <-> exists d entry v,
        networking.wifi s = Some d
        /\ py.dict_get d interface = Some entry
        /\ py.dict_get entry "scanning" = Some v
        /\ v <> networking.PyFalse.
Proof.
  unfold networking.not_scanning. split.
  - destruct (networking.wifi s) as [d|]; [|discriminate].
    destruct (py.dict_get d interface) as [entry|] eqn:He; [|discriminate].
    destruct (py.dict_get entry "scanning") as [v|] eqn:Hv; [|discriminate].
    intros H. exists d, entry, v. split; [reflexivity|].
    split; [exact He|]. split; [exact Hv|].
    intros ->. discriminate H.
  - intros (d & entry & v & -> & -> & -> & Hv).
    destruct v; [reflexivity|now contradiction Hv|reflexivity].
Qed.

(** X19: a call of [get_wireless_networks] that returns leaves the
    interface marked as scanning: [storage['_WIFI'][interface]] holds a
    [scanning] value that is not [False].  When the interface was marked
    before, the call ran the get-networks command alone and left the
    storage as it was; when it was not, the call ran the scan command
    first and slept five seconds.  A second call then runs the
    get-networks command alone: no scan, no sleep, and the storage is not
    changed. *)
Theorem get_wireless_networks_scans_once (interface : string)
  (s s1 : networking.Net) :
  let scan := ("iwctl station " ++ interface ++ " scan")%string in
  let get := ("iwctl station " ++ interface ++ " get-networks")%string in
  let marked (n : networking.Net) :=
    exists d entry v,
      networking.wifi n = Some d
      /\ py.dict_get d interface = Some entry
      /\ py.dict_get entry "scanning" = Some v
      /\ v <> networking.PyFalse in
  get_wireless_networks interface s = (networking.Ok tt, s1) ->
  (marked s ->
   networking.commands s1 = networking.commands s ++ [get]
   /\ networking.slept s1 = networking.slept s
   /\ networking.wifi s1 = networking.wifi s)
  /\ (~ marked s ->
      networking.commands s1 = networking.commands s ++ [scan; get]
      /\ networking.slept s1 = networking.slept s ++ [5])
  /\ marked s1
  /\ forall r s2,
       get_wireless_networks interface s1 = (r, s2) ->
       networking.commands s2 = networking.commands s1 ++ [get]
       /\ networking.slept s2 = networking.slept s1
       /\ networking.wifi s2 = networking.wifi s1.
Proof.
  cbv zeta. intros Hrun.
  assert (Hfirst :
    (if networking.not_scanning s interface
     then networking.commands s1
          = networking.commands s
            ++ ["iwctl station " ++ interface ++ " scan";
                "iwctl station " ++ interface ++ " get-networks"]%string
          /\ networking.slept s1 = networking.slept s ++ [5]
     else networking.commands s1
          = networking.commands s
            ++ ["iwctl station " ++ interface ++ " get-networks"]%string
          /\ networking.slept s1 = networking.slept s
          /\ networking.wifi s1 = networking.wifi s)
    /\ networking.not_scanning s1 interface = false).
  { revert Hrun.
    unfold networking.get_wireless_networks, networking.nbind,
      networking.nret, networking.sleep, networking.print_lines,
      networking.run_command.
    destruct (networking.not_scanning s interface) eqn:Hns.
    - destruct (wireless_scan interface s) as [[u|e] s'] eqn:Hscan;
        [|discriminate].
      apply wireless_scan_ok in Hscan.
      destruct Hscan as (Hc & Hp & Hs & Hn).
      cbn [networking.wifi networking.commands networking.printed
             networking.slept].
      destruct (SysCommand (networking.commands s') _); [|discriminate].
      intros [= <-].
      cbn [networking.commands networking.slept].
      rewrite Hc, Hs, <- app_assoc.
      repeat split. unfold networking.not_scanning in *.
      exact Hn.
    - destruct (SysCommand (networking.commands s) _); [|discriminate].
      intros [= <-].
      cbn [networking.commands networking.slept networking.wifi].
      repeat split.
      unfold networking.not_scanning in *. exact Hns. }
  destruct Hfirst as (Hcase & Hn).
  split; [|split; [|split]].
  - intros Hmarked. apply not_scanning_false_iff in Hmarked.
    rewrite Hmarked in Hcase. exact Hcase.
  - intros Hnot.
    destruct (networking.not_scanning s interface) eqn:Hns; [exact Hcase|].
    contradiction Hnot. now apply not_scanning_false_iff.
  - now apply not_scanning_false_iff.
  - intros r s2.
    unfold networking.get_wireless_networks, networking.nbind,
      networking.nret, networking.print_lines, networking.run_command.
    rewrite Hn.
    destruct (SysCommand (networking.commands s1) _); intros [= _ <-];
      now repeat split.
Qed.

End Wireless.

(** ** [_manual_partitioning] *)

Lemma sbind_Return {A B : Type} (m : Sess A) (k : A -> Sess B)
  (s s' : Session) (b : B) :
  sbind m k s = (Return b, s') ->
  exists a s1, m s = (Return a, s1) /\ k a s1 = (Return b, s').
Proof.
  unfold sbind. destruct (m s) as [[a|e] s1]; [|discriminate].
  intros H. now exists a, s1.
Qed.

Section ManualPartitioning.

Variable manual_partitioning : dref -> list pref -> M (list pref).

Local Abbreviation loop := (_manual_partitioning_loop manual_partitioning).

(** The objects of [s] are still there in [s'], with their device and wipe
    flag, and with their partitions unless these were replaced by a
    non-empty list; the objects created since have [wipe = False]. *)
Local Abbreviation extends s s' :=
  ((forall r m,
      modifications s !! r = Some m ->
      exists m',
        modifications s' !! r = Some m'
        /\ disk.device m' = disk.device m
        /\ disk.wipe m' = disk.wipe m
        /\ (disk.partitions m' = disk.partitions m
            \/ disk.partitions m' <> []))
   /\ (forall r m',
         modifications s' !! r = Some m' ->
         length (modifications s) <= r ->
         disk.wipe m' = false)).

(** The reference holds a modification for the device, with partitions. *)
Local Abbreviation planned_for s r d :=
  (exists m,
     modifications s !! r = Some m
     /\ disk.device m = d
     /\ disk.partitions m <> []).

Lemma extends_refl (s : Session) : extends s s.
Proof.
  split.
  - intros r m H. exists m. repeat split; [exact H|now left].
  - intros r m' H Hle. apply lookup_lt_Some in H. lia.
Qed.

Lemma extends_trans (s1 s2 s3 : Session) :
  extends s1 s2 -> extends s2 s3 -> extends s1 s3.
Proof.
  intros [H12 N12] [H23 N23]. split.
  - intros r m H. destruct (H12 r m H) as (m2 & H2 & Hd2 & Hw2 & Hp2).
    destruct (H23 r m2 H2) as (m3 & H3 & Hd3 & Hw3 & Hp3).
    exists m3. repeat split; [exact H3|congruence..|].
    destruct Hp3 as [Hp3|Hp3]; [|now right].
    rewrite Hp3. exact Hp2.
  - intros r m3 H3 Hle.
    destruct (modifications s2 !! r) as [m2|] eqn:H2.
    + destruct (H23 r m2 H2) as (m3' & H3' & _ & Hw & _).
      rewrite H3 in H3'. injection H3' as <-.
      rewrite Hw. exact (N12 r m2 H2 Hle).
    + apply (N23 r m3 H3). now apply lookup_ge_None.
Qed.

Lemma planned_for_extends (s s' : Session) (r : mref) (d : dref) :
  extends s s' -> planned_for s r d -> planned_for s' r d.
Proof.
  intros [Hk _] (m & Hm & Hd & Hp).
  destruct (Hk r m Hm) as (m' & Hm' & Hd' & _ & Hp').
  exists m'. repeat split; [exact Hm'|congruence|].
  destruct Hp' as [Hp'|Hp']; [now rewrite Hp'|exact Hp'].
Qed.

Lemma find_modification_spec (device : dref) (preset : list mref)
  (s s' : Session) (found : option mref) :
  find_modification device preset s = (Return found, s') ->
  s' = s
  /\ match found with
     | Some r =>
         In r preset
         /\ exists m,
              modifications s !! r = Some m /\ disk.device m = device
     | None => True
     end.
Proof.
  induction preset as [|x preset IH]; cbn [find_modification].
  - unfold sret. now intros [= <- <-].
  - unfold sbind, load_modification.
    destruct (modifications s !! x) as [m|] eqn:Hm; [|discriminate].
    destruct (Nat.eqb_spec (disk.device m) device) as [Hd|Hd].
    + unfold sret. intros [= <- <-]. split; [reflexivity|].
      split; [now left|]. now exists m.
    + intros H. apply IH in H. destruct H as [-> H]. split; [reflexivity|].
      destruct found as [r|]; [|exact I].
      destruct H as [Hin H]. split; [now right|exact H].
Qed.

Lemma extends_new (s : Session) (m : disk.DeviceModification) :
  disk.wipe m = false ->
  extends s (mkSession (world s) (modifications s ++ [m]) (dialogs s)).
Proof.
  intros Hw. cbn [modifications]. split.
  - intros r m0 H. exists m0.
    rewrite lookup_app_l by (now apply lookup_lt_Some in H).
    repeat split; [exact H|now left].
  - intros r m' H Hle. apply lookup_snoc_Some in H.
    destruct H as [[Hlt _]|[_ <-]]; [lia|exact Hw].
Qed.

Lemma extends_set_partitions (s : Session) (w : World) (ds : list Dialog)
  (r : mref) (partitions : list pref) :
  partitions <> [] ->
  extends s
    (mkSession w
       (alter
          (fun m =>
             disk.mkDeviceModification (disk.device m) (disk.wipe m)
               partitions)
          r (modifications s))
       ds).
Proof.
  intros Hne. cbn [modifications]. split.
  - intros r' m H. destruct (Nat.eq_dec r r') as [<-|Hr].
    + rewrite list_lookup_alter_eq, H. cbn. eexists.
      split; [reflexivity|]. cbn. repeat split. now right.
    + rewrite list_lookup_alter_ne by assumption. exists m.
      repeat split; [exact H|now left].
  - intros r' m' H Hle. apply lookup_lt_Some in H.
    rewrite length_alter in H. lia.
Qed.

(** What the loop adds to the modifications it was entered with. *)
Lemma manual_partitioning_loop_spec (preset : list mref)
  (devices : list dref) (acc : list mref) (s s' : Session)
  (result : list mref) :
  loop preset devices acc s = (Return result, s') ->
  extends s s'
  /\ exists added kept,
       result = acc ++ added
       /\ sublist kept devices
       /\ Forall2 (fun r d => planned_for s' r d) added kept
       /\ Forall
            (fun r => r < length (modifications s) -> In r preset) added.
Proof.
  revert acc s. induction devices as [|device devices IH]; intros acc s.
  - cbn. unfold sret. intros [= <- <-]. split; [apply extends_refl|].
    exists [], []. rewrite app_nil_r.
    repeat split; constructor.
  - cbn [_manual_partitioning_loop]. unfold sbind at 1.
    destruct (find_modification device preset s) as [[found|e] s0] eqn:Hfind;
      [|discriminate].
    apply find_modification_spec in Hfind. destruct Hfind as [-> Hfound].
    (* the modification object the body works on *)
    assert (Hmod : forall k : mref -> Sess (list mref),
      sbind
        match found with
        | Some mod_ => sret mod_
        | None => new_modification (disk.DeviceModification_ device false)
        end k s
      = (Return result, s') ->
      exists r s1 m,
        k r s1 = (Return result, s')
        /\ extends s s1
        /\ world s1 = world s
        /\ modifications s1 !! r = Some m
        /\ disk.device m = device
        /\ (r < length (modifications s) -> In r preset)).
    { intros k. unfold sbind. destruct found as [r|].
      - destruct Hfound as (Hin & m & Hm & Hd). unfold sret.
        intros H. exists r, s, m.
        repeat split; try assumption; try apply extends_refl.
        intros _. exact Hin.
      - unfold new_modification. intros H.
        exists (length (modifications s)). eexists. eexists.
        split; [exact H|]. split; [now apply extends_new|].
        split; [reflexivity|]. cbn [modifications].
        split; [now apply list_lookup_middle|].
        split; [reflexivity|]. lia. }
    intros H. apply Hmod in H. clear Hmod Hfound.
    destruct H as (r & s1 & m & H & Hext1 & _ & Hm & Hd & Hpre).
    revert H. unfold sbind, load_modification, show, lift, set_partitions.
    rewrite Hm. cbn [world modifications dialogs].
    destruct (manual_partitioning device (disk.partitions m) (world s1))
      as [[partitions|e] w]; [|discriminate].
    assert (Hlen : length (modifications s) <= length (modifications s1)).
    { destruct Hext1 as [Hk _].
      destruct (Nat.le_gt_cases (length (modifications s))
                  (length (modifications s1))) as [Hle|Hgt]; [exact Hle|].
      destruct (lookup_lt_is_Some_2 (modifications s)
                  (length (modifications s1)) Hgt) as (x & Hx).
      destruct (Hk _ _ Hx) as (x' & Hx' & _).
      apply lookup_lt_Some in Hx'. lia. }
    destruct partitions as [|p ps].
    + intros H. apply IH in H.
      destruct H as (Hext & added & kept & -> & Hsub & Hgood & Hold).
      split.
      * eapply extends_trans; [exact Hext1|].
        destruct Hext as [Hk Hn]. cbn [modifications] in *. now split.
      * exists added, kept. split; [reflexivity|].
        split; [now apply sublist_cons|]. split; [exact Hgood|].
        eapply Forall_impl; [exact Hold|]. cbn [modifications].
        intros x Hx Hlt. apply Hx. lia.
    + intros H. apply IH in H.
      destruct H as (Hext & added & kept & -> & Hsub & Hgood & Hold).
      cbn [modifications] in *.
      assert (Hext4 :
        extends s1
          (mkSession w
             (alter
                (fun m0 =>
                   disk.mkDeviceModification (disk.device m0)
                     (disk.wipe m0) (p :: ps))
                r (modifications s1))
             (dialogs s1 ++
                [ManualPartitioning device (disk.partitions m)])))
        by now apply extends_set_partitions.
      split.
      * eapply extends_trans; [exact Hext1|].
        eapply extends_trans; [exact Hext4|].
        destruct Hext as [Hk Hn]. cbn [modifications] in *. now split.
      * exists (r :: added), (device :: kept).
        split; [now rewrite <- app_assoc|].
        split; [now apply sublist_skip|]. split.
        -- constructor; [|exact Hgood].
           apply (planned_for_extends
                    (mkSession w
                       (alter
                          (fun m0 =>
                             disk.mkDeviceModification (disk.device m0)
                               (disk.wipe m0) (p :: ps))
                          r (modifications s1))
                       (dialogs s1 ++
                          [ManualPartitioning device (disk.partitions m)])));
             [destruct Hext as [Hk Hn]; cbn [modifications] in *; now split|].
           cbn [modifications]. eexists.
           split;
             [rewrite list_lookup_alter_eq; unfold mref in Hm; rewrite Hm;
              reflexivity|].
           cbn. now split.
        -- constructor; [exact Hpre|].
           eapply Forall_impl; [exact Hold|].
           rewrite length_alter. intros x Hx Hlt. apply Hx. lia.
Qed.

(** One turn of the loop: the modification object it works on, found in
    the preset or new, the answer of the manual partitioning, and the rest
    of the loop. *)
Lemma manual_partitioning_loop_step (preset : list mref) (device : dref)
  (devices : list dref) (acc : list mref) (s s' : Session)
  (result : list mref) :
  loop preset (device :: devices) acc s = (Return result, s') ->
  exists (r : mref) mods1 m partitions w,
    (mods1 = modifications s /\ In r preset
     \/ mods1 = modifications s ++ [disk.DeviceModification_ device false]
        /\ r = length (modifications s))
    /\ mods1 !! r = Some m
    /\ disk.device m = device
    /\ manual_partitioning device (disk.partitions m) (world s)
       = (Return partitions, w)
    /\ loop preset devices
         match partitions with [] => acc | _ :: _ => acc ++ [r] end
         (mkSession w
            match partitions with
            | [] => mods1
            | _ :: _ =>
                alter
                  (fun m0 =>
                     disk.mkDeviceModification (disk.device m0)
                       (disk.wipe m0) partitions)
                  r mods1
            end
            (dialogs s ++ [ManualPartitioning device (disk.partitions m)]))
       = (Return result, s').
Proof.
  intros H. cbn [_manual_partitioning_loop] in H.
  apply sbind_Return in H as (found & s0 & Hfind & H).
  apply find_modification_spec in Hfind as [-> Hfound].
  apply sbind_Return in H as (r & s1 & Hmod & H).
  apply sbind_Return in H as (object & s2 & Hload & H).
  apply sbind_Return in H as ([] & s3 & Hshow & H).
  apply sbind_Return in H as (partitions & s4 & Hlift & H).
  assert (Hobject :
    (modifications s1 = modifications s /\ In r preset
     \/ modifications s1
        = modifications s ++ [disk.DeviceModification_ device false]
        /\ r = length (modifications s))
    /\ world s1 = world s /\ dialogs s1 = dialogs s
    /\ exists m, modifications s1 !! r = Some m /\ disk.device m = device).
  { destruct found as [r0|].
    - injection Hmod as <- <-. destruct Hfound as (Hin & m & Hm & Hd).
      split; [now left|]. do 2 (split; [reflexivity|]). now exists m.
    - unfold new_modification in Hmod. injection Hmod as <- <-.
      cbn [modifications world dialogs]. split; [now right|].
      do 2 (split; [reflexivity|]). eexists.
      split; [apply list_lookup_middle; reflexivity|reflexivity]. }
  destruct Hobject as (Hmods & Hworld & Hdialogs & m & Hm & Hd).
  unfold load_modification in Hload. unfold mref in *. rewrite Hm in Hload.
  injection Hload as <- <-.
  unfold show in Hshow. injection Hshow as <-.
  unfold lift in Hlift. cbn [world modifications dialogs] in Hlift.
  destruct (manual_partitioning device (disk.partitions m) (world s1))
    as [[answer|e] w] eqn:Hanswer; [|discriminate].
  injection Hlift as <- <-.
  rewrite Hworld in Hanswer. rewrite Hdialogs in H.
  exists r, (modifications s1), m, answer, w.
  split; [exact Hmods|]. split; [exact Hm|]. split; [exact Hd|].
  split; [exact Hanswer|].
  destruct answer as [|p ps]; [exact H|].
  apply sbind_Return in H as ([] & s5 & Hset & H).
  unfold set_partitions in Hset. injection Hset as <-. exact H.
Qed.

(** The loop leaves the modifications of devices it does not go through
    as they are. *)
Lemma manual_partitioning_loop_untouched (preset : list mref)
  (devices : list dref) (acc : list mref) (s s' : Session)
  (result : list mref) :
  loop preset devices acc s = (Return result, s') ->
  forall (r : mref) m,
    modifications s !! r = Some m ->
    ~ In (disk.device m) devices ->
    modifications s' !! r = Some m.
Proof.
  revert acc s. induction devices as [|device devices IH];
    intros acc s H r0 m0 Hm0 Hnot.
  - cbn in H. unfold sret in H. now injection H as _ <-.
  - apply manual_partitioning_loop_step in H
      as (r & mods1 & m & partitions & w & Hmods & Hm & Hd & _ & H).
    eapply IH in H; [exact H| |intros Hin; apply Hnot; now right].
    cbn [modifications].
    assert (Hkeep : r <> r0 /\ mods1 !! r0 = Some m0).
    { destruct Hmods as [[-> _]|[-> ->]].
      - split; [|exact Hm0]. intros ->. unfold mref in *.
        rewrite Hm0 in Hm. injection Hm as <-. apply Hnot. now left.
      - pose proof (lookup_lt_Some _ _ _ Hm0) as Hlt. split; [lia|].
        now rewrite lookup_app_l. }
    destruct Hkeep as [Hne Hkeep].
    destruct partitions; [exact Hkeep|].
    now rewrite list_lookup_alter_ne.
Qed.

(** The loop asks once for each device, in turn, and adds the
    modifications of the devices that were given a partition. *)
Lemma manual_partitioning_loop_rounds (preset : list mref)
  (devices : list dref) (acc : list mref) (s s' : Session)
  (result : list mref) :
  loop preset devices acc s = (Return result, s') ->
  exists answers added,
    manual_rounds manual_partitioning (world s) devices answers (world s')
    /\ dialogs s'
       = dialogs s
         ++ map (fun a => ManualPartitioning (fst (fst a)) (snd (fst a)))
              answers
    /\ result = acc ++ added
    /\ Forall2
         (fun (r : mref) a =>
            exists m,
              modifications s' !! r = Some m
              /\ disk.device m = fst (fst a)
              /\ disk.partitions m <> []
              /\ (List.NoDup devices -> disk.partitions m = snd a))
         added (List.filter with_partitions answers).
Proof.
  revert acc s. induction devices as [|device devices IH]; intros acc s H.
  - cbn in H. unfold sret in H. injection H as <- <-.
    exists [], []. split; [constructor|]. cbn.
    rewrite !app_nil_r. repeat split. constructor.
  - apply manual_partitioning_loop_step in H
      as (r & mods1 & m & partitions & w & Hmods & Hm & Hd & Hanswer & H).
    pose proof (manual_partitioning_loop_spec _ _ _ _ _ _ H) as [Hext _].
    pose proof (manual_partitioning_loop_untouched _ _ _ _ _ _ H) as Hsame.
    apply IH in H as (answers & added & Hrounds & Hdialogs & -> & Hgood).
    cbn [world modifications dialogs] in *.
    exists ((device, disk.partitions m, partitions) :: answers).
    assert (Hlater :
      Forall2
        (fun (r0 : mref) a =>
           exists m0,
             modifications s' !! r0 = Some m0
             /\ disk.device m0 = fst (fst a)
             /\ disk.partitions m0 <> []
             /\ (List.NoDup (device :: devices) ->
                 disk.partitions m0 = snd a))
        added (List.filter with_partitions answers)).
    { eapply Forall2_impl; [exact Hgood|]. cbv beta.
      intros r0 a (m0 & Hm0 & Hd0 & Hp0 & Hnd0). exists m0.
      repeat split; try assumption.
      intros Hnd. apply Hnd0. now apply List.NoDup_cons_iff in Hnd. }
    destruct partitions as [|p ps].
    + exists added. split; [econstructor; eassumption|].
      split; [rewrite Hdialogs, <- app_assoc; reflexivity|].
      split; [reflexivity|exact Hlater].
    + exists (r :: added). split; [econstructor; eassumption|].
      split; [rewrite Hdialogs, <- app_assoc; reflexivity|].
      split; [now rewrite <- app_assoc|].
      cbn [List.filter with_partitions snd]. constructor; [|exact Hlater].
      cbn [fst snd].
      assert (Hnow :
        alter
          (fun m0 =>
             disk.mkDeviceModification (disk.device m0) (disk.wipe m0)
               (p :: ps))
          r mods1 !! r
        = Some
            (disk.mkDeviceModification (disk.device m) (disk.wipe m)
               (p :: ps)))
        by (rewrite list_lookup_alter_eq; unfold mref in *; now rewrite Hm).
      destruct Hext as [Hk _]. cbn [modifications] in Hk.
      destruct (Hk _ _ Hnow) as (m' & Hm' & Hd' & _ & Hp').
      exists m'. split; [exact Hm'|]. split; [now rewrite Hd'|].
      split; [destruct Hp' as [Hp'|Hp']; [now rewrite Hp'|exact Hp']|].
      intros Hnd. apply List.NoDup_cons_iff in Hnd as [Hfresh _].
      specialize (Hsame _ _ Hnow). cbn [disk.device] in Hsame.
      rewrite Hd in Hsame. specialize (Hsame Hfresh).
      unfold mref in *. rewrite Hsame in Hm'. now injection Hm' as <-.
Qed.

(** X20: [_manual_partitioning] asks the manual partitioning once for each
    device of the list, in turn, and returns one modification for each
    device that was given at least one partition, in that order: a device
    for which the manual partitioning gave no partition is left out,
    whatever partitions its modification had, and every other device is
    kept.  A returned modification is for its device and holds at least
    one partition; when no device is listed twice, it holds the partitions
    the manual partitioning returned for it. *)
Theorem manual_partitioning_keeps_partitioned_devices
  (preset : list mref) (devices : list dref) (s s' : Session)
  (result : list mref) :
  _manual_partitioning manual_partitioning preset devices s
  = (Return result, s') ->
  exists answers,
    manual_rounds manual_partitioning (world s) devices answers (world s')
    /\ dialogs s'
       = dialogs s
         ++ map (fun '(d, shown, _) => ManualPartitioning d shown) answers
    /\ Forall2
         (fun r '(d, _, partitions) =>
            exists m,
              modifications s' !! r = Some m
              /\ disk.device m = d
              /\ disk.partitions m <> []
              /\ (List.NoDup devices -> disk.partitions m = partitions))
         result (List.filter with_partitions answers).
Proof.
  intros H. apply manual_partitioning_loop_rounds in H.
  destruct H as (answers & added & Hrounds & Hdialogs & -> & Hgood).
  exists answers. split; [exact Hrounds|]. split.
  - rewrite Hdialogs. f_equal. apply map_ext. now intros [[d shown] p].
  - cbn [app]. eapply Forall2_impl; [exact Hgood|].
    now intros r [[d shown] p].
Qed.

Lemma Forall2_exists_l {A B : Type} (P : A -> B -> Prop) (l : list A)
  (k : list B) :
  Forall2 P l k -> Forall (fun x => exists y, P x y) l.
Proof. induction 1; constructor; eauto. Qed.

(** X21: a modification [_manual_partitioning] returns is either an object
    of the preset, which keeps its device and its wipe flag, or a new
    object with [wipe = False], made for a device the preset has no
    modification for. *)
Theorem manual_partitioning_wipe_flags
  (preset : list mref) (devices : list dref) (s s' : Session)
  (result : list mref) :
  _manual_partitioning manual_partitioning preset devices s
  = (Return result, s') ->
  Forall
    (fun r =>
       exists m',
         modifications s' !! r = Some m'
         /\ match modifications s !! r with
            | Some m =>
                In r preset
                /\ disk.wipe m' = disk.wipe m
                /\ disk.device m' = disk.device m
            | None => disk.wipe m' = false
            end)
    result.
Proof.
  intros H. apply manual_partitioning_loop_spec in H.
  destruct H as ([Hk Hn] & added & kept & -> & _ & Hgood & Hold).
  cbn [app]. apply Forall2_exists_l in Hgood.
  apply List.Forall_forall. intros r Hr.
  rewrite List.Forall_forall in Hgood, Hold.
  destruct (Hgood r Hr) as (d & m' & Hm' & _).
  exists m'. split; [exact Hm'|].
  destruct (modifications s !! r) as [m|] eqn:Hm.
  - destruct (Hk r m Hm) as (m'' & Hm'' & Hd & Hw & _).
    unfold mref in *. rewrite Hm' in Hm''. injection Hm'' as <-.
    split; [|now split]. apply (Hold r Hr). now apply lookup_lt_Some in Hm.
  - apply (Hn r m' Hm'). now apply lookup_ge_None.
Qed.

End ManualPartitioning.

(** ** [select_devices] and [select_disk_config] *)

Section SelectDialogs.

Variable has_uefi : bool.
Variable cursor : Prompt -> nat.
Variable bdevice : dref -> disk.BDevice.
Variable handler_devices : list dref.
Variable DeviceInfo_eq : disk._DeviceInfo -> disk._DeviceInfo -> bool.
Variable device_menu :
  list disk._DeviceInfo -> list disk._DeviceInfo ->
  menu.MenuSelection (list disk._DeviceInfo).
Variable default_layout manual_mode pre_mount_mode : string.
Variable layout_menu :
  list string -> option string -> menu.MenuSelection string.
Variable prompt_dir : disk.Path.
Variable detect_pre_mounted_mods :
  disk.Path -> M (list disk.DeviceModification).
Variable manual_partitioning : dref -> list pref -> M (list pref).

Local Abbreviation select_devices' :=
  (select_devices bdevice handler_devices DeviceInfo_eq device_menu).
Local Abbreviation select_disk_config' :=
  (select_disk_config has_uefi cursor bdevice handler_devices DeviceInfo_eq
     device_menu default_layout manual_mode pre_mount_mode layout_menu
     prompt_dir detect_pre_mounted_mods manual_partitioning).

Lemma filter_sublist {A : Type} (f : A -> bool) (l : list A) :
  sublist (List.filter f l) l.
Proof.
  induction l as [|x l IH]; cbn; [constructor|].
  destruct (f x); now constructor.
Qed.

Lemma sublist_In_std {A : Type} (l1 l2 : list A) (x : A) :
  sublist l1 l2 -> In x l1 -> In x l2.
Proof.
  intros Hsub Hin. apply list_elem_of_In. eapply sublist_subseteq; [eassumption|].
  now apply list_elem_of_In.
Qed.

Lemma sublist_NoDup_std {A : Type} (l1 l2 : list A) :
  sublist l1 l2 -> List.NoDup l2 -> List.NoDup l1.
Proof.
  induction 1 as [|x l1 l2 Hsub IH|x l1 l2 Hsub IH]; intros Hnd.
  - constructor.
  - apply List.NoDup_cons_iff in Hnd as [Hx Hnd].
    constructor; [|now apply IH].
    intros Hin. apply Hx. eapply sublist_In_std; eassumption.
  - apply List.NoDup_cons_iff in Hnd as [_ Hnd]. now apply IH.
Qed.

(** One run of the device menu: the result is part of the preset or of
    the handler's devices. *)
Lemma select_devices_run (preset : option (list dref)) (s : Session) :
  exists result,
    select_devices bdevice handler_devices DeviceInfo_eq device_menu preset s
    = (Return result,
       mkSession (world s) (modifications s)
         (dialogs s
          ++ [DeviceMenu
                (map (fun d => disk.device_info (bdevice d)) handler_devices)
                (map (fun p => disk.device_info (bdevice p))
                   match preset with Some p => p | None => [] end)]))
    /\ (preset = Some [] \/ preset = None ->
        sublist result handler_devices).
Proof.
  unfold select_devices, sbind, show, sret.
  destruct (menu.type_ (device_menu _ _));
    eexists; (split; [reflexivity|]); intros Hp.
  - apply filter_sublist.
  - destruct Hp as [-> | ->]; apply sublist_nil_l.
  - apply sublist_nil_l.
Qed.

(** X22: [select_devices] shows one menu and never fails.  On a reset it
    returns no device and on a skip the preset (none for a missing
    preset).  On a selection it returns the devices of the device handler
    whose info is among the selected ones, in the handler's order whatever
    the order of the selection, and without repetition when the handler
    lists no device twice. *)
Theorem select_devices_result (preset : option (list dref)) (s : Session) :
  let options :=
    map (fun d => disk.device_info (bdevice d)) handler_devices in
  let preset_list := match preset with Some p => p | None => [] end in
  let preset_value :=
    map (fun p => disk.device_info (bdevice p)) preset_list in
  let choice := device_menu options preset_value in
  exists result,
    select_devices bdevice handler_devices DeviceInfo_eq device_menu preset s
    = (Return result,
       mkSession (world s) (modifications s)
         (dialogs s ++ [DeviceMenu options preset_value]))
    /\ match menu.type_ choice with
       | menu.Reset => result = []
       | menu.Skip => result = preset_list
       | menu.Selection =>
           sublist result handler_devices
           /\ (List.NoDup handler_devices -> List.NoDup result)
           /\ forall d,
                In d result
                <-> In d handler_devices
                    /\ exists info,
                         In info (menu.value choice)
                         /\ DeviceInfo_eq (disk.device_info (bdevice d)) info
                            = true
       end.
Proof.
  cbv zeta. unfold select_devices, sbind, show, sret.
  destruct (menu.type_ (device_menu _ _));
    eexists; (split; [reflexivity|]); try reflexivity.
  split; [apply filter_sublist|]. split; [apply List.NoDup_filter|].
  intros d. rewrite List.filter_In, existsb_exists. reflexivity.
Qed.

Lemma new_modifications_spec (ms : list disk.DeviceModification)
  (s : Session) :
  new_modifications ms s
  = (Return (seq (length (modifications s)) (length ms)),
     mkSession (world s) (modifications s ++ ms) (dialogs s)).
Proof.
  revert s. induction ms as [|m ms IH]; intros s.
  - cbn. unfold sret. rewrite app_nil_r. now destruct s.
  - cbn. unfold sbind, new_modification. rewrite IH. cbn.
    rewrite length_app, <- app_assoc. cbn. unfold sret.
    now replace (length (modifications s) + 1) with (S (length (modifications s)))
      by lia.
Qed.

Lemma home_device_In (devices : list dref) (h : dref) :
  home_device bdevice devices = Some h -> In h devices.
Proof.
  intros Hh. pose proof (home_device_spec bdevice devices) as Hspec.
  rewrite Hh in Hspec. destruct Hspec as (l1 & l2 & Heq & _).
  assert (Hin : In h (possible_devices bdevice devices))
    by (rewrite Heq; apply in_elt).
  unfold possible_devices in Hin. now apply List.filter_In in Hin.
Qed.

(** On distinct devices the default layout returns, and each of its
    modifications wipes one of the devices. *)
Lemma default_layout_run (devices : list dref) ft adv :
  List.NoDup devices ->
  exists mods w,
    run (get_default_partition_layout has_uefi cursor bdevice devices ft adv)
    = (Return mods, w)
    /\ Forall
         (fun m => disk.wipe m = true /\ In (disk.device m) devices) mods.
Proof.
  intros Hnd. destruct devices as [|a [|b l]].
  - do 2 eexists. split; [reflexivity|]. constructor.
  - unfold get_default_partition_layout, run, bind.
    pose proof (suggest_single_disk_layout_run has_uefi cursor bdevice
                  a ft adv None) as Hrun.
    cbv zeta in Hrun. unfold run in Hrun. rewrite Hrun.
    do 2 eexists. split; [reflexivity|].
    constructor; [split; [reflexivity|now left]|constructor].
  - change (run (get_default_partition_layout has_uefi cursor bdevice
                   (a :: b :: l) ft adv))
      with (run (suggest_multi_disk_layout has_uefi cursor bdevice
                   (a :: b :: l) ft adv)).
    assert (Hne : a :: b :: l <> []) by discriminate.
    pose proof (kept_not_empty bdevice (a :: b :: l)
                  (home_device bdevice (a :: b :: l))
                  (NoDup_two_or_more a b l Hnd)) as Hsome.
    pose proof (suggest_multi_disk_layout_run has_uefi cursor bdevice
                  (a :: b :: l) ft adv Hne) as Hrun.
    cbv zeta in Hrun. rewrite Hrun. clear Hrun.
    destruct (home_device bdevice (a :: b :: l)) as [h|] eqn:Hh.
    + destruct (first_smallest _ _) as [r|] eqn:Hr; [|contradiction].
      do 2 eexists. split; [reflexivity|].
      apply first_smallest_In, List.filter_In in Hr.
      apply home_device_In in Hh.
      constructor; [split; [reflexivity|exact (proj1 Hr)]|].
      constructor; [split; [reflexivity|exact Hh]|constructor].
    + destruct (first_smallest _ _); [|contradiction].
      do 2 eexists. split; [reflexivity|]. constructor.
Qed.

(** X23: what [select_disk_config] returns follows the entry chosen.  A
    skip returns the preset and a reset nothing.  After a selection a
    returned configuration is pre-mounted, with the directory entered,
    exactly for the pre-mount entry; it is a default or a manual one only
    for that entry, and then it has at least one modification and no
    mountpoint. *)
Theorem select_disk_config_result preset adv (s s' : Session)
  (r : option layout.DiskLayoutConfiguration) :
  select_disk_config has_uefi cursor bdevice handler_devices DeviceInfo_eq
    device_menu default_layout manual_mode pre_mount_mode layout_menu
    prompt_dir detect_pre_mounted_mods manual_partitioning preset adv s
  = (Return r, s') ->
  let choice :=
    layout_menu [default_layout; manual_mode; pre_mount_mode]
      match preset with
      | Some p =>
          Some
            (display_msg default_layout manual_mode pre_mount_mode
               (layout.config_type p))
      | None => None
      end in
  match menu.type_ choice with
  | menu.Skip => r = preset
  | menu.Reset => r = None
  | menu.Selection =>
      match r with
      | None => True
      | Some config =>
          match layout.config_type config with
          | layout.Pre_mount =>
              menu.value choice = pre_mount_mode
              /\ layout.relative_mountpoint config = Some prompt_dir
          | layout.Default =>
              menu.value choice <> pre_mount_mode
              /\ menu.value choice = default_layout
              /\ layout.device_modifications config <> []
              /\ layout.relative_mountpoint config = None
          | layout.Manual =>
              menu.value choice <> pre_mount_mode
              /\ menu.value choice <> default_layout
              /\ menu.value choice = manual_mode
              /\ layout.device_modifications config <> []
              /\ layout.relative_mountpoint config = None
          end
      end
  end.
Proof.
  cbv zeta. set (choice := layout_menu _ _). intros H.
  unfold select_disk_config in H. cbv zeta in H. fold choice in H.
  apply sbind_Return in H as ([] & s0 & _ & H). unfold sret in H.
  destruct (menu.type_ choice); try (now injection H as <- _).
  destruct (String.eqb_spec (menu.value choice) pre_mount_mode)
    as [Hpre|Hpre].
  - apply sbind_Return in H as ([] & s1 & _ & H).
    apply sbind_Return in H as (mods & s2 & _ & H).
    apply sbind_Return in H as (refs & s3 & _ & H).
    injection H as <- _. now split.
  - apply sbind_Return in H as (preset_devices & s1 & _ & H).
    apply sbind_Return in H as (devices & s2 & _ & H).
    destruct devices as [|d devices]; [now injection H as <- _|].
    destruct (String.eqb_spec (menu.value choice) default_layout)
      as [Hdef|Hdef].
    + apply sbind_Return in H as (mods & s3 & _ & H).
      destruct mods as [|m mods]; [now injection H as <- _|].
      apply sbind_Return in H as (refs & s4 & Hrefs & H).
      rewrite new_modifications_spec in Hrefs.
      injection Hrefs as <- _. injection H as <- _. cbn.
      repeat split; try assumption. discriminate.
    + destruct (String.eqb_spec (menu.value choice) manual_mode)
        as [Hman|Hman]; [|now injection H as <- _].
      apply sbind_Return in H as (mods & s3 & _ & H).
      destruct mods as [|m mods]; injection H as <- _; [exact I|]. cbn.
      repeat split; try assumption. discriminate.
Qed.

Lemma new_modifications_lookup (l ms : list disk.DeviceModification) :
  Forall2 (fun (ref : mref) m => (l ++ ms) !! ref = Some m)
    (seq (length l) (length ms)) ms.
Proof.
  revert l. induction ms as [|m ms IH]; intros l; cbn; constructor.
  - unfold mref. rewrite lookup_app_r by lia.
    now rewrite Nat.sub_diag.
  - specialize (IH (l ++ [m])). rewrite length_app, <- app_assoc in IH.
    cbn in IH. now rewrite Nat.add_1_r in IH.
Qed.

(** X24: a first configuration with the default layout cannot fail.
    Without a preset, in a session where no planner has run, when the
    device handler lists no device twice and the user picks the default
    entry, [select_disk_config] returns; a returned configuration is a
    default one whose modification objects all wipe their device, a
    device of the handler. *)
Theorem select_disk_config_default_returns adv (s : Session) :
  List.NoDup handler_devices ->
  world s = mkWorld [] [] ->
  default_layout <> pre_mount_mode ->
  menu.type_
    (layout_menu [default_layout; manual_mode; pre_mount_mode] None)
  = menu.Selection ->
  menu.value
    (layout_menu [default_layout; manual_mode; pre_mount_mode] None)
  = default_layout ->
  exists r s',
    select_disk_config has_uefi cursor bdevice handler_devices DeviceInfo_eq
      device_menu default_layout manual_mode pre_mount_mode layout_menu
      prompt_dir detect_pre_mounted_mods manual_partitioning None adv s
    = (Return r, s')
    /\ match r with
       | None => True
       | Some config =>
           layout.config_type config = layout.Default
           /\ exists mods,
                Forall2
                  (fun ref m => modifications s' !! ref = Some m)
                  (layout.device_modifications config) mods
                /\ Forall
                     (fun m =>
                        disk.wipe m = true
                        /\ In (disk.device m) handler_devices)
                     mods
       end.
Proof.
  intros Hnd Hworld Hne Htype Hvalue.
  unfold select_disk_config. cbv zeta.
  unfold sbind at 1, show at 1. rewrite Htype, Hvalue.
  destruct (String.eqb_spec default_layout pre_mount_mode) as [|_];
    [contradiction|].
  rewrite String.eqb_refl.
  unfold sbind at 1. unfold sret at 1.
  unfold sbind at 1.
  destruct (select_devices_run (Some []) 
              (mkSession (world s) (modifications s)
                 (dialogs s
                  ++ [LayoutMenu [default_layout; manual_mode; pre_mount_mode]
                        None])))
    as (devices & Hrun & Hsub).
  rewrite Hrun. clear Hrun. cbn [world modifications dialogs].
  specialize (Hsub (or_introl eq_refl)).
  destruct devices as [|d devices];
    [do 2 eexists; split; [reflexivity|exact I]|].
  assert (Hnd' : List.NoDup (d :: devices))
    by (eapply sublist_NoDup_std; eassumption).
  destruct (default_layout_run (d :: devices) None adv Hnd')
    as (mods & w & Hlayout & Hall).
  unfold sbind at 1, lift. cbn [world modifications dialogs].
  rewrite Hworld. unfold run in Hlayout. rewrite Hlayout.
  destruct mods as [|m mods];
    [do 2 eexists; split; [reflexivity|exact I]|].
  unfold sbind. rewrite new_modifications_spec. unfold sret.
  do 2 eexists. split; [reflexivity|]. split; [reflexivity|].
  exists (m :: mods). split; [apply new_modifications_lookup|].
  eapply List.Forall_impl; [|exact Hall].
  intros x [Hw Hin]. split; [exact Hw|].
  eapply sublist_In_std; eassumption.
Qed.

End SelectDialogs.

(** ** Instances of the further properties *)

Lemma example_NoDup : List.NoDup [0; 1; 2].
Proof.
  repeat constructor; cbn; intros H; repeat destruct H as [H|H];
    try discriminate; exact H.
Defined.

Lemma multi_disk_feasible_iff_witness :
  two_or_more [0; 1; 2]
  /\ exists mods w,
       run (suggest_multi_disk_layout true first_entry example_bdevice
              [0; 1; 2] None false)
       = (Return mods, w)
       /\ (mods = []
           <-> Forall
                 (fun d =>
                    disk.lt (total_size_of example_bdevice d)
                      (disk.Size_ 40 disk.GiB)
                    = true)
                 [0; 1; 2])
       /\ length (List.filter is_capacity_advisory (events w))
          = match mods with [] => 1 | _ => 0 end.
Proof.
  split; [exact example_two_or_more|].
  exact (multi_disk_feasible_iff true first_entry example_bdevice
           [0; 1; 2] None false example_two_or_more).
Defined.

Lemma example_small_NoDup : List.NoDup [0; 3].
Proof.
  repeat constructor; cbn; intros H; repeat destruct H as [H|H];
    try discriminate; exact H.
Defined.

Lemma default_layout_returns_witness :
  List.NoDup [0; 3]
  /\ List.NoDup [0; 1; 2]
  /\ (exists mods w,
        run (get_default_partition_layout true first_entry example_bdevice
               [0; 3] None false)
        = (Return mods, w)
        /\ length mods = 0)
  /\ exists mods w,
       run (get_default_partition_layout true first_entry example_bdevice
              [0; 1; 2] None false)
       = (Return mods, w)
       /\ length mods = 2.
Proof.
  split; [exact example_small_NoDup|]. split; [exact example_NoDup|]. split.
  - destruct (default_layout_returns true first_entry example_bdevice
                [0; 3] None false example_small_NoDup)
      as (mods & w & Hrun & Hlen & _).
    exists mods, w. split; [exact Hrun|exact Hlen].
  - destruct (default_layout_returns true first_entry example_bdevice
                [0; 1; 2] None false example_NoDup)
      as (mods & w & Hrun & Hlen & _).
    exists mods, w. split; [exact Hrun|exact Hlen].
Defined.

Lemma multi_disk_devices_differ_witness :
  exists mods w,
    run (suggest_multi_disk_layout true first_entry example_bdevice
           [0; 1; 2] None false)
    = (Return mods, w)
    /\ (mods = []
        \/ exists rm hm,
             mods = [rm; hm]
             /\ disk.device rm <> disk.device hm
             /\ In (disk.device rm) [0; 1; 2]
             /\ In (disk.device hm) [0; 1; 2]
             /\ disk.ge (total_size_of example_bdevice (disk.device hm))
                  (disk.Size_ 40 disk.GiB) = true).
Proof.
  pose proof (multi_disk_devices_differ true first_entry example_bdevice
                [0; 1; 2] None false) as H.
  evaluated_run H Hres.
  eexists _, _. split; [exact Hres|]. exact (H _ _ Hres).
Defined.

Lemma multi_disk_never_uses_subvolumes_witness :
  exists o w,
    run (suggest_multi_disk_layout true first_entry example_bdevice
           [0; 1; 2] None false)
    = (o, w)
    /\ Forall (fun p => disk.btrfs_subvols p = []) (store w)
    /\ forall entries,
         ~ In (MenuRun UseSubvolumes entries) (events w)
         /\ ~ In (MenuRun SeparateHome entries) (events w).
Proof.
  pose proof (multi_disk_never_uses_subvolumes true first_entry
                example_bdevice [0; 1; 2] None false) as H.
  evaluated_run H Hres.
  eexists _, _. split; [exact Hres|]. exact (H _ _ Hres).
Defined.

Lemma root_starts_where_boot_ends_witness :
  exists mods w,
    run (suggest_multi_disk_layout false first_entry example_bdevice
           [0; 1; 2] None false)
    = (Return mods, w)
    /\ (mods = []
        \/ exists rm hm boot root,
             mods = [rm; hm]
             /\ planned w rm = [boot; root]
             /\ (disk.normalize (disk.start boot)
                 + disk.normalize (disk.length boot)
                 = disk.normalize (disk.start root))%Z).
Proof.
  pose proof (proj2 (root_starts_where_boot_ends false first_entry
                       example_bdevice 1 [0; 1; 2] None false None)) as H.
  evaluated_run H Hres.
  eexists _, _. split; [exact Hres|]. exact (H _ _ Hres).
Defined.

Lemma home_partition_starts_inside_root_witness :
  using_home_partition first_entry example_bdevice
    (filesystem_of first_entry (Some disk.Ext4) false) 1 (Some true)
  = true
  /\ exists dm w boot root home,
       run (suggest_single_disk_layout true first_entry example_bdevice
              1 (Some disk.Ext4) false (Some true))
       = (Return dm, w)
       /\ planned w dm = [boot; root; home]
       /\ disk.length root = disk.Size_ 20 disk.GiB
       /\ disk.start home = disk.Size_ 20 disk.GiB.
Proof.
  assert (Hhome :
            using_home_partition first_entry example_bdevice
              (filesystem_of first_entry (Some disk.Ext4) false) 1
              (Some true)
            = true) by reflexivity.
  split; [exact Hhome|].
  destruct (home_partition_starts_inside_root true first_entry
              example_bdevice 1 (Some disk.Ext4) false (Some true) Hhome)
    as (dm & w & boot & root & home & Hrun & Hplanned & Hlen & Hstart & _).
  exists dm, w, boot, root, home. repeat split; assumption.
Defined.

Lemma single_disk_asks_nothing_witness :
  disk.Ext4 <> disk.Btrfs
  /\ (Some true <> None
      \/ disk.lt (total_size_of example_bdevice 1) (disk.Size_ 40 disk.GiB)
         = true)
  /\ exists dm w,
       run (suggest_single_disk_layout true first_entry example_bdevice
              1 (Some disk.Ext4) false (Some true))
       = (Return dm, w)
       /\ events w = [].
Proof.
  assert (Hfs : disk.Ext4 <> disk.Btrfs) by discriminate.
  assert (Hsh :
            Some true <> None
            \/ disk.lt (total_size_of example_bdevice 1)
                 (disk.Size_ 40 disk.GiB) = true)
    by (left; discriminate).
  split; [exact Hfs|]. split; [exact Hsh|].
  exact (single_disk_asks_nothing true first_entry example_bdevice
           1 disk.Ext4 false (Some true) Hfs Hsh).
Defined.

Lemma find_nth_occurrence_witness :
  (1 <= 2 <= Z.of_nat (count_occ string_dec ["1"; "."; "2"; "."; "3"] "."))%Z
  /\ exists idx,
       plugins.find_nth ["1"; "."; "2"; "."; "3"] "." 2 = Return (Some idx)
       /\ nth_error ["1"; "."; "2"; "."; "3"] idx = Some "."
       /\ Z.of_nat (count_occ string_dec (firstn idx ["1"; "."; "2"; "."; "3"]) ".")
          = (2 - 1)%Z.
Proof.
  assert (H : (1 <= 2
               <= Z.of_nat
                    (count_occ string_dec ["1"; "."; "2"; "."; "3"] "."))%Z)
    by (cbn; lia).
  split; [exact H|].
  exact (find_nth_occurrence "." ["1"; "."; "2"; "."; "3"] 2 H).
Defined.

Lemma find_nth_too_few_witness :
  (Z.of_nat (count_occ string_dec ["1"; "."; "2"] ".") < 2)%Z
  /\ plugins.find_nth ["1"; "."; "2"] "." 2 = Return None.
Proof.
  assert (H : (Z.of_nat (count_occ string_dec ["1"; "."; "2"] ".") < 2)%Z)
    by (cbn; lia).
  split; [exact H|].
  exact (find_nth_too_few "." ["1"; "."; "2"] 2 H).
Defined.

Lemma find_nth_not_positive_witness :
  (0 <= 0)%Z
  /\ plugins.find_nth ["1"; "."; "2"; "."; "3"] "." 0
     = plugins.find_nth ["1"; "."; "2"; "."; "3"] "." 2
  /\ plugins.find_nth ["1"; "2"] "." 0 = Raise IndexError.
Proof.
  assert (H : (0 <= 0)%Z) by lia.
  split; [exact H|]. split.
  - exact (find_nth_not_positive "." ["1"; "."; "2"; "."; "3"] 0 H).
  - exact (find_nth_not_positive "." ["1"; "2"] 0 H).
Defined.

Lemma hw_addr_format_witness :
  example_ioctl
    (networking.pack_256s (firstn 15 (list_byte_of_string "eth0")))
  = networking.Ok (repeat Byte.x00 18 ++ repeat Byte.x65 6)
  /\ 24 <= length (repeat Byte.x00 18 ++ repeat Byte.x65 6)
  /\ networking.get_hw_addr example_ioctl "eth0"
     = networking.Ok "65:65:65:65:65:65"
  /\ networking.mac_of example_ioctl "eth0"
     = networking.Ok "65-65-65-65-65-65".
Proof.
  assert (Hanswer :
            example_ioctl
              (networking.pack_256s (firstn 15 (list_byte_of_string "eth0")))
            = networking.Ok (repeat Byte.x00 18 ++ repeat Byte.x65 6))
    by reflexivity.
  assert (Hlen : 24 <= length (repeat Byte.x00 18 ++ repeat Byte.x65 6))
    by (cbn; lia).
  split; [exact Hanswer|]. split; [exact Hlen|].
  destruct (hw_addr_format example_ioctl "eth0" _ Hanswer Hlen)
    as (_ & _ & _ & Hget & _ & Hmac).
  split; [exact Hget|exact Hmac].
Defined.

Lemma list_interfaces_last_wins_witness :
  networking.list_interfaces example_ioctl example_if_nameindex true
  = networking.Ok
      [("65-65-65-65-65-65", "enp3s0"); ("77-77-77-77-77-77", "wlan0")]
  /\ List.NoDup
       (map fst
          [("65-65-65-65-65-65", "enp3s0"); ("77-77-77-77-77-77", "wlan0")])
  /\ ~ In "lo"
       (map snd
          [("65-65-65-65-65-65", "enp3s0"); ("77-77-77-77-77-77", "wlan0")]).
Proof.
  assert (Hrun :
            networking.list_interfaces example_ioctl example_if_nameindex true
            = networking.Ok
                [("65-65-65-65-65-65", "enp3s0");
                 ("77-77-77-77-77-77", "wlan0")])
    by reflexivity.
  split; [exact Hrun|].
  destruct (list_interfaces_last_wins example_ioctl example_if_nameindex true
              _ Hrun) as (Hnd & _ & Hlo).
  split; [exact Hnd|exact (Hlo eq_refl)].
Defined.

Lemma enrich_iface_types_spec_witness :
  In "wlan0" ["eth0"; "wlan0"]
  /\ py.dict_get
       (networking.enrich_iface_types example_isdir example_isfile
          ["eth0"; "wlan0"])
       "wlan0"
     = Some "WIRELESS".
Proof.
  assert (Hin : In "wlan0" ["eth0"; "wlan0"]) by (right; left; reflexivity).
  split; [exact Hin|].
  destruct (enrich_iface_types_spec example_isdir example_isfile
              ["eth0"; "wlan0"] "wlan0") as (_ & _ & _ & Hwireless).
  apply Hwireless. repeat split; [exact Hin|reflexivity..].
Defined.

Lemma wireless_scan_refuses_witness :
  networking.list_interfaces example_ioctl example_if_nameindex true
  = networking.Ok
      [("65-65-65-65-65-65", "enp3s0"); ("77-77-77-77-77-77", "wlan0")]
  /\ networking.wireless_scan example_ioctl example_if_nameindex
       example_isdir example_isfile example_SysCommand "eth0" example_net
     = (networking.Error networking.KeyError, example_net)
  /\ networking.wireless_scan example_ioctl example_if_nameindex
       example_isdir example_isfile example_SysCommand "enp3s0" example_net
     = (networking.Error networking.HardwareIncompatibilityError,
        example_net).
Proof.
  assert (Hrun :
            networking.list_interfaces example_ioctl example_if_nameindex true
            = networking.Ok
                [("65-65-65-65-65-65", "enp3s0");
                 ("77-77-77-77-77-77", "wlan0")])
    by reflexivity.
  split; [exact Hrun|]. split.
  - refine (proj1 (wireless_scan_refuses example_ioctl example_if_nameindex
                     example_isdir example_isfile example_SysCommand
                     "eth0" _ example_net Hrun) _).
    cbn. intros [H|[H|[]]]; discriminate H.
  - refine (proj1 (proj2 (wireless_scan_refuses example_ioctl
                            example_if_nameindex example_isdir example_isfile
                            example_SysCommand "enp3s0" _ example_net Hrun))
              _ _).
    + left. reflexivity.
    + discriminate.
Defined.

Lemma wireless_scan_marks_scanning_witness :
  networking.list_interfaces example_ioctl example_if_nameindex true
  = networking.Ok
      [("65-65-65-65-65-65", "enp3s0"); ("77-77-77-77-77-77", "wlan0")]
  /\ networking.iface_type example_isdir example_isfile "wlan0" = "WIRELESS"
  /\ exists after entry,
       networking.wireless_scan example_ioctl example_if_nameindex
         example_isdir example_isfile example_SysCommand "wlan0" example_net
       = (networking.Ok tt,
          networking.mkNet (Some after) ["iwctl station wlan0 scan"] [] [])
       /\ py.dict_get after "wlan0" = Some entry
       /\ py.dict_get entry "scanning" = Some networking.PyTrue.
Proof.
  assert (Hrun :
            networking.list_interfaces example_ioctl example_if_nameindex true
            = networking.Ok
                [("65-65-65-65-65-65", "enp3s0");
                 ("77-77-77-77-77-77", "wlan0")])
    by reflexivity.
  assert (Htype :
            networking.iface_type example_isdir example_isfile "wlan0"
            = "WIRELESS") by reflexivity.
  split; [exact Hrun|]. split; [exact Htype|].
  destruct (wireless_scan_marks_scanning example_ioctl example_if_nameindex
              example_isdir example_isfile example_SysCommand "wlan0" _
              example_net Hrun (or_intror (or_introl eq_refl)) Htype)
    as (after & entry & Hscan & Hget & Hflag & _).
  exists after, entry. repeat split; assumption.
Defined.

Lemma get_wireless_networks_scans_once_witness :
  networking.get_wireless_networks example_ioctl example_if_nameindex
    example_isdir example_isfile example_SysCommand "wlan0"
    example_net_not_scanning
  = (networking.Ok tt, example_net_scanned)
  /\ networking.commands example_net_scanned
     = ["iwctl station wlan0 scan"; "iwctl station wlan0 get-networks"]
  /\ networking.slept example_net_scanned = [5]
  /\ exists d entry v,
       networking.wifi example_net_scanned = Some d
       /\ py.dict_get d "wlan0" = Some entry
       /\ py.dict_get entry "scanning" = Some v
       /\ v <> networking.PyFalse.
Proof.
  assert (Hrun :
            networking.get_wireless_networks example_ioctl
              example_if_nameindex example_isdir example_isfile
              example_SysCommand "wlan0" example_net_not_scanning
            = (networking.Ok tt, example_net_scanned)) by reflexivity.
  split; [exact Hrun|].
  destruct (get_wireless_networks_scans_once example_ioctl
              example_if_nameindex example_isdir example_isfile
              example_SysCommand "wlan0" example_net_not_scanning
              example_net_scanned Hrun)
    as (_ & Hnot & Hmarked & _).
  assert (Hbefore :
            ~ exists d entry v,
                networking.wifi example_net_not_scanning = Some d
                /\ py.dict_get d "wlan0" = Some entry
                /\ py.dict_get entry "scanning" = Some v
                /\ v <> networking.PyFalse).
  { intros (d & entry & v & Hd & He & Hv & Hne).
    injection Hd as <-. injection He as <-. injection Hv as <-.
    now contradiction Hne. }
  destruct (Hnot Hbefore) as [Hcommands Hslept].
  split; [exact Hcommands|]. split; [exact Hslept|exact Hmarked].
Defined.

Lemma manual_partitioning_keeps_partitioned_devices_witness :
  exists result s',
    _manual_partitioning example_manual_partitioning [0; 1] [0; 1; 2]
      example_session_partitioned
    = (Return result, s')
    /\ result = [1; 2]
    /\ exists answers,
         manual_rounds example_manual_partitioning
           (world example_session_partitioned) [0; 1; 2] answers (world s')
         /\ dialogs s'
            = dialogs example_session_partitioned
              ++ map (fun '(d, shown, _) => ManualPartitioning d shown)
                   answers
         /\ Forall2
              (fun r '(d, _, partitions) =>
                 exists m,
                   modifications s' !! r = Some m
                   /\ disk.device m = d
                   /\ disk.partitions m <> []
                   /\ (List.NoDup [0; 1; 2] ->
                       disk.partitions m = partitions))
              result (List.filter with_partitions answers).
Proof.
  pose proof (manual_partitioning_keeps_partitioned_devices
                example_manual_partitioning [0; 1] [0; 1; 2]
                example_session_partitioned) as H.
  evaluated_run H Hres.
  eexists _, _. split; [exact Hres|]. split; [reflexivity|].
  exact (H _ _ Hres).
Defined.

Lemma manual_partitioning_wipe_flags_witness :
  exists result s' kept made,
    _manual_partitioning example_manual_partitioning [0] [0; 1; 2]
      example_session_with_preset
    = (Return result, s')
    /\ result = [0; 2]
    /\ modifications s' !! 0 = Some kept
    /\ disk.wipe kept = true
    /\ modifications s' !! 2 = Some made
    /\ disk.wipe made = false.
Proof.
  pose proof (manual_partitioning_wipe_flags
                example_manual_partitioning [0] [0; 1; 2]
                example_session_with_preset) as H.
  evaluated_run H Hres.
  specialize (H _ _ Hres).
  apply List.Forall_cons_iff in H as [(kept & Hkept & _ & Hwipe & _) H].
  apply List.Forall_cons_iff in H as [(made & Hmade & Hfalse) _].
  eexists _, _, kept, made. split; [exact Hres|].
  repeat split; assumption.
Defined.

Lemma select_devices_result_witness :
  exists result,
    select_devices example_bdevice [0; 1; 2] example_DeviceInfo_eq
      example_device_menu None example_session
    = (Return result,
       mkSession (mkWorld [] []) []
         [DeviceMenu
            (map (fun d => disk.device_info (example_bdevice d)) [0; 1; 2])
            []])
    /\ sublist result [0; 1; 2]
    /\ List.NoDup result.
Proof.
  destruct (select_devices_result example_bdevice [0; 1; 2]
              example_DeviceInfo_eq example_device_menu None example_session)
    as (result & Hrun & Hsub & Hnd & _).
  exists result. split; [exact Hrun|]. split; [exact Hsub|].
  exact (Hnd example_NoDup).
Defined.

Lemma select_disk_config_result_witness :
  exists config s',
    select_disk_config true first_entry example_bdevice [0; 1; 2]
      example_DeviceInfo_eq example_device_menu
      "Use a best-effort default partition layout" "Manual Partitioning"
      "Pre-mounted configuration" example_layout_menu "/mnt"
      example_detect_pre_mounted_mods example_manual_partitioning
      None false example_session
    = (Return (Some config), s')
    /\ layout.config_type config = layout.Default
    /\ layout.device_modifications config <> []
    /\ layout.relative_mountpoint config = None.
Proof.
  pose proof (fun r s' =>
                select_disk_config_result true first_entry example_bdevice
                  [0; 1; 2] example_DeviceInfo_eq example_device_menu
                  "Use a best-effort default partition layout"
                  "Manual Partitioning" "Pre-mounted configuration"
                  example_layout_menu "/mnt" example_detect_pre_mounted_mods
                  example_manual_partitioning None false example_session
                  s' r) as H.
  evaluated_run H Hres.
  specialize (H _ _ Hres).
  eexists _, _. split; [exact Hres|].
  destruct H as (_ & _ & Hmods & Hpath).
  split; [reflexivity|]. split; [exact Hmods|exact Hpath].
Defined.

Lemma select_disk_config_default_returns_witness :
  List.NoDup [0; 1; 2]
  /\ world example_session = mkWorld [] []
  /\ "Use a best-effort default partition layout"
     <> "Pre-mounted configuration"
  /\ exists r s',
       select_disk_config true first_entry example_bdevice [0; 1; 2]
         example_DeviceInfo_eq example_device_menu
         "Use a best-effort default partition layout" "Manual Partitioning"
         "Pre-mounted configuration" example_layout_menu "/mnt"
         example_detect_pre_mounted_mods example_manual_partitioning
         None false example_session
       = (Return r, s').
Proof.
  assert (Hne : "Use a best-effort default partition layout"
                <> "Pre-mounted configuration") by discriminate.
  split; [exact example_NoDup|]. split; [reflexivity|]. split; [exact Hne|].
  destruct (select_disk_config_default_returns true first_entry
              example_bdevice [0; 1; 2] example_DeviceInfo_eq
              example_device_menu
              "Use a best-effort default partition layout"
              "Manual Partitioning" "Pre-mounted configuration"
              example_layout_menu "/mnt" example_detect_pre_mounted_mods
              example_manual_partitioning false example_session
              example_NoDup eq_refl Hne eq_refl eq_refl)
    as (r & s' & Hrun & _).
  exists r, s'. exact Hrun.
Defined.
